(** * Learning Coach: retrieval-and-relevance pipeline

    A shallow embedding of [src/rag/digest_generator.py],
    [src/utils/groq_client.py], the digest tool of [src/server.py] and the
    two store calls of [src/utils/database.py] they use, with the
    properties of the pipeline proved about it.

    Conventions.
    - A Python [str] is a list of Unicode code points ([N]).
    - A Python [float] is [pyfloat]: a finite binary64 number, given
      by the rational it is, or one of the three special values.  A
      rational that is no binary64 number stands for the nearest one,
      as a decimal literal does.  Multiplication, addition and [round]
      round to binary64 as IEEE 754 prescribes (to nearest, ties to
      even, with overflow and subnormal numbers); the sign of a zero is
      not represented.
    - A coroutine is a computation in the monad [M]: it threads the
      [World] (the record of calls made to the external services) and
      ends in a value or in a raised exception. *)

From Stdlib Require Import Ascii String.
From Stdlib Require Import List Bool Arith NArith ZArith QArith Qpower Qround
  Qabs Lia Lqa.
From Stdlib Require Import Permutation Sorted.
Import ListNotations.

Set Implicit Arguments.

(* ================================================================= *)
(** ** Python strings *)

Module PyStr.

Definition char := N.
Definition str := list char.

(** An ASCII literal of the source. *)
Definition lit (s : string) : str :=
  List.map N_of_ascii (list_ascii_of_string s).

Definition str_eqb (a b : str) : bool :=
  if list_eq_dec N.eq_dec a b then true else false.

(** [s.startswith(p)] *)
Fixpoint starts_with (p s : str) : bool :=
  match p, s with
  | [], _ => true
  | _ :: _, [] => false
  | a :: p', b :: s' => N.eqb a b && starts_with p' s'
  end.

(** [sub in s] *)
Fixpoint contains (sub s : str) : bool :=
  starts_with sub s ||
  match s with
  | [] => false
  | _ :: s' => contains sub s'
  end.

(** [s.split(sep)] for a non-empty [sep]: the leftmost occurrence of
    [sep] closes the current part, scanning resumes after it.  [skip]
    counts the characters of a matched separator still to be passed,
    [cur] is the current part, reversed. *)
Fixpoint split_from (sep : str) (skip : nat) (cur : str) (s : str)
  : list str :=
  match s with
  | [] => [rev cur]
  | c :: s' =>
      match skip with
      | S k => split_from sep k cur s'
      | O =>
          if starts_with sep s
          then rev cur :: split_from sep (length sep - 1) [] s'
          else split_from sep 0 (c :: cur) s'
      end
  end.

Definition split (sep s : str) : list str := split_from sep 0 [] s.

(** [parts[-1]] of a non-empty list; [split] never returns an empty one. *)
Definition last_part (parts : list str) : str := last parts [].

(** [ch.isspace()] as [str.strip()] uses it. *)
Definition isspace (c : char) : bool :=
  ((9 <=? c) && (c <=? 13) || (28 <=? c) && (c <=? 32)
   || (c =? 133) || (c =? 160) || (c =? 5760)
   || (8192 <=? c) && (c <=? 8202)
   || (c =? 8232) || (c =? 8233) || (c =? 8239) || (c =? 8287)
   || (c =? 12288))%N.

Fixpoint lstrip (s : str) : str :=
  match s with
  | [] => []
  | c :: s' => if isspace c then lstrip s' else s
  end.

Definition rstrip (s : str) : str := rev (lstrip (rev s)).

(** [s.strip()] *)
Definition strip (s : str) : str := rstrip (lstrip s).

(** [sep.join(parts)] *)
Fixpoint join (sep : str) (parts : list str) : str :=
  match parts with
  | [] => []
  | [p] => p
  | p :: ps => p ++ sep ++ join sep ps
  end.

(** [s.replace(old, new)] for a one-character [old]. *)
Fixpoint replace_char (old : char) (new : str) (s : str) : str :=
  match s with
  | [] => []
  | c :: s' =>
      if N.eqb c old then new ++ replace_char old new s'
      else c :: replace_char old new s'
  end.

(** A separator no occurrence of which can overlap another one. *)
Definition unbordered (sep : str) : Prop :=
  forall pre rest,
    starts_with sep (pre ++ sep ++ rest) = true ->
    pre = [] \/ (List.length sep <= List.length pre)%nat.

(** [not s] *)
Definition is_empty (s : str) : bool :=
  match s with [] => true | _ => false end.

(** [not l] on a list. *)
Definition is_nil {A} (l : list A) : bool :=
  match l with [] => true | _ => false end.

End PyStr.
Import PyStr.

(* ================================================================= *)
(** ** The reply post-processing of the generation client *)

Module GroqText.

Definition THINK_END : str := lit "</think>".
Definition THINK_START : str := lit "<think>".
Definition ONLY_THINKING : str :=
  lit "Error: Model only generated thinking process, no insight produced.".
Definition INCOMPLETE : str :=
  lit "Error: Incomplete response - thinking process not finished.".

(** [GroqClient._extract_final_output] *)
Definition _extract_final_output (text : str) : str :=
  if contains THINK_END text then
    let parts := split THINK_END text in
    let final_output := strip (last_part parts) in
    if negb (is_empty final_output) then final_output
    else ONLY_THINKING
  else if contains THINK_START text then INCOMPLETE
  else strip text.

End GroqText.
Import GroqText.

(* ================================================================= *)
(** ** Python floats *)

Module PyFloat.

(** A float.  [Fin q] is the finite binary64 number [q]; where [q] is
    no binary64 number, as for the decimal [0.4], it stands for the one
    nearest to it, which [value] gives and the arithmetic uses. *)
Inductive pyfloat : Type :=
| Fin (q : Q)
| PInf
| NInf
| NaN.

Definition Qlt_bool (x y : Q) : bool := negb (Qle_bool y x).

(** [a < b], on the rationals: this is the order of the floats on
    binary64 numbers. *)
Definition f_lt (a b : pyfloat) : bool :=
  match a, b with
  | NaN, _ | _, NaN => false
  | Fin x, Fin y => Qlt_bool x y
  | NInf, NInf => false
  | NInf, _ => true
  | _, NInf => false
  | PInf, _ => false
  | Fin _, PInf => true
  end.

(** [a == b] *)
Definition f_eq (a b : pyfloat) : bool :=
  match a, b with
  | Fin x, Fin y => Qeq_bool x y
  | PInf, PInf => true
  | NInf, NInf => true
  | _, _ => false
  end.

(** [a <= b] *)
Definition f_le (a b : pyfloat) : bool := f_lt a b || f_eq a b.

Definition is_nan (a : pyfloat) : bool :=
  match a with NaN => true | _ => false end.

(** The builtin [min(a, b)]: the later argument wins only when it
    compares strictly smaller. *)
Definition py_min (a b : pyfloat) : pyfloat := if f_lt b a then b else a.

(** The builtin [max(a, b)]: the later argument wins only when it
    compares strictly greater. *)
Definition py_max (a b : pyfloat) : pyfloat := if f_lt a b then b else a.

(** The nearest integer, a tie going to the even one. *)
Definition round_half_even (q : Q) : Z :=
  let f := Qfloor q in
  match (q - inject_Z f ?= 1 # 2)%Q with
  | Lt => f
  | Gt => (f + 1)%Z
  | Eq => if Z.even f then f else (f + 1)%Z
  end.

(** *** binary64 *)

(** [2^e] *)
Definition pow2 (e : Z) : Q := 2 ^ e.

(** [floor(log2 q)] for [q > 0] *)
Definition ilog2 (q : Q) : Z :=
  let l := (Z.log2 (Qnum q) - Z.log2 (Zpos (Qden q)))%Z in
  if Qle_bool (pow2 l) q then l else (l - 1)%Z.

(** The exponent of the unit in the last place of the binary64 numbers
    of the binade of [q > 0]: 52 places below the leading bit, and
    never below that of the subnormal numbers. *)
Definition ulp_exponent (q : Q) : Z := Z.max (ilog2 q - 52) (-1074).

(** Rounding [q > 0] to 53 significant bits, a tie going to the even
    significand; the exponent is not bounded above. *)
Definition nearest_pos (q : Q) : Q :=
  let ulp := pow2 (ulp_exponent q) in
  inject_Z (round_half_even (q / ulp)) * ulp.

Definition nearest (q : Q) : Q :=
  match (q ?= 0)%Q with
  | Eq => 0
  | Gt => nearest_pos q
  | Lt => - nearest_pos (- q)
  end.

(** The largest binary64 number, [(2^53 - 1) * 2^971]. *)
Definition MAX_FLOAT : Q := inject_Z ((2 ^ 53 - 1) * 2 ^ 971).

(** The binary64 result of an operation whose exact result is [q]:
    round to nearest, ties to even, and to an infinity when the rounded
    value is beyond the largest number. *)
Definition b64 (q : Q) : pyfloat :=
  let r := nearest q in
  if Qlt_bool MAX_FLOAT r then PInf
  else if Qlt_bool r (- MAX_FLOAT) then NInf
  else Fin r.

(** The binary64 number a finite float [Fin q] stands for: [q] itself
    when it is one, else the nearest one. *)
Definition value (q : Q) : Q :=
  let r := nearest q in
  if Qlt_bool MAX_FLOAT r then MAX_FLOAT
  else if Qlt_bool r (- MAX_FLOAT) then - MAX_FLOAT
  else r.

Definition scale_inf (inf : pyfloat) (q : Q) : pyfloat :=
  match (q ?= 0)%Q with
  | Eq => NaN
  | Gt => inf
  | Lt => match inf with PInf => NInf | NInf => PInf | x => x end
  end.

(** [a * b] *)
Definition f_mul (a b : pyfloat) : pyfloat :=
  match a, b with
  | NaN, _ | _, NaN => NaN
  | Fin x, Fin y => b64 (value x * value y)
  | Fin x, i => scale_inf i (value x)
  | i, Fin y => scale_inf i (value y)
  | PInf, PInf | NInf, NInf => PInf
  | PInf, NInf | NInf, PInf => NInf
  end.

(** [a + b] *)
Definition f_add (a b : pyfloat) : pyfloat :=
  match a, b with
  | NaN, _ | _, NaN => NaN
  | Fin x, Fin y => b64 (value x + value y)
  | PInf, NInf | NInf, PInf => NaN
  | PInf, _ | _, PInf => PInf
  | NInf, _ | _, NInf => NInf
  end.

(** [round(x, ndigits)] for [ndigits >= 0]: the decimal with [ndigits]
    places nearest to the value of [x], a tie going to the even last
    digit, read back as a float; the special values round to
    themselves. *)
Definition py_round (x : pyfloat) (ndigits : nat) : pyfloat :=
  match x with
  | Fin q =>
      let scale := inject_Z (10 ^ Z.of_nat ndigits) in
      b64 (inject_Z (round_half_even (value q * scale)) / scale)
  | _ => x
  end.

(** [0 <= x <= 1] *)
Definition in_unit (x : pyfloat) : Prop :=
  match x with
  | Fin q => (0 <= q /\ q <= 1)%Q
  | _ => False
  end.

(** [x] is a finite float between [lo] and [hi]. *)
Definition within (lo hi : Q) (x : pyfloat) : Prop :=
  match x with
  | Fin q => (lo <= q <= hi)%Q
  | _ => False
  end.

Arguments nearest : simpl never.
Arguments value : simpl never.
Arguments b64 : simpl never.

End PyFloat.
Import PyFloat.

(* ================================================================= *)
(** ** Naive and aware datetimes *)

Module PyTime.

(** A [datetime]: the wall-clock reading in microseconds since
    0001-01-01T00:00:00, and the UTC offset in microseconds when the
    value is timezone-aware. *)
Record datetime : Type := {
  dt_wall : Z;
  dt_utcoffset : option Z
}.

Definition US_PER_DAY : Z := 86400000000.

(** A [timedelta], in microseconds. *)
Definition timedelta := Z.

(** [timedelta.days]: the normalised day count, rounded down. *)
Definition days (d : timedelta) : Z := d / US_PER_DAY.

End PyTime.
Import PyTime.

(* ================================================================= *)
(** ** Exceptions, the trace of external calls and the monad *)

Inductive exn : Type :=
| ValueError (msg : str)
| KeyError (key : str)
| TypeError (msg : str)
| AttributeError (msg : str)
| ServiceError (msg : str).

Definition is_ValueError (e : exn) : bool :=
  match e with ValueError _ => true | _ => false end.

(** [str(e)] *)
Definition str_of_exn (e : exn) : str :=
  match e with
  | ValueError m | TypeError m | AttributeError m | ServiceError m => m
  | KeyError k => lit "'" ++ k ++ lit "'"
  end.

Inductive result (A : Type) : Type :=
| Ok (a : A)
| Raise (e : exn).
Arguments Ok {A} a.
Arguments Raise {A} e.

(** [a - b] on datetimes. *)
Definition datetime_sub (a b : datetime) : result timedelta :=
  match dt_utcoffset a, dt_utcoffset b with
  | None, None => Ok (dt_wall a - dt_wall b)%Z
  | Some oa, Some ob => Ok ((dt_wall a - oa) - (dt_wall b - ob))%Z
  | _, _ =>
      Raise (TypeError
               (lit "can't subtract offset-naive and offset-aware datetimes"))
  end.

(** A row of [learning_content] as the similarity search returns it. *)
Record metadata : Type := {
  md_published : option str;
  md_other : list (str * str)
}.

Definition empty_metadata : metadata :=
  {| md_published := None; md_other := [] |}.

Record item : Type := {
  it_id : option Z;
  it_title : option str;
  it_content : option str;
  it_source_url : option str;
  it_similarity : option pyfloat;
  it_metadata : option metadata
}.

(** The learner context dict; a key may be missing. *)
Record user_context : Type := {
  uc_current_week : option Z;
  uc_current_topics : option (list str);
  uc_learning_goals : option str
}.

(** A row of [user_progress]. *)
Record user_progress : Type := {
  up_current_week : Z;
  up_current_topics : list str;
  up_learning_goals : option str
}.

Record insight : Type := {
  in_insight : str;
  in_content_id : option Z;
  in_title : str;
  in_source_url : str;
  in_relevance_score : pyfloat;
  in_similarity_score : pyfloat;
  in_metadata : metadata
}.

(** The digest dict: the terminal digest has three keys only. *)
Record digest : Type := {
  dg_date : str;
  dg_week : option Z;
  dg_topics : option (list str);
  dg_summary : str;
  dg_insights : list insight;
  dg_total_insights : option nat
}.

(** The arguments of the three kinds of chat completion; the prompt is
    kept as the values the source interpolates into it. *)
Inductive prompt : Type :=
| InsightPrompt (week : Z) (topics : list str) (goals : str) (content : str)
| SummaryPrompt (week : Z) (topics : list str) (n_insights : nat)
| RelevancePrompt (topics : list str) (content : str).

Record chat_call : Type := {
  cc_model : str;
  cc_prompt : prompt;
  cc_max_tokens : Z;
  cc_temperature : Q
}.

Record search_call : Type := {
  sc_query_embedding : list Q;
  sc_match_threshold : Q;
  sc_match_count : Z
}.

Record insight_row : Type := {
  ir_insight : str;
  ir_content_id : option Z;
  ir_relevance_score : pyfloat;
  ir_week : Z
}.

(** One call that left the process. *)
Inductive event : Type :=
| EvSearch (c : search_call)
| EvChat (c : chat_call)
| EvSelectProgress
| EvInsertInsight (r : insight_row).

(** The world is the trace of the calls made so far, oldest first. *)
Definition World := list event.

(** The similarity searches of a trace, oldest first. *)
Fixpoint searches (w : World) : list search_call :=
  match w with
  | [] => []
  | EvSearch c :: w' => c :: searches w'
  | _ :: w' => searches w'
  end.

Definition M (A : Type) : Type := World -> result A * World.

Definition ret {A} (a : A) : M A := fun w => (Ok a, w).

Definition raise {A} (e : exn) : M A := fun w => (Raise e, w).

Definition bind {A B} (m : M A) (k : A -> M B) : M B :=
  fun w =>
    match m w with
    | (Ok a, w') => k a w'
    | (Raise e, w') => (Raise e, w')
    end.

(** [try: body except <matching>: handler]; the calls the body made
    before it raised stay in the trace. *)
Definition try_except {A} (body : M A) (catches : exn -> bool)
  (handler : exn -> M A) : M A :=
  fun w =>
    match body w with
    | (Ok a, w') => (Ok a, w')
    | (Raise e, w') => if catches e then handler e w' else (Raise e, w')
    end.

Definition any_Exception (_ : exn) : bool := true.

(** [d[key]] on a field that may be missing. *)
Definition getitem {A} (key : string) (field : option A) : M A :=
  match field with
  | Some a => ret a
  | None => raise (KeyError (lit key))
  end.

(** [d.get(key, default)] *)
Definition get {A} (field : option A) (default : A) : A :=
  match field with
  | Some a => a
  | None => default
  end.

Declare Scope py_scope.
Delimit Scope py_scope with py.
Notation "x <- m ;; k" := (bind m (fun x => k))
  (at level 61, m at next level, right associativity) : py_scope.
Open Scope py_scope.

(* ================================================================= *)
(** ** Library functions and external services *)

(** The two parsers and the printer of the Python library the pipeline
    calls.  [None] stands for the [ValueError] of a failed parse. *)
Class PyLib : Type := {
  float_of_str : str -> option pyfloat;
  fromisoformat : str -> option datetime;
  isoformat : Z -> str
}.

(** What the outside answers.  A reply may depend on every call made
    before it; the clock reads naive UTC in microseconds. *)
Class Services : Type := {
  encode : str -> list Q;
  match_learning_content : World -> search_call -> result (list item);
  chat_completions_create : World -> chat_call -> result (option str);
  select_user_progress : World -> result (list user_progress);
  insert_daily_insight : World -> insight_row -> result unit;
  clock : World -> Z
}.

(** [l[:n]] *)
Definition slice_to {A} (l : list A) (n : Z) : list A :=
  if (0 <=? n)%Z then firstn (Z.to_nat n) l
  else firstn (List.length l - Z.to_nat (- n)) l.

(** The stable ascending sort: each element, taken from the left, goes
    after the elements already placed that are not greater than it.  On
    keys that [<] orders totally, that is when none is a NaN, every
    stable sort returns this list, and so does [list.sort]; the order
    [list.sort] leaves when a key is a NaN depends on its run detection
    and binary search, which are not modelled. *)
Section ListSort.
Variable A : Type.
Variable key : A -> pyfloat.

Fixpoint insert_sorted (x : A) (l : list A) : list A :=
  match l with
  | [] => [x]
  | y :: l' =>
      if f_lt (key x) (key y) then x :: l
      else y :: insert_sorted x l'
  end.

Definition sort_ascending (l : list A) : list A :=
  fold_left (fun acc x => insert_sorted x acc) l [].

(** [l.sort(key=key, reverse=reverse)]: a reverse sort reverses the
    list, sorts it ascending and reverses the result. *)
Definition list_sort (reverse : bool) (l : list A) : list A :=
  if reverse then rev (sort_ascending (rev l)) else sort_ascending l.

(** The vocabulary of the sort's specification: the order of the
    keys, the elements whose key equals [k], and lists no key of which
    is a NaN. *)
Definition key_le (a b : A) : Prop := f_le (key a) (key b) = true.
Definition key_same (k : pyfloat) (a : A) : bool := f_eq (key a) k.
Definition numeric_keys (l : list A) : Prop :=
  Forall (fun a => is_nan (key a) = false) l.
End ListSort.

Section Pipeline.
Context {lib : PyLib} {svc : Services}.

(* --------------------------------------------------------------- *)
(** *** utils/database.py *)

(** The arguments of the [match_learning_content] call. *)
Definition search_request (query_embedding : list Q) (limit : Z)
  (similarity_threshold : Q) : search_call :=
  {| sc_query_embedding := query_embedding;
     sc_match_threshold := similarity_threshold;
     sc_match_count := limit |}.

(** [SupabaseClient.search_content_by_embedding] *)
Definition search_content_by_embedding (query_embedding : list Q)
  (limit : Z) (similarity_threshold : Q) : M (list item) :=
  fun w =>
    let c := search_request query_embedding limit similarity_threshold in
    (match_learning_content w c, w ++ [EvSearch c]).

(** [SupabaseClient.get_user_progress] *)
Definition get_user_progress : M (option user_progress) :=
  fun w =>
    (match select_user_progress w with
     | Ok rows => Ok (hd_error rows)
     | Raise e => Raise e
     end, w ++ [EvSelectProgress]).

(** [SupabaseClient.store_daily_insight] *)
Definition store_daily_insight (insight_text : str)
  (content_id : option Z) (relevance_score : pyfloat) (week : Z)
  : M unit :=
  fun w =>
    let r := {| ir_insight := insight_text;
                ir_content_id := content_id;
                ir_relevance_score := relevance_score;
                ir_week := week |} in
    (insert_daily_insight w r, w ++ [EvInsertInsight r]).

(* --------------------------------------------------------------- *)
(** *** utils/groq_client.py *)

Definition default_model : str := lit "qwen/qwen3-32b".

(** [self.client.chat.completions.create(...)] followed by
    [response.choices[0].message.content]. *)
Definition chat (c : chat_call) : M (option str) :=
  fun w => (chat_completions_create w c, w ++ [EvChat c]).

(** The arguments of the completion call of [generate_insight]. *)
Definition insight_request (current_week : Z) (topics : list str)
  (goals content : str) : chat_call :=
  {| cc_model := default_model;
     cc_prompt := InsightPrompt current_week topics goals
                    (firstn 1000 content);
     cc_max_tokens := 500;
     cc_temperature := 0.7 |}.

(** The arguments of the completion call of
    [generate_daily_digest_summary]. *)
Definition summary_request (current_week : Z) (topics : list str)
  (insights : list str) : chat_call :=
  {| cc_model := default_model;
     cc_prompt := SummaryPrompt current_week topics
                    (List.length insights);
     cc_max_tokens := 150;
     cc_temperature := 0.8 |}.

(** The arguments of the completion call of
    [score_content_relevance]. *)
Definition relevance_request (user_topics : list str) (content : str)
  : chat_call :=
  {| cc_model := lit "qwen/qwen3-32b";
     cc_prompt := RelevancePrompt user_topics (firstn 500 content);
     cc_max_tokens := 10;
     cc_temperature := 0.3 |}.

Definition NO_STRIP : exn :=
  AttributeError (lit "'NoneType' object has no attribute 'strip'").

(** [content.strip()] on a reply whose content may be [None]. *)
Definition content_strip (content : option str) : M str :=
  match content with
  | Some s => ret (strip s)
  | None => raise NO_STRIP
  end.

(** [GroqClient.generate_insight] *)
Definition generate_insight (content : str) (ctx : user_context)
  : M str :=
  let current_week := get (uc_current_week ctx) 1%Z in
  let topics := get (uc_current_topics ctx) [] in
  let goals := get (uc_learning_goals ctx) [] in
  response <- chat (insight_request current_week topics goals content) ;;
  raw_output <- content_strip response ;;
  ret (_extract_final_output raw_output).

(** [GroqClient.generate_daily_digest_summary] *)
Definition generate_daily_digest_summary (insights : list str)
  (ctx : user_context) : M str :=
  let current_week := get (uc_current_week ctx) 1%Z in
  let topics := get (uc_current_topics ctx) [] in
  response <- chat (summary_request current_week topics insights) ;;
  content_strip response.

(** [float(s)] *)
Definition py_float (s : str) : M pyfloat :=
  match float_of_str s with
  | Some x => ret x
  | None => raise (ValueError (lit "could not convert string to float"))
  end.

(** [GroqClient.score_content_relevance] *)
Definition score_content_relevance (content : str)
  (user_topics : list str) : M pyfloat :=
  response <- chat (relevance_request user_topics content) ;;
  try_except
    (stripped <- content_strip response ;;
     score <- py_float stripped ;;
     ret (py_max (Fin 0.0) (py_min (Fin 1.0) score)))
    is_ValueError
    (fun _ => ret (Fin 0.5)).

(* --------------------------------------------------------------- *)
(** *** rag/digest_generator.py *)

(** [DigestGenerator.generate_embedding] *)
Definition generate_embedding (text : str) : list Q := encode text.

(** [datetime.utcnow()] *)
Definition utcnow : M datetime :=
  fun w => (Ok {| dt_wall := clock w; dt_utcoffset := None |}, w).

Definition PRIMARY_THRESHOLD : Q := 0.25.
Definition RELAXED_THRESHOLD : Q := 0.15.

(** [DigestGenerator.retrieve_relevant_content] *)
Definition retrieve_relevant_content (ctx : user_context) (top_k : Z)
  : M (list item) :=
  let topics := get (uc_current_topics ctx) [] in
  let query_text := join (lit " ") topics in
  if is_empty query_text then ret []
  else
    let query_embedding := generate_embedding query_text in
    relevant_content <-
      search_content_by_embedding query_embedding top_k
        PRIMARY_THRESHOLD ;;
    if (List.length relevant_content =? 0)%nat then
      search_content_by_embedding query_embedding top_k
        RELAXED_THRESHOLD
    else ret relevant_content.

(** The [if]/[elif] chain of [_calculate_freshness] on the age in
    days. *)
Definition freshness_of_age (days_old : Z) : pyfloat :=
  if (days_old <=? 0)%Z then Fin 1.0
  else if (days_old <=? 7)%Z then Fin 0.9
  else if (days_old <=? 30)%Z then Fin 0.7
  else if (days_old <=? 90)%Z then Fin 0.4
  else Fin 0.2.

(** The [try] body of [DigestGenerator._calculate_freshness]. *)
Definition freshness_of_date (published_date : str) : M pyfloat :=
  match
    fromisoformat (replace_char 90%N (lit "+00:00") published_date)
  with
  | None => raise (ValueError (lit "Invalid isoformat string"))
  | Some pub_date =>
      now <- utcnow ;;
      match datetime_sub now pub_date with
      | Raise e => raise e
      | Ok delta =>
          let days_old := days delta in
          ret (freshness_of_age days_old)
      end
  end.

(** [DigestGenerator._calculate_freshness] *)
Definition _calculate_freshness (published_date : str) : M pyfloat :=
  if is_empty published_date then ret (Fin 0.5)
  else
    try_except (freshness_of_date published_date) any_Exception
      (fun _ => ret (Fin 0.5)).

(** The weighted combination of [_calculate_relevance_score]. *)
Definition weighted_combination
  (similarity_score topic_relevance freshness_score : pyfloat)
  : pyfloat :=
  f_add (f_add (f_mul (Fin 0.4) similarity_score)
               (f_mul (Fin 0.4) topic_relevance))
        (f_mul (Fin 0.2) freshness_score).

(** [item.get("metadata", {}).get("published", "")] *)
Definition published_of (it : item) : str :=
  get (md_published (get (it_metadata it) empty_metadata)) [].

(** [DigestGenerator._calculate_relevance_score] *)
Definition _calculate_relevance_score (it : item) (ctx : user_context)
  : M pyfloat :=
  let similarity_score := get (it_similarity it) (Fin 0.5) in
  let topics := get (uc_current_topics ctx) [] in
  content <- getitem "content" (it_content it) ;;
  topic_relevance <-
    score_content_relevance (firstn 500 content) topics ;;
  freshness_score <- _calculate_freshness (published_of it) ;;
  let relevance_score :=
    weighted_combination similarity_score topic_relevance
      freshness_score in
  ret (py_round relevance_score 3).

(** The [try] body of the loop of [generate_insights_from_content]:
    the insight dict of one item. *)
Definition insight_of_item (it : item) (ctx : user_context)
  : M insight :=
  content <- getitem "content" (it_content it) ;;
  insight_text <- generate_insight content ctx ;;
  relevance_score <- _calculate_relevance_score it ctx ;;
  ret {| in_insight := insight_text;
         in_content_id := it_id it;
         in_title := get (it_title it) [];
         in_source_url := get (it_source_url it) [];
         in_relevance_score := relevance_score;
         in_similarity_score := get (it_similarity it) (Fin 0.0);
         in_metadata := get (it_metadata it) empty_metadata |}.

(** The loop of [generate_insights_from_content]: an item whose body
    raises is skipped. *)
Fixpoint collect_insights (items : list item) (ctx : user_context)
  (insights : list insight) : M (list insight) :=
  match items with
  | [] => ret insights
  | it :: rest =>
      insights' <-
        try_except
          (ins <- insight_of_item it ctx ;; ret (insights ++ [ins]))
          any_Exception
          (fun _ => ret insights) ;;
      collect_insights rest ctx insights'
  end.

(** [DigestGenerator.generate_insights_from_content] *)
Definition generate_insights_from_content (content_items : list item)
  (ctx : user_context) (max_insights : Z) : M (list insight) :=
  insights <-
    collect_insights (slice_to content_items max_insights) ctx [] ;;
  ret (list_sort in_relevance_score true insights).

(** The loop that persists the insights of a digest. *)
Fixpoint store_insights (insights : list insight) (week : Z) : M unit :=
  match insights with
  | [] => ret tt
  | i :: rest =>
      _ <- store_daily_insight (in_insight i) (in_content_id i)
             (in_relevance_score i) week ;;
      store_insights rest week
  end.

Definition NO_PROGRESS : str :=
  lit "No progress found. Please set your learning progress first using update_progress.".
Definition NO_CONTENT : str :=
  lit "No relevant content found for your topics today.".

(** The [user_context] dict [generate_daily_digest] builds from the
    stored progress. *)
Definition context_of_progress (user_progress : user_progress)
  : user_context :=
  {| uc_current_week := Some (up_current_week user_progress);
     uc_current_topics := Some (up_current_topics user_progress);
     uc_learning_goals :=
       Some (get (up_learning_goals user_progress) []) |}.

(** The digest returned when nothing was retrieved. *)
Definition no_content_digest (date : str) : digest :=
  {| dg_date := date;
     dg_week := None;
     dg_topics := None;
     dg_summary := NO_CONTENT;
     dg_insights := [];
     dg_total_insights := None |}.

(** [DigestGenerator.generate_daily_digest] *)
Definition generate_daily_digest (num_insights : Z) : M digest :=
  progress <- get_user_progress ;;
  match progress with
  | None => raise (ValueError NO_PROGRESS)
  | Some user_progress =>
      let ctx := context_of_progress user_progress in
      relevant_content <-
        retrieve_relevant_content ctx (num_insights * 2) ;;
      if is_nil relevant_content then
        now <- utcnow ;;
        ret (no_content_digest (isoformat (dt_wall now)))
      else
        insights <-
          generate_insights_from_content relevant_content ctx
            num_insights ;;
        _ <- store_insights insights (up_current_week user_progress) ;;
        summary <-
          generate_daily_digest_summary (List.map in_insight insights)
            ctx ;;
        now <- utcnow ;;
        ret {| dg_date := isoformat (dt_wall now);
               dg_week := Some (up_current_week user_progress);
               dg_topics := Some (up_current_topics user_progress);
               dg_summary := summary;
               dg_insights := insights;
               dg_total_insights := Some (List.length insights) |}
  end.

End Pipeline.

(** [l] keeps some of the elements of [m], in the order of [m]. *)
Inductive subsequence {A : Type} : list A -> list A -> Prop :=
| subsequence_nil : subsequence [] []
| subsequence_skip : forall x l m,
    subsequence l m -> subsequence l (x :: m)
| subsequence_keep : forall x l m,
    subsequence l m -> subsequence (x :: l) (x :: m).

(** Descending by relevance score. *)
Definition sorted_descending (l : list insight) : Prop :=
  StronglySorted (fun a b => key_le in_relevance_score b a) l.

(** The similarity a candidate carries, when it carries one, is in
    [0,1]. *)
Definition similarity_in_unit (it : item) : Prop :=
  match it_similarity it with
  | Some s => in_unit s
  | None => True
  end.

(* ================================================================= *)
(** ** server.py *)

Module Server.
Section Tool.
Context {lib : PyLib} {svc : Services}.

(** The dict the digest tool answers with. *)
Inductive tool_reply : Type :=
| Success (d : digest)
| Failure (error : str).

(** The tool [generate_daily_digest]: it never raises. *)
Definition generate_daily_digest (num_insights : Z)
  : World -> tool_reply * World :=
  fun w =>
    match generate_daily_digest num_insights w with
    | (Ok d, w') => (Success d, w')
    | (Raise e, w') => (Failure (str_of_exn e), w')
    end.
End Tool.
End Server.

(* ================================================================= *)
(** ** A concrete library and scripted services, for running the model *)

Module Demo.

Definition digit (c : char) : option Z :=
  if ((48 <=? c) && (c <=? 57))%N then Some (Z.of_N c - 48)%Z else None.

Fixpoint digits_value (acc : Z) (s : str) : option Z :=
  match s with
  | [] => Some acc
  | c :: s' =>
      match digit c with
      | Some d => digits_value (acc * 10 + d) s'
      | None => None
      end
  end.

(** The digits before the first ['.'] and the text after it. *)
Fixpoint cut_at_point (s : str) : str * option str :=
  match s with
  | [] => ([], None)
  | c :: s' =>
      if (c =? 46)%N then ([], Some s')
      else let (a, b) := cut_at_point s' in (c :: a, b)
  end.

Definition unsigned_decimal (s : str) : option Q :=
  let (ip, fp) := cut_at_point s in
  let fp := match fp with Some f => f | None => [] end in
  if is_empty ip && is_empty fp then None
  else
    match digits_value 0 ip, digits_value 0 fp with
    | Some i, Some f =>
        let p := (10 ^ Z.of_nat (List.length fp))%Z in
        Some (Qred (inject_Z (i * p + f) / inject_Z p))
    | _, _ => None
    end.

(** [float(s)] on plain decimal literals, ["nan"], ["inf"] and
    ["-inf"]; the other spellings [float] accepts are not recognised. *)
Definition parse_float (s : str) : option pyfloat :=
  let t := strip s in
  if str_eqb t (lit "nan") then Some NaN
  else if str_eqb t (lit "inf") then Some PInf
  else if str_eqb t (lit "-inf") then Some NInf
  else
    match t with
    | 45%N :: u => option_map (fun q => Fin (- q)) (unsigned_decimal u)
    | 43%N :: u => option_map Fin (unsigned_decimal u)
    | _ => option_map Fin (unsigned_decimal t)
    end.

Definition is_leap (y : Z) : bool :=
  ((y mod 4 =? 0) && (negb (y mod 100 =? 0) || (y mod 400 =? 0)))%Z.

Definition days_in_month (y m : Z) : Z :=
  if (m =? 2)%Z then (if is_leap y then 29 else 28)%Z
  else if ((m =? 4) || (m =? 6) || (m =? 9) || (m =? 11))%Z then 30%Z
  else 31%Z.

Fixpoint days_before_month (y : Z) (m : nat) : Z :=
  match m with
  | O => 0
  | S k => (days_before_month y k + days_in_month y (Z.of_nat (S k)))%Z
  end.

(** Days from 0001-01-01 to the given date. *)
Definition days_before (y m d : Z) : Z :=
  let p := (y - 1)%Z in
  (p * 365 + p / 4 - p / 100 + p / 400
   + days_before_month y (Z.to_nat (m - 1)) + (d - 1))%Z.

Definition number (s : str) (from len : nat) : option Z :=
  let t := firstn len (skipn from s) in
  if (List.length t =? len)%nat then digits_value 0 t else None.

Definition char_at (s : str) (i : nat) : char := nth i s 0%N.

(** [datetime.fromisoformat] on [YYYY-MM-DDTHH:MM:SS] with an optional
    [+HH:MM] or [-HH:MM]; the other forms it accepts are not
    recognised. *)
Definition parse_iso (s : str) : option datetime :=
  match number s 0 4, number s 5 2, number s 8 2,
        number s 11 2, number s 14 2, number s 17 2 with
  | Some y, Some mo, Some d, Some h, Some mi, Some se =>
      if ((char_at s 4 =? 45) && (char_at s 7 =? 45)
          && (char_at s 10 =? 84) && (char_at s 13 =? 58)
          && (char_at s 16 =? 58))%N
         && ((1 <=? y) && (1 <=? mo) && (mo <=? 12) && (1 <=? d)
             && (d <=? days_in_month y mo) && (h <? 24) && (mi <? 60)
             && (se <? 60))%Z
      then
        let wall :=
          ((days_before y mo d * 86400 + h * 3600 + mi * 60 + se)
           * 1000000)%Z in
        match skipn 19 s with
        | [] => Some {| dt_wall := wall; dt_utcoffset := None |}
        | sign :: tz =>
            match number tz 0 2, number tz 3 2 with
            | Some oh, Some om =>
                if ((List.length tz =? 5)%nat
                    && (char_at tz 2 =? 58)%N
                    && ((sign =? 43) || (sign =? 45))%N
                    && ((oh <? 24) && (om <? 60))%Z)
                then
                  let off := ((oh * 3600 + om * 60) * 1000000)%Z in
                  Some {| dt_wall := wall;
                          dt_utcoffset :=
                            Some (if (sign =? 45)%N then (- off)%Z
                                  else off) |}
                else None
            | _, _ => None
            end
        end
      else None
  | _, _, _, _, _, _ => None
  end.

#[export] Instance lib : PyLib := {|
  float_of_str := parse_float;
  fromisoformat := parse_iso;
  isoformat := fun _ => lit "<now>"
|}.

(** Services that answer from a script: the rows of the primary and of
    the relaxed search, the reply to an insight prompt and to a
    relevance prompt as a function of the content sent, the stored
    progress and a fixed clock. *)
Definition scripted (primary relaxed : list item)
  (insight_reply relevance_reply : str -> result (option str))
  (progress : list user_progress) (now : Z) : Services := {|
  encode := fun s => [inject_Z (Z.of_nat (List.length s))];
  match_learning_content := fun _ c =>
    Ok (if Qle_bool PRIMARY_THRESHOLD (sc_match_threshold c)
        then primary else relaxed);
  chat_completions_create := fun _ c =>
    match cc_prompt c with
    | InsightPrompt _ _ _ content => insight_reply content
    | RelevancePrompt _ content => relevance_reply content
    | SummaryPrompt _ _ _ => Ok (Some (lit "Keep going."))
    end;
  select_user_progress := fun _ => Ok progress;
  insert_daily_insight := fun _ _ => Ok tt;
  clock := fun _ => now
|}.

(** The wall-clock reading of a timestamp the parser accepts. *)
Definition wall_of (s : str) : Z :=
  match parse_iso s with
  | Some d => dt_wall d
  | None => 0
  end.

Definition NOON_1_JUNE_2024 : Z := wall_of (lit "2024-06-01T12:00:00").

Definition doc (id : Z) (content : str) (similarity : option pyfloat)
  (published : option str) : item :=
  {| it_id := Some id;
     it_title := Some (lit "title");
     it_content := Some content;
     it_source_url := Some (lit "https://example.org");
     it_similarity := similarity;
     it_metadata :=
       Some {| md_published := published; md_other := [] |} |}.

Definition doc_recent : item :=
  doc 1 (lit "Attention is all you need.") (Some (Fin 0.6))
    (Some (lit "2024-05-30T09:00:00")).

Definition doc_utc : item :=
  doc 2 (lit "Transformers from scratch.") (Some (Fin 0.4))
    (Some (lit "2020-01-01T00:00:00Z")).

Definition doc_unscored : item :=
  doc 3 (lit "Attention heads, visualised.") None None.

Definition doc_failing : item :=
  doc 4 (lit "unavailable") (Some (Fin 0.3)) None.

(** The generation service: it fails on the content ["unavailable"]
    and wraps its answer in a reasoning segment otherwise. *)
Definition insight_reply (content : str) : result (option str) :=
  if str_eqb content (lit "unavailable")
  then Raise (ServiceError (lit "timeout"))
  else Ok (Some (lit "<think>plan</think> Study: " ++ content)).

(** The relevance rating: a number for a content about attention, prose
    otherwise. *)
Definition relevance_reply (content : str) : result (option str) :=
  if contains (lit "Attention") content
  then Ok (Some (lit " 0.8 "))
  else Ok (Some (lit "fairly relevant")).

Definition learner (topics : list str) : user_progress :=
  {| up_current_week := 3;
     up_current_topics := topics;
     up_learning_goals := None |}.

Definition TOPICS : list str := [lit "transformers"; lit "attention"].

Definition context (topics : list str) : user_context :=
  {| uc_current_week := Some 3%Z;
     uc_current_topics := Some topics;
     uc_learning_goals := Some [] |}.

(** A store that answers the primary search with [primary] and the
    relaxed one with [relaxed], for a learner with [topics]. *)
Definition services (primary relaxed : list item) (topics : list str)
  : Services :=
  scripted primary relaxed insight_reply relevance_reply
    [learner topics] NOON_1_JUNE_2024.

End Demo.

(* ================================================================= *)
(** ** Vocabulary of the further properties *)

(** No character of [m] is whitespace. *)
Definition no_space (m : str) : bool :=
  forallb (fun c => negb (isspace c)) m.

(** Every character of [s] is whitespace. *)
Definition blank (s : str) : bool := forallb isspace s.

(** [it] with the content [c]. *)
Definition with_content (it : item) (c : str) : item :=
  {| it_id := it_id it;
     it_title := it_title it;
     it_content := Some c;
     it_source_url := it_source_url it;
     it_similarity := it_similarity it;
     it_metadata := it_metadata it |}.

(** The completion calls of a trace, oldest first. *)
Fixpoint chats (w : World) : list chat_call :=
  match w with
  | [] => []
  | EvChat c :: w' => c :: chats w'
  | _ :: w' => chats w'
  end.

(** The insight rows a trace sent to the store, oldest first. *)
Fixpoint inserts (w : World) : list insight_row :=
  match w with
  | [] => []
  | EvInsertInsight r :: w' => r :: inserts w'
  | _ :: w' => inserts w'
  end.

(** The row [generate_daily_digest] stores for an insight. *)
Definition row_of_insight (week : Z) (i : insight) : insight_row :=
  {| ir_insight := in_insight i;
     ir_content_id := in_content_id i;
     ir_relevance_score := in_relevance_score i;
     ir_week := week |}.

(** A bound on the calls of a piece of trace: at most [s] similarity
    searches, [c] completion calls and [i] insight rows. *)
Definition calls (s c i : nat) (ext : World) : Prop :=
  (List.length (searches ext) <= s)%nat
  /\ (List.length (chats ext) <= c)%nat
  /\ (List.length (inserts ext) <= i)%nat.

(** Whatever its outcome, the computation only appends to the trace,
    and what it appends satisfies [P]. *)
Definition appends {A} (P : World -> Prop) (m : M A) : Prop :=
  forall w, exists ext, snd (m w) = w ++ ext /\ P ext.

(** ** The progress tool of server.py *)

Module Tools.

(** The dict a tool answers with: a payload, or an error message. *)
Inductive reply (A : Type) : Type :=
| Succeeded (payload : A)
| Failed (error : str).
Arguments Succeeded {A} payload.
Arguments Failed {A} error.

Definition NO_PROGRESS_FOUND : str := lit "No progress found".

(** The tool [get_progress]. *)
Definition get_progress {svc : Services}
  : World -> reply user_progress * World :=
  fun w =>
    match get_user_progress w with
    | (Ok (Some progress), w') => (Succeeded progress, w')
    | (Ok None, w') => (Failed NO_PROGRESS_FOUND, w')
    | (Raise e, w') => (Failed (str_of_exn e), w')
    end.

End Tools.

(** Services that answer as [base] does, except that the store refuses
    the insight rows [refused] selects. *)
Definition with_failing_store (base : Services)
  (refused : insight_row -> bool) : Services := {|
  encode := @encode base;
  match_learning_content := @match_learning_content base;
  chat_completions_create := @chat_completions_create base;
  select_user_progress := @select_user_progress base;
  insert_daily_insight := fun w r =>
    if refused r then Raise (ServiceError (lit "insert failed"))
    else @insert_daily_insight base w r;
  clock := @clock base
|}.

(** The fields an insight copies from its candidate. *)
Definition copied_from (it : item) (i : insight) : Prop :=
  in_content_id i = it_id it
  /\ in_title i = get (it_title it) []
  /\ in_source_url i = get (it_source_url it) []
  /\ in_metadata i = get (it_metadata it) empty_metadata
  /\ in_similarity_score i = get (it_similarity it) (Fin 0.0).

(** What holds of every insight the pipeline produces: both scores are
    in [0,1], and the text carries no end marker and no whitespace at
    its ends. *)
Definition well_formed_insight (i : insight) : Prop :=
  in_unit (in_relevance_score i)
  /\ in_unit (in_similarity_score i)
  /\ contains THINK_END (in_insight i) = false
  /\ strip (in_insight i) = in_insight i.

(* ================================================================= *)
(** ** The key-concept extraction of utils/groq_client.py *)

Module Concepts.

(** The completion call of [extract_key_concepts], as a function of the
    calls made so far, of the content sent and of the number of concepts
    asked for.  The call is not recorded in the trace. *)
Class ConceptService : Type := {
  key_concepts_create : World -> str -> Z -> result (option str)
}.

Definition COMMA : char := 44%N.

(** [[c.strip() for c in concepts_text.split(",")]] *)
Definition split_concepts (concepts_text : str) : list str :=
  List.map strip (split [COMMA] concepts_text).

(** [GroqClient.extract_key_concepts] *)
Definition extract_key_concepts {cs : ConceptService} (content : str)
  (max_concepts : Z) (w : World) : result (list str) :=
  match key_concepts_create w (firstn 1000 content) max_concepts with
  | Raise e => Raise e
  | Ok None => Raise NO_STRIP
  | Ok (Some reply) =>
      let concepts_text := strip reply in
      let concepts := split_concepts concepts_text in
      Ok (slice_to concepts max_concepts)
  end.

(** A service that always answers [reply]. *)
Definition answering (reply : str) : ConceptService :=
  {| key_concepts_create := fun _ _ _ => Ok (Some reply) |}.

End Concepts.

(* ================================================================= *)
(** ** Fetching and ingesting content *)

Module Ingestion.

(** A tag of a feed entry; [term] may be missing. *)
Record feed_tag : Type := { tag_term : option str }.

(** An entry of a parsed feed, by the attributes the fetcher reads.  A
    missing attribute is [None]; [content] holds the [value] of each
    content object; a parsed time is the wall-clock reading, in
    microseconds, of the naive datetime its first six fields denote,
    and is [None] when the attribute is missing or empty. *)
Record entry : Type := {
  e_title : option str;
  e_link : option str;
  e_summary : option str;
  e_author : option str;
  e_content : option (list str);
  e_description : option str;
  e_published_parsed : option Z;
  e_updated_parsed : option Z;
  e_tags : option (list feed_tag)
}.

(** The dict the fetcher builds for one document. *)
Record content_item : Type := {
  ci_title : option str;
  ci_link : option str;
  ci_summary : option str;
  ci_content : option str;
  ci_published : option str;
  ci_author : option str;
  ci_tags : option (list str);
  ci_source_type : option str;
  ci_source_url : option str
}.

(** The metadata dict [ingest_content_with_embeddings] stores. *)
Record stored_metadata : Type := {
  sm_summary : str;
  sm_author : str;
  sm_published : str;
  sm_tags : list str;
  sm_source_type : str
}.

(** The arguments of [store_content]. *)
Record content_row : Type := {
  cr_title : str;
  cr_content : str;
  cr_source_url : str;
  cr_embedding : list Q;
  cr_metadata : stored_metadata
}.

(** A row of [content_sources]; a key may be missing. *)
Record source : Type := {
  src_url : option str;
  src_type : option str
}.

(** The arguments of [add_content_source] of the store. *)
Record source_row : Type := {
  sr_source_url : str;
  sr_source_type : str;
  sr_tags : list str
}.

(** One call that left the process. *)
Inductive fetch_event : Type :=
| EvParseFeed (url : str)
| EvGet (url : str)
| EvInsertContent (r : content_row)
| EvInsertSource (r : source_row)
| EvSelectSources (source_type : option str).

Definition FWorld := list fetch_event.

(** The parsed page, by the queries the fetcher makes of it. *)
Class Html : Type := {
  soup : Type;
  tag : Type;
  (** [soup.find(name)] *)
  find : soup -> str -> option tag;
  (** [soup.find("meta", attrs={"name": name})] *)
  find_meta : soup -> str -> option tag;
  (** [soup.select_one(selector)] *)
  select_one : soup -> str -> option tag;
  (** [soup.find_all("p")] *)
  find_all_p : soup -> list tag;
  (** [tag.name] *)
  tag_name : tag -> str;
  (** [tag.get("content")], [None] when the attribute is missing *)
  get_content : tag -> option str;
  (** [tag.get_text(strip=True)] *)
  get_text : tag -> str;
  (** Decomposing the [script], [style], [nav] and [footer] tags below
      [article]: the page that is left, and
      [article.get_text(separator="\n", strip=True)] after it. *)
  decompose_chrome : soup -> tag -> soup * str
}.

(** What the outside answers to the fetcher and to the store calls of
    the ingestion. *)
Class Sources {html : Html} : Type := {
  (** [feedparser.parse(url).entries] *)
  feedparser_parse : FWorld -> str -> result (list entry);
  (** [session.get], [raise_for_status] and the parse of the body *)
  http_get : FWorld -> str -> result soup;
  (** the insert of [store_content]: [result.data] *)
  insert_learning_content : FWorld -> content_row -> result (list item);
  (** the insert of [add_content_source]: [result.data] *)
  insert_content_source : FWorld -> source_row -> result (list source);
  (** the query of [get_content_sources]: [result.data] *)
  select_content_sources : FWorld -> option str -> result (list source);
  fetch_clock : FWorld -> Z
}.

(** [{}] as a row of [learning_content] *)
Definition empty_row : item :=
  {| it_id := None; it_title := None; it_content := None;
     it_source_url := None; it_similarity := None; it_metadata := None |}.

(** [{}] as a row of [content_sources] *)
Definition empty_source : source := {| src_url := None; src_type := None |}.

(** [result.data[0] if result.data else {}] *)
Definition first_or {A} (empty : A) (data : list A) : A :=
  match data with
  | x :: _ => x
  | [] => empty
  end.

Definition INDEX_ERROR : exn := ServiceError (lit "list index out of range").

Section Fetcher.
Context {lib : PyLib} {html : Html} {src : Sources}.

(* --------------------------------------------------------------- *)
(** *** ingestion/content_fetcher.py *)

(** [ContentFetcher._extract_content] *)
Definition _extract_content (e : entry) : result str :=
  match e_content e with
  | Some (value :: _) => Ok value
  | Some [] => Raise INDEX_ERROR
  | None =>
      match e_summary e with
      | Some summary => Ok summary
      | None =>
          match e_description e with
          | Some description => Ok description
          | None => Ok []
          end
      end
  end.

(** [ContentFetcher._extract_tags] *)
Definition _extract_tags (e : entry) : list str :=
  match e_tags e with
  | Some tags =>
      flat_map (fun t => match tag_term t with
                         | Some term => [term]
                         | None => []
                         end) tags
  | None => []
  end.

(** [ContentFetcher._parse_date] *)
Definition _parse_date (e : entry) (w : FWorld) : str :=
  match e_published_parsed e with
  | Some t => isoformat t
  | None =>
      match e_updated_parsed e with
      | Some t => isoformat t
      | None => isoformat (fetch_clock w)
      end
  end.

(** The dict [fetch_rss_feed] builds for one entry. *)
Definition item_of_entry (feed_url : str) (e : entry) (w : FWorld)
  : result content_item :=
  match _extract_content e with
  | Raise x => Raise x
  | Ok content =>
      Ok {| ci_title := Some (get (e_title e) []);
            ci_link := Some (get (e_link e) []);
            ci_summary := Some (get (e_summary e) []);
            ci_content := Some content;
            ci_published := Some (_parse_date e w);
            ci_author := Some (get (e_author e) []);
            ci_tags := Some (_extract_tags e);
            ci_source_type := Some (lit "rss");
            ci_source_url := Some feed_url |}
  end.

(** The loop of [fetch_rss_feed]. *)
Fixpoint items_of_entries (feed_url : str) (entries : list entry)
  (w : FWorld) (items : list content_item) : result (list content_item) :=
  match entries with
  | [] => Ok items
  | e :: rest =>
      match item_of_entry feed_url e w with
      | Raise x => Raise x
      | Ok it => items_of_entries feed_url rest w (items ++ [it])
      end
  end.

(** [ContentFetcher.fetch_rss_feed]: every exception gives [[]]. *)
Definition fetch_rss_feed (feed_url : str) (max_items : Z) (w : FWorld)
  : list content_item * FWorld :=
  let w' := w ++ [EvParseFeed feed_url] in
  (match feedparser_parse w feed_url with
   | Raise _ => []
   | Ok entries =>
       match items_of_entries feed_url (slice_to entries max_items) w' []
       with
       | Ok items => items
       | Raise _ => []
       end
   end, w').

Definition NEWLINE : str := [10%N].
Definition QUOTE : str := [34%N].

Definition ARTICLE_SELECTORS : list str :=
  [lit "article"; lit "main"; lit ".post-content"; lit ".entry-content";
   lit ".article-content"; lit "#content"].

Definition AUTHOR_SELECTORS : list str :=
  [lit "meta[name=" ++ QUOTE ++ lit "author" ++ QUOTE ++ lit "]";
   lit "meta[property=" ++ QUOTE ++ lit "article:author" ++ QUOTE
     ++ lit "]";
   lit ".author"; lit ".author-name"].

(** The first tag one of the selectors, tried in order, selects. *)
Fixpoint first_selected (s : soup) (selectors : list str) : option tag :=
  match selectors with
  | [] => None
  | selector :: rest =>
      match select_one s selector with
      | Some t => Some t
      | None => first_selected s rest
      end
  end.

(** [ContentFetcher._extract_article_content]: the text, and the page
    as the decomposition leaves it. *)
Definition _extract_article_content (s : soup) : str * soup :=
  match first_selected s ARTICLE_SELECTORS with
  | Some article =>
      let (s', text) := decompose_chrome s article in (text, s')
  | None => (join NEWLINE (List.map get_text (find_all_p s)), s)
  end.

(** [ContentFetcher._extract_author] *)
Definition _extract_author (s : soup) : str :=
  match first_selected s AUTHOR_SELECTORS with
  | Some author_tag =>
      if str_eqb (tag_name author_tag) (lit "meta")
      then get (get_content author_tag) []
      else get_text author_tag
  | None => []
  end.

(** [ContentFetcher._extract_meta_tags] *)
Definition _extract_meta_tags (s : soup) : list str :=
  match find_meta s (lit "keywords") with
  | Some keywords_tag =>
      let keywords := get (get_content keywords_tag) [] in
      List.map strip (split [Concepts.COMMA] keywords)
  | None => []
  end.

(** [ContentFetcher.fetch_blog_post]: every exception gives [None]. *)
Definition fetch_blog_post (url : str) (w : FWorld)
  : option content_item * FWorld :=
  let w' := w ++ [EvGet url] in
  (match http_get w url with
   | Raise _ => None
   | Ok s =>
       let title :=
         match
           match find s (lit "h1") with
           | Some t => Some t
           | None => find s (lit "title")
           end
         with
         | Some title_tag => get_text title_tag
         | None => []
         end in
       let (content, s1) := _extract_article_content s in
       let meta_description :=
         match find_meta s1 (lit "description") with
         | Some meta_tag => get (get_content meta_tag) []
         | None => []
         end in
       Some {| ci_title := Some title;
               ci_link := Some url;
               ci_summary := Some meta_description;
               ci_content := Some content;
               ci_published := Some (isoformat (fetch_clock w'));
               ci_author := Some (_extract_author s1);
               ci_tags := Some (_extract_meta_tags s1);
               ci_source_type := Some (lit "blog");
               ci_source_url := Some url |}
   end, w').

(** The default [max_items] of [fetch_rss_feed]. *)
Definition DEFAULT_MAX_ITEMS : Z := 10.

(** The loop of [fetch_multiple_sources]. *)
Fixpoint fetch_sources (sources : list source) (w : FWorld)
  (all_content : list content_item) : list content_item * FWorld :=
  match sources with
  | [] => (all_content, w)
  | source :: rest =>
      let url := get (src_url source) [] in
      let source_type := get (src_type source) (lit "rss") in
      if str_eqb source_type (lit "rss") then
        let (items, w1) := fetch_rss_feed url DEFAULT_MAX_ITEMS w in
        fetch_sources rest w1 (all_content ++ items)
      else if str_eqb source_type (lit "blog") then
        let (found, w1) := fetch_blog_post url w in
        match found with
        | Some it => fetch_sources rest w1 (all_content ++ [it])
        | None => fetch_sources rest w1 all_content
        end
      else fetch_sources rest w all_content
  end.

(** [ContentFetcher.fetch_multiple_sources] *)
Definition fetch_multiple_sources (sources : list source) (w : FWorld)
  : list content_item * FWorld :=
  fetch_sources sources w [].

(* --------------------------------------------------------------- *)
(** *** utils/database.py *)

(** [SupabaseClient.store_content] *)
Definition store_content (row : content_row) (w : FWorld)
  : result item * FWorld :=
  (match insert_learning_content w row with
   | Ok data => Ok (first_or empty_row data)
   | Raise e => Raise e
   end, w ++ [EvInsertContent row]).

(** [SupabaseClient.add_content_source] *)
Definition db_add_content_source (row : source_row) (w : FWorld)
  : result source * FWorld :=
  (match insert_content_source w row with
   | Ok data => Ok (first_or empty_source data)
   | Raise e => Raise e
   end, w ++ [EvInsertSource row]).

(** [SupabaseClient.get_content_sources]: an empty type filters
    nothing. *)
Definition get_content_sources (source_type : option str) (w : FWorld)
  : result (list source) * FWorld :=
  let filter :=
    match source_type with
    | Some t => if is_empty t then None else Some t
    | None => None
    end in
  (select_content_sources w filter, w ++ [EvSelectSources filter]).

(* --------------------------------------------------------------- *)
(** *** rag/digest_generator.py *)

Context {svc : Services}.

(** The arguments [ingest_content_with_embeddings] hands to
    [store_content] for one item; a missing key raises. *)
Definition row_of_item (it : content_item) : result content_row :=
  match ci_title it with
  | None => Raise (KeyError (lit "title"))
  | Some title =>
      match ci_content it with
      | None => Raise (KeyError (lit "content"))
      | Some content =>
          let text_for_embedding := title ++ NEWLINE ++ NEWLINE ++ content in
          let embedding := generate_embedding text_for_embedding in
          match ci_link it with
          | None => Raise (KeyError (lit "link"))
          | Some link =>
              Ok {| cr_title := title;
                    cr_content := content;
                    cr_source_url := link;
                    cr_embedding := embedding;
                    cr_metadata :=
                      {| sm_summary := get (ci_summary it) [];
                         sm_author := get (ci_author it) [];
                         sm_published := get (ci_published it) [];
                         sm_tags := get (ci_tags it) [];
                         sm_source_type := get (ci_source_type it) [] |} |}
          end
      end
  end.

(** The loop of [ingest_content_with_embeddings]: an item whose body
    raises is skipped. *)
Fixpoint ingest_items (content_items : list content_item) (w : FWorld)
  (stored_items : list item) : list item * FWorld :=
  match content_items with
  | [] => (stored_items, w)
  | it :: rest =>
      match row_of_item it with
      | Raise _ => ingest_items rest w stored_items
      | Ok row =>
          match store_content row w with
          | (Ok stored_item, w1) =>
              ingest_items rest w1 (stored_items ++ [stored_item])
          | (Raise _, w1) => ingest_items rest w1 stored_items
          end
      end
  end.

(** [DigestGenerator.ingest_content_with_embeddings] *)
Definition ingest_content_with_embeddings
  (content_items : list content_item) (w : FWorld)
  : list item * FWorld :=
  ingest_items content_items w [].

(* --------------------------------------------------------------- *)
(** *** server.py *)

Record added_source : Type := {
  as_source : source;
  as_ingested_count : nat
}.

Definition UNSUPPORTED : str := lit "Unsupported source_type: ".

(** The tool [add_content_source]. *)
Definition add_content_source (source_url source_type : str)
  (tags : list str) (ingest_now : bool) (w : FWorld)
  : Tools.reply added_source * FWorld :=
  match
    db_add_content_source
      {| sr_source_url := source_url;
         sr_source_type := source_type;
         sr_tags := tags |} w
  with
  | (Raise e, w1) => (Tools.Failed (str_of_exn e), w1)
  | (Ok source, w1) =>
      if ingest_now then
        if str_eqb source_type (lit "rss") then
          let (content_items, w2) :=
            fetch_rss_feed source_url DEFAULT_MAX_ITEMS w1 in
          let (stored_items, w3) :=
            ingest_content_with_embeddings content_items w2 in
          (Tools.Succeeded
             {| as_source := source;
                as_ingested_count := List.length stored_items |}, w3)
        else if str_eqb source_type (lit "blog") then
          let (content_item, w2) := fetch_blog_post source_url w1 in
          let content_items :=
            match content_item with
            | Some it => [it]
            | None => []
            end in
          let (stored_items, w3) :=
            ingest_content_with_embeddings content_items w2 in
          (Tools.Succeeded
             {| as_source := source;
                as_ingested_count := List.length stored_items |}, w3)
        else (Tools.Failed (UNSUPPORTED ++ source_type), w1)
      else
        (Tools.Succeeded
           {| as_source := source; as_ingested_count := 0 |}, w1)
  end.

Record ingested : Type := {
  ig_sources_processed : nat;
  ig_items_ingested : nat
}.

Definition NO_SOURCES : str := lit "No content sources found".

(** The tool [ingest_content_from_sources]. *)
Definition ingest_content_from_sources (source_type : str)
  (max_items_per_source : Z) (w : FWorld)
  : Tools.reply ingested * FWorld :=
  match
    (if str_eqb source_type (lit "all") then get_content_sources None w
     else get_content_sources (Some source_type) w)
  with
  | (Raise e, w1) => (Tools.Failed (str_of_exn e), w1)
  | (Ok sources, w1) =>
      if is_nil sources then (Tools.Failed NO_SOURCES, w1)
      else
        let (content_items, w2) := fetch_multiple_sources sources w1 in
        let (stored_items, w3) :=
          ingest_content_with_embeddings content_items w2 in
        (Tools.Succeeded
           {| ig_sources_processed := List.length sources;
              ig_items_ingested := List.length stored_items |}, w3)
  end.

End Fetcher.

(** An item with the three keys the ingestion reads by subscript. *)
Definition complete (it : content_item) : bool :=
  match ci_title it, ci_content it, ci_link it with
  | Some _, Some _, Some _ => true
  | _, _, _ => false
  end.

(** The rows of the store calls of a trace, oldest first. *)
Fixpoint content_rows (w : FWorld) : list content_row :=
  match w with
  | [] => []
  | EvInsertContent r :: w' => r :: content_rows w'
  | _ :: w' => content_rows w'
  end.

(** The fetches of a trace: feed parses and page requests. *)
Fixpoint fetches (w : FWorld) : list str :=
  match w with
  | [] => []
  | EvParseFeed url :: w' => url :: fetches w'
  | EvGet url :: w' => url :: fetches w'
  | _ :: w' => fetches w'
  end.

End Ingestion.

(** ** A concrete page model and scripted sources, for running the
    fetcher *)

Module FetchDemo.
Import Ingestion.

(** A page by what the fetcher can ask of it. *)
Record page : Type := {
  pg_h1 : option str;
  pg_title : option str;
  pg_article : option str;
  pg_paragraphs : list str;
  pg_keywords : option str;
  pg_author : option str
}.

Record ptag : Type := {
  pt_name : str;
  pt_text : str;
  pt_content : option str
}.

Definition text_tag (name text : str) : ptag :=
  {| pt_name := name; pt_text := text; pt_content := None |}.

Definition meta_tag (content : str) : ptag :=
  {| pt_name := lit "meta"; pt_text := []; pt_content := Some content |}.

#[export] Instance html : Html := {|
  soup := page;
  tag := ptag;
  find := fun s name =>
    if str_eqb name (lit "h1") then option_map (text_tag name) (pg_h1 s)
    else if str_eqb name (lit "title")
    then option_map (text_tag name) (pg_title s)
    else None;
  find_meta := fun s name =>
    if str_eqb name (lit "keywords")
    then option_map meta_tag (pg_keywords s)
    else None;
  select_one := fun s selector =>
    if str_eqb selector (lit "article")
    then option_map (text_tag selector) (pg_article s)
    else if str_eqb selector (lit ".author")
    then option_map (text_tag (lit "span")) (pg_author s)
    else None;
  find_all_p := fun s => List.map (text_tag (lit "p")) (pg_paragraphs s);
  tag_name := pt_name;
  get_content := pt_content;
  get_text := pt_text;
  decompose_chrome := fun s t => (s, pt_text t)
|}.

(** Sources that answer from a script: the entries of each feed, the
    page at each address, the rows the store refuses, the configured
    sources and a fixed clock.  The store gives each row it accepts the
    next identifier. *)
Definition scripted (feeds : str -> result (list entry))
  (pages : str -> result page) (refused : content_row -> bool)
  (sources : list source) (now : Z) : Sources := {|
  feedparser_parse := fun _ url => feeds url;
  http_get := fun _ url => pages url;
  insert_learning_content := fun w r =>
    if refused r then Raise (ServiceError (lit "insert failed"))
    else Ok [{| it_id := Some (Z.of_nat (List.length (content_rows w)));
                it_title := Some (cr_title r);
                it_content := Some (cr_content r);
                it_source_url := Some (cr_source_url r);
                it_similarity := None;
                it_metadata := None |}];
  insert_content_source := fun _ r =>
    Ok [{| src_url := Some (sr_source_url r);
           src_type := Some (sr_source_type r) |}];
  select_content_sources := fun _ filter =>
    Ok (match filter with
        | None => sources
        | Some t =>
            List.filter
              (fun s => str_eqb (get (src_type s) []) t) sources
        end);
  fetch_clock := fun _ => now
|}.

Definition feed_entry (title : str) (content : option (list str))
  (summary : option str) : entry :=
  {| e_title := Some title;
     e_link := Some (lit "https://example.org/" ++ title);
     e_summary := summary;
     e_author := None;
     e_content := content;
     e_description := None;
     e_published_parsed := None;
     e_updated_parsed := None;
     e_tags := Some [{| tag_term := Some (lit "ml") |};
                     {| tag_term := None |}] |}.

Definition FEED : str := lit "https://example.org/feed".
Definition BROKEN_FEED : str := lit "https://example.org/broken".
Definition POST : str := lit "https://example.org/post".

(** One feed with three well-formed entries, one feed whose second
    entry has an empty content list; any other feed fails. *)
Definition feeds (url : str) : result (list entry) :=
  if str_eqb url FEED then
    Ok [feed_entry (lit "a") (Some [lit "body a"]) (Some (lit "sum a"));
        feed_entry (lit "b") None (Some (lit "sum b"));
        feed_entry (lit "c") None None]
  else if str_eqb url BROKEN_FEED then
    Ok [feed_entry (lit "a") (Some [lit "body a"]) None;
        feed_entry (lit "b") (Some []) None]
  else Raise (ServiceError (lit "unreachable")).

Definition pages (url : str) : result page :=
  if str_eqb url POST then
    Ok {| pg_h1 := None;
          pg_title := Some (lit "A post");
          pg_article := None;
          pg_paragraphs := [lit "one"; lit "two"];
          pg_keywords := Some (lit "rag, agents ,");
          pg_author := Some (lit "Ada") |}
  else Raise (ServiceError (lit "404")).

Definition rss (url : str) : source :=
  {| src_url := Some url; src_type := Some (lit "rss") |}.

Definition blog (url : str) : source :=
  {| src_url := Some url; src_type := Some (lit "blog") |}.

(** The sources above with a store that accepts every row. *)
Definition sources (configured : list source) : Sources :=
  scripted feeds pages (fun _ => false) configured Demo.NOON_1_JUNE_2024.

End FetchDemo.

(** What holds of every item the fetcher builds: the three keys the
    ingestion needs are present, and the item names its source. *)
Definition fetched_from (source_type url : str)
  (it : Ingestion.content_item) : Prop :=
  Ingestion.complete it = true
  /\ Ingestion.ci_source_type it = Some source_type
  /\ Ingestion.ci_source_url it = Some url.

(** The sources [fetch_multiple_sources] fetches: those of type
    ["rss"], which is also the type of a source without one, and
    ["blog"]. *)
Definition fetchable (s : Ingestion.source) : bool :=
  let t := get (Ingestion.src_type s) (lit "rss") in
  str_eqb t (lit "rss") || str_eqb t (lit "blog").

(** The filter [ingest_content_from_sources] hands to the store: none
    for ["all"], and none for the empty type. *)
Definition source_filter (source_type : str) : option str :=
  if str_eqb source_type (lit "all") then None
  else if is_empty source_type then None
  else Some source_type.

(* ================================================================= *)
(** * Properties *)

(** ** Substring search and splitting *)

Lemma starts_with_app (p r : str) : starts_with p (p ++ r) = true.
Proof.
  induction p as [|a p IH]; simpl; [reflexivity|].
  now rewrite N.eqb_refl, IH.
Qed.

Lemma starts_with_inv (p s : str) :
  starts_with p s = true -> exists r, s = p ++ r.
Proof.
  revert s; induction p as [|a p IH]; intros s H.
  - now exists s.
  - destruct s as [|b s]; simpl in H; [discriminate|].
    apply andb_prop in H as [Hab Hps].
    apply N.eqb_eq in Hab; subst b.
    destruct (IH _ Hps) as [r ->].
    now exists r.
Qed.

Lemma contains_intro (sub pre post : str) :
  contains sub (pre ++ sub ++ post) = true.
Proof.
  induction pre as [|c pre IH]; simpl.
  - destruct (sub ++ post) eqn:E; simpl; rewrite <- E.
    + now rewrite starts_with_app.
    + now rewrite starts_with_app.
  - rewrite IH. apply orb_true_r.
Qed.

Lemma contains_inv (sub s : str) :
  contains sub s = true -> exists pre post, s = pre ++ sub ++ post.
Proof.
  induction s as [|c s IH]; simpl; intros H.
  - rewrite orb_false_r in H.
    destruct (starts_with_inv _ _ H) as [r Hr].
    now exists [], r.
  - apply orb_prop in H as [H|H].
    + destruct (starts_with_inv _ _ H) as [r Hr].
      now exists [], r.
    + destruct (IH H) as (pre & post & ->).
      now exists (c :: pre), post.
Qed.

Lemma contains_suffix (sub a r : str) :
  contains sub (a ++ r) = false -> contains sub r = false.
Proof.
  intros H.
  destruct (contains sub r) eqn:E; [|reflexivity].
  destruct (contains_inv _ _ E) as (pre & post & ->).
  rewrite app_assoc, contains_intro in H. discriminate.
Qed.

Lemma split_from_skip (sep : str) (k : nat) (cur s : str) :
  split_from sep k cur s = split_from sep 0 cur (skipn k s).
Proof.
  revert s; induction k as [|k IH]; intros s; [reflexivity|].
  destruct s as [|c s]; [reflexivity|].
  simpl skipn. rewrite <- IH. reflexivity.
Qed.

Lemma split_from_match (sep cur s : str) :
  sep <> [] -> starts_with sep s = true ->
  split_from sep 0 cur s
  = rev cur :: split_from sep 0 [] (skipn (List.length sep) s).
Proof.
  intros Hne H.
  destruct sep as [|a sep]; [congruence|].
  destruct s as [|c s]; [discriminate|].
  cbn [split_from]. rewrite H.
  rewrite split_from_skip. simpl. now rewrite Nat.sub_0_r.
Qed.

Lemma split_from_absent (sep s cur : str) :
  contains sep s = false -> split_from sep 0 cur s = [rev cur ++ s].
Proof.
  revert cur; induction s as [|c s IH]; intros cur H.
  - simpl. now rewrite app_nil_r.
  - simpl in H. apply orb_false_elim in H as [H1 H2].
    cbn [split_from]. rewrite H1, (IH _ H2).
    simpl. now rewrite <- app_assoc.
Qed.

Lemma split_from_not_nil (sep : str) (k : nat) (cur s : str) :
  split_from sep k cur s <> [].
Proof.
  revert k cur; induction s as [|c s IH]; intros k cur; simpl.
  - discriminate.
  - destruct k; [|apply IH].
    destruct (starts_with sep (c :: s)); [discriminate|apply IH].
Qed.

Lemma last_cons_not_nil {A} (x d : A) (l : list A) :
  l <> [] -> last (x :: l) d = last l d.
Proof. destruct l; [congruence|reflexivity]. Qed.

Lemma last_split_from (sep : str) :
  sep <> [] -> unbordered sep ->
  forall n pre post cur,
    (List.length pre <= n)%nat ->
    contains sep post = false ->
    last (split_from sep 0 cur (pre ++ sep ++ post)) [] = post.
Proof.
  intros Hne Hub n.
  induction n as [|n IH]; intros pre post cur Hlen Hpost.
  - destruct pre; [|simpl in Hlen; lia].
    simpl app.
    rewrite split_from_match by (auto using starts_with_app).
    rewrite skipn_app, skipn_all, Nat.sub_diag. simpl.
    rewrite split_from_absent by assumption. reflexivity.
  - destruct (starts_with sep (pre ++ sep ++ post)) eqn:E.
    + rewrite split_from_match by assumption.
      rewrite last_cons_not_nil by apply split_from_not_nil.
      destruct (Hub _ _ E) as [->|Hle].
      * simpl app. rewrite skipn_app, skipn_all, Nat.sub_diag. simpl.
        now rewrite split_from_absent.
      * rewrite skipn_app.
        replace (List.length sep - List.length pre)%nat with 0%nat by lia.
        simpl skipn at 2.
        apply IH; [|assumption].
        rewrite length_skipn.
        destruct sep; [congruence|]. simpl in *. lia.
    + destruct pre as [|c pre].
      * simpl in E. now rewrite starts_with_app in E.
      * simpl app in *. cbn [split_from]. rewrite E.
        apply IH; [simpl in Hlen; lia|assumption].
Qed.

Lemma last_part_split (sep pre post : str) :
  sep <> [] -> unbordered sep -> contains sep post = false ->
  last_part (split sep (pre ++ sep ++ post)) = post.
Proof.
  intros. unfold last_part, split.
  now apply last_split_from with (n := List.length pre).
Qed.

Lemma last_occurrence (sep s : str) :
  sep <> [] -> contains sep s = true ->
  exists pre post, s = pre ++ sep ++ post /\ contains sep post = false.
Proof.
  intros Hne.
  induction s as [|c s IH]; simpl; intros H.
  - rewrite orb_false_r in H.
    destruct sep; [congruence|discriminate].
  - destruct (contains sep s) eqn:E.
    + destruct (IH eq_refl) as (pre & post & -> & Hp).
      now exists (c :: pre), post.
    + rewrite orb_false_r in H.
      destruct (starts_with_inv _ _ H) as [r Hr].
      exists [], r. split; [assumption|].
      destruct sep as [|a sep]; [congruence|].
      simpl in Hr. injection Hr as _ ->.
      now apply contains_suffix in E.
Qed.

Lemma THINK_END_not_nil : THINK_END <> [].
Proof. discriminate. Qed.

Lemma THINK_END_unbordered : unbordered THINK_END.
Proof.
  intros pre rest H.
  destruct pre as [|c1 [|c2 [|c3 [|c4 [|c5 [|c6 [|c7 [|c8 pre]]]]]]]];
    [now left| | | | | | | |right; change (List.length THINK_END) with 8%nat; simpl; lia].
  all: exfalso; cbn in H;
    repeat (apply andb_prop in H; destruct H as [? H]);
    repeat match goal with
           | X : (_ =? _)%N = true |- _ => apply N.eqb_eq in X
           end; subst; discriminate.
Qed.

(** ** Sample runs of the string functions *)

Example split_think_end :
  split (lit "</think>") (lit "a</think></think>b</think>")
  = [lit "a"; lit ""; lit "b"; lit ""].
Proof. reflexivity. Qed.

Example strip_unicode_space :
  strip ([160; 9] ++ lit "ok" ++ [8195; 10])%N = lit "ok".
Proof. reflexivity. Qed.

Example join_topics :
  join (lit " ") [lit "transformers"; lit "attention"]
  = lit "transformers attention".
Proof. reflexivity. Qed.

Example replace_utc_suffix :
  replace_char 90%N (lit "+00:00") (lit "2020-01-01T00:00:00Z")
  = lit "2020-01-01T00:00:00+00:00".
Proof. reflexivity. Qed.

Example slice_negative : slice_to [1; 2; 3]%Z (-1) = [1; 2]%Z.
Proof. reflexivity. Qed.

(** ** Trimming *)

Lemma lstrip_decompose (s : str) :
  exists l, s = l ++ lstrip s /\ forallb isspace l = true.
Proof.
  induction s as [|c s (l & Hs & Hl)]; simpl.
  - now exists [].
  - destruct (isspace c) eqn:E.
    + exists (c :: l). simpl. rewrite E, Hl. split; [now f_equal|reflexivity].
    + now exists [].
Qed.

Lemma lstrip_head (s : str) :
  match lstrip s with
  | [] => True
  | c :: _ => isspace c = false
  end.
Proof.
  induction s as [|c s IH]; simpl; [exact I|].
  destruct (isspace c) eqn:E; [exact IH|exact E].
Qed.

Lemma forallb_rev {A} (f : A -> bool) (l : list A) :
  forallb f (rev l) = forallb f l.
Proof.
  induction l as [|a l IH]; [reflexivity|].
  simpl. rewrite forallb_app, IH. simpl.
  rewrite andb_true_r. apply andb_comm.
Qed.

(** [strip] removes a run of whitespace at each end and nothing else. *)
Lemma strip_decompose (s : str) :
  exists l r,
    s = l ++ strip s ++ r
    /\ forallb isspace l = true /\ forallb isspace r = true.
Proof.
  destruct (lstrip_decompose s) as (l & Hs & Hl).
  destruct (lstrip_decompose (rev (lstrip s))) as (r & Hr & Hrs).
  exists l, (rev r). unfold strip, rstrip.
  split; [|split; [assumption|now rewrite forallb_rev]].
  rewrite <- rev_app_distr, <- Hr, rev_involutive. exact Hs.
Qed.

(** ** The reply post-processing *)

Lemma extract_after_last_end (pre post : str) :
  contains THINK_END post = false ->
  _extract_final_output (pre ++ THINK_END ++ post)
  = if is_empty (strip post) then ONLY_THINKING else strip post.
Proof.
  intros Hpost. unfold _extract_final_output.
  rewrite contains_intro.
  rewrite (@last_part_split THINK_END pre post THINK_END_not_nil
             THINK_END_unbordered Hpost).
  now destruct (is_empty (strip post)).
Qed.

(** C4. A reply that contains the end marker ["</think>"] yields the
    trimmed text after its last end marker, or the string ["Error: Model
    only generated thinking process, no insight produced."] when that
    text is empty; such a last end marker exists whenever the marker
    occurs.  A reply with the start marker ["<think>"] and no end marker
    yields ["Error: Incomplete response - thinking process not
    finished."]; a reply with neither marker yields itself, trimmed. *)
Theorem extract_final_output_cases (text : str) :
  (forall pre post,
      text = pre ++ lit "</think>" ++ post ->
      contains (lit "</think>") post = false ->
      _extract_final_output text
      = if is_empty (strip post)
        then lit "Error: Model only generated thinking process, no insight produced."
        else strip post)
  /\ (contains (lit "</think>") text = true ->
      exists pre post,
        text = pre ++ lit "</think>" ++ post
        /\ contains (lit "</think>") post = false)
  /\ (contains (lit "</think>") text = false ->
      contains (lit "<think>") text = true ->
      _extract_final_output text
      = lit "Error: Incomplete response - thinking process not finished.")
  /\ (contains (lit "</think>") text = false ->
      contains (lit "<think>") text = false ->
      _extract_final_output text = strip text).
Proof.
  change (lit "</think>") with THINK_END.
  change (lit "<think>") with THINK_START.
  change (lit "Error: Model only generated thinking process, no insight produced.")
    with ONLY_THINKING.
  change (lit "Error: Incomplete response - thinking process not finished.")
    with INCOMPLETE.
  repeat split.
  - intros pre post -> Hpost. now apply extract_after_last_end.
  - apply last_occurrence, THINK_END_not_nil.
  - intros H1 H2. unfold _extract_final_output. now rewrite H1, H2.
  - intros H1 H2. unfold _extract_final_output. now rewrite H1, H2.
Qed.

Lemma extract_final_output_cases_witness :
  _extract_final_output
    (lit "<think>plan</think> draft </think>  Read the paper. ")
  = lit "Read the paper."
  /\ _extract_final_output (lit "<think>plan</think>  ")
     = lit "Error: Model only generated thinking process, no insight produced."
  /\ _extract_final_output (lit "<think>plan")
     = lit "Error: Incomplete response - thinking process not finished."
  /\ _extract_final_output (lit "  Read the paper. ")
     = lit "Read the paper."
  /\ lit "</think>" = [60; 47; 116; 104; 105; 110; 107; 62]%N
  /\ List.length
       (lit "Error: Model only generated thinking process, no insight produced.")
     = 66%nat
  /\ List.length
       (lit "Error: Incomplete response - thinking process not finished.")
     = 59%nat.
Proof.
  split; [|split; [|split; [|split]]].
  - exact (proj1
             (extract_final_output_cases
                (lit "<think>plan</think> draft </think>  Read the paper. "))
             (lit "<think>plan</think> draft ") (lit "  Read the paper. ")
             eq_refl eq_refl).
  - exact (proj1 (extract_final_output_cases (lit "<think>plan</think>  "))
             (lit "<think>plan") (lit "  ") eq_refl eq_refl).
  - exact (proj1 (proj2 (proj2
             (extract_final_output_cases (lit "<think>plan"))))
             eq_refl eq_refl).
  - exact (proj2 (proj2 (proj2
             (extract_final_output_cases (lit "  Read the paper. "))))
             eq_refl eq_refl).
  - repeat split; reflexivity.
Defined.

(** ** Float comparisons and rounding *)

Lemma Qlt_bool_iff (x y : Q) : Qlt_bool x y = true <-> (x < y)%Q.
Proof.
  unfold Qlt_bool. rewrite negb_true_iff.
  split; intros H.
  - apply Qnot_le_lt. intros Hle.
    apply Qle_bool_iff in Hle. congruence.
  - destruct (Qle_bool y x) eqn:E; [|reflexivity].
    apply Qle_bool_iff in E. exfalso. eapply Qlt_not_le; eassumption.
Qed.

Lemma Qlt_bool_false_iff (x y : Q) : Qlt_bool x y = false <-> (y <= x)%Q.
Proof.
  unfold Qlt_bool. rewrite negb_false_iff. apply Qle_bool_iff.
Qed.

Lemma round_half_even_lower (a : Z) (q : Q) :
  (inject_Z a <= q)%Q -> (a <= round_half_even q)%Z.
Proof.
  intros H. unfold round_half_even.
  assert (Hf : (a <= Qfloor q)%Z).
  { rewrite <- (Qfloor_Z a). now apply Qfloor_resp_le. }
  destruct (q - inject_Z (Qfloor q) ?= 1 # 2)%Q;
    [destruct (Z.even (Qfloor q))| |]; lia.
Qed.

Lemma round_half_even_upper (b : Z) (q : Q) :
  (q <= inject_Z b)%Q -> (round_half_even q <= b)%Z.
Proof.
  intros H. unfold round_half_even.
  assert (Hf : (Qfloor q <= b)%Z).
  { rewrite <- (Qfloor_Z b). now apply Qfloor_resp_le. }
  assert (Hstrict :
            (1 # 2 <= q - inject_Z (Qfloor q))%Q -> (Qfloor q + 1 <= b)%Z).
  { intros Hhalf.
    destruct (Z.eq_dec (Qfloor q) b) as [E|]; [|lia].
    rewrite E in Hhalf. exfalso. lra. }
  destruct (q - inject_Z (Qfloor q) ?= 1 # 2)%Q eqn:E.
  - destruct (Z.even (Qfloor q)); [lia|].
    apply Hstrict. apply Qeq_alt in E. rewrite E. apply Qle_refl.
  - lia.
  - apply Hstrict. apply Qgt_alt in E. now apply Qlt_le_weak.
Qed.

(** ** binary64 rounding *)

Lemma pow2_pos (e : Z) : (0 < pow2 e)%Q.
Proof. apply Qpower_0_lt. reflexivity. Qed.

Lemma pow2_plus (a b : Z) : (pow2 (a + b) == pow2 a * pow2 b)%Q.
Proof. apply Qpower_plus. discriminate. Qed.

Lemma pow2_le (a b : Z) : (a <= b)%Z -> (pow2 a <= pow2 b)%Q.
Proof. intros H. apply Qpower_le_compat_l; [assumption|discriminate]. Qed.

Lemma pow2_lt_inv (a b : Z) : (pow2 a < pow2 b)%Q -> (a < b)%Z.
Proof. intros H. apply Qpower_lt_compat_l_inv with (q := 2%Q); [assumption|reflexivity]. Qed.

Lemma pow2_inject (n : Z) : (0 <= n)%Z -> (pow2 n == inject_Z (2 ^ n))%Q.
Proof. intros H. unfold pow2. now rewrite Zpower_Qpower. Qed.

Lemma pow2_quotient (x y : Z) :
  (0 <= x)%Z -> (0 <= y)%Z ->
  (pow2 (x - y) == inject_Z (2 ^ x) / inject_Z (2 ^ y))%Q.
Proof.
  intros Hx Hy. replace (x - y)%Z with (x + - y)%Z by lia.
  rewrite pow2_plus. unfold pow2 at 2. rewrite Qpower_opp.
  fold (pow2 y). now rewrite (pow2_inject Hx), (pow2_inject Hy).
Qed.

Lemma inject_Z_pos (n : Z) : (0 < n)%Z -> (0 < inject_Z n)%Q.
Proof. intros H. change 0%Q with (inject_Z 0). now rewrite <- Zlt_Qlt. Qed.

Lemma Qdiv_lt_cross (n m d e : Z) :
  (0 < d)%Z -> (0 < e)%Z -> (n * e < m * d)%Z ->
  (inject_Z n / inject_Z d < inject_Z m / inject_Z e)%Q.
Proof.
  intros Hd He H.
  apply Qlt_shift_div_r; [now apply inject_Z_pos|].
  setoid_replace (inject_Z m / inject_Z e * inject_Z d)%Q
    with (inject_Z m * inject_Z d / inject_Z e)%Q
    by (field; apply Qnot_eq_sym, Qlt_not_eq, inject_Z_pos; assumption).
  apply Qlt_shift_div_l; [now apply inject_Z_pos|].
  now rewrite <- !inject_Z_mult, <- Zlt_Qlt.
Qed.

Lemma Qdiv_le_cross (n m d e : Z) :
  (0 < d)%Z -> (0 < e)%Z -> (n * e <= m * d)%Z ->
  (inject_Z n / inject_Z d <= inject_Z m / inject_Z e)%Q.
Proof.
  intros Hd He H.
  apply Qle_shift_div_r; [now apply inject_Z_pos|].
  setoid_replace (inject_Z m / inject_Z e * inject_Z d)%Q
    with (inject_Z m * inject_Z d / inject_Z e)%Q
    by (field; apply Qnot_eq_sym, Qlt_not_eq, inject_Z_pos; assumption).
  apply Qle_shift_div_l; [now apply inject_Z_pos|].
  now rewrite <- !inject_Z_mult, <- Zle_Qle.
Qed.

(** [ilog2] locates the binade. *)
Lemma ilog2_spec (q : Q) :
  (0 < q)%Q -> (pow2 (ilog2 q) <= q /\ q < pow2 (ilog2 q + 1))%Q.
Proof.
  intros Hq. destruct q as [n d].
  assert (Hn : (0 < n)%Z).
  { unfold Qlt in Hq. simpl in Hq. lia. }
  unfold ilog2. cbn [Qnum Qden].
  set (a := Z.log2 n). set (b := Z.log2 (Zpos d)).
  destruct (Z.log2_spec n Hn) as [Ha1 Ha2]. fold a in Ha1, Ha2.
  destruct (Z.log2_spec (Zpos d) ltac:(lia)) as [Hb1 Hb2].
  fold b in Hb1, Hb2.
  assert (Ha0 : (0 <= a)%Z) by apply Z.log2_nonneg.
  assert (Hb0 : (0 <= b)%Z) by apply Z.log2_nonneg.
  assert (Hpa : (0 < 2 ^ a)%Z) by (apply Z.pow_pos_nonneg; lia).
  assert (Hpb : (0 < 2 ^ b)%Z) by (apply Z.pow_pos_nonneg; lia).
  rewrite Z.pow_succ_r in Ha2, Hb2 by lia.
  assert (Hq' : (n # d == inject_Z n / inject_Z (Zpos d))%Q)
    by apply Qmake_Qdiv.
  assert (Hup : (n # d < pow2 (a - b + 1))%Q).
  { replace (a - b + 1)%Z with (Z.succ a - b)%Z by lia.
    rewrite pow2_quotient, Hq' by lia.
    apply Qdiv_lt_cross; try lia. rewrite Z.pow_succ_r by lia. nia. }
  assert (Hlow : (pow2 (a - b - 1) <= n # d)%Q).
  { replace (a - b - 1)%Z with (a - Z.succ b)%Z by lia.
    rewrite pow2_quotient, Hq' by lia.
    apply Qdiv_le_cross; try lia; rewrite Z.pow_succ_r by lia; nia. }
  destruct (Qle_bool (pow2 (a - b)) (n # d)) eqn:E.
  - apply Qle_bool_iff in E. split; assumption.
  - assert (Hlt : (n # d < pow2 (a - b))%Q).
    { apply Qnot_le_lt. intros H. apply Qle_bool_iff in H. congruence. }
    replace (a - b - 1 + 1)%Z with (a - b)%Z by lia.
    split; assumption.
Qed.

Lemma ilog2_monotone (q1 q2 : Q) :
  (0 < q1)%Q -> (q1 <= q2)%Q -> (ilog2 q1 <= ilog2 q2)%Z.
Proof.
  intros H1 H12.
  destruct (ilog2_spec H1) as [Hl1 _].
  destruct (ilog2_spec (Qlt_le_trans _ _ _ H1 H12)) as [_ Hu2].
  assert (H : (pow2 (ilog2 q1) < pow2 (ilog2 q2 + 1))%Q).
  { eapply Qle_lt_trans; [exact Hl1|].
    eapply Qle_lt_trans; [exact H12|exact Hu2]. }
  apply pow2_lt_inv in H. lia.
Qed.

Lemma round_half_even_floor (q : Q) :
  (Qfloor q <= round_half_even q <= Qfloor q + 1)%Z.
Proof.
  unfold round_half_even.
  destruct (q - inject_Z (Qfloor q) ?= 1 # 2)%Q;
    [destruct (Z.even (Qfloor q))| |]; lia.
Qed.

Lemma round_half_even_monotone (q1 q2 : Q) :
  (q1 <= q2)%Q -> (round_half_even q1 <= round_half_even q2)%Z.
Proof.
  intros H.
  pose proof (Qfloor_resp_le _ _ H) as Hf.
  pose proof (round_half_even_floor q1) as H1.
  pose proof (round_half_even_floor q2) as H2.
  destruct (Z.eq_dec (Qfloor q1) (Qfloor q2)) as [E|]; [|lia].
  unfold round_half_even. rewrite <- E.
  destruct (q1 - inject_Z (Qfloor q1) ?= 1 # 2)%Q eqn:C1;
    destruct (q2 - inject_Z (Qfloor q1) ?= 1 # 2)%Q eqn:C2;
    try (destruct (Z.even (Qfloor q1))); try lia; exfalso;
    repeat match goal with
           | X : (_ ?= _)%Q = Eq |- _ => apply Qeq_alt in X
           | X : (_ ?= _)%Q = Lt |- _ => apply Qlt_alt in X
           | X : (_ ?= _)%Q = Gt |- _ => apply Qgt_alt in X
           end; lra.
Qed.

(** *** Rounding to binary64 is monotone *)

Lemma ulp_exponent_monotone (q1 q2 : Q) :
  (0 < q1)%Q -> (q1 <= q2)%Q -> (ulp_exponent q1 <= ulp_exponent q2)%Z.
Proof.
  intros H1 H12. unfold ulp_exponent.
  pose proof (ilog2_monotone H1 H12). lia.
Qed.

(** The significand of a positive number is at most [2^53], and at
    least [2^52] above the subnormal range. *)
Lemma significand_bounds (q : Q) :
  (0 < q)%Q ->
  (0 <= round_half_even (q / pow2 (ulp_exponent q)) <= 2 ^ 53)%Z
  /\ ((-1074 < ulp_exponent q)%Z ->
      (2 ^ 52 <= round_half_even (q / pow2 (ulp_exponent q)))%Z).
Proof.
  intros Hq. destruct (ilog2_spec Hq) as [Hlo Hhi].
  set (e := ulp_exponent q).
  pose proof (pow2_pos e) as He.
  assert (Hup : (q / pow2 e <= inject_Z (2 ^ 53))%Q).
  { apply Qle_shift_div_r; [assumption|].
    rewrite <- pow2_inject, <- pow2_plus by lia.
    apply Qlt_le_weak. eapply Qlt_le_trans; [exact Hhi|].
    apply pow2_le. unfold e, ulp_exponent. lia. }
  split; [split|].
  - apply round_half_even_lower. change (inject_Z 0) with 0%Q.
    apply Qle_shift_div_l; [assumption|]. rewrite Qmult_0_l.
    now apply Qlt_le_weak.
  - now apply round_half_even_upper.
  - intros Hn. apply round_half_even_lower.
    apply Qle_shift_div_l; [assumption|].
    rewrite <- pow2_inject, <- pow2_plus by lia.
    eapply Qle_trans; [|exact Hlo].
    apply pow2_le. unfold e, ulp_exponent in *. lia.
Qed.

Lemma nearest_pos_nonneg (q : Q) : (0 < q)%Q -> (0 <= nearest_pos q)%Q.
Proof.
  intros Hq. unfold nearest_pos.
  destruct (significand_bounds Hq) as [[H0 _] _].
  apply Qmult_le_0_compat.
  - change 0%Q with (inject_Z 0). now rewrite <- Zle_Qle.
  - apply Qlt_le_weak, pow2_pos.
Qed.

Lemma nearest_pos_monotone (q1 q2 : Q) :
  (0 < q1)%Q -> (q1 <= q2)%Q -> (nearest_pos q1 <= nearest_pos q2)%Q.
Proof.
  intros H1 H12.
  assert (H2 : (0 < q2)%Q) by (eapply Qlt_le_trans; eassumption).
  pose proof (ulp_exponent_monotone H1 H12) as He.
  unfold nearest_pos.
  set (e1 := ulp_exponent q1) in *. set (e2 := ulp_exponent q2) in *.
  destruct (Z.eq_dec e1 e2) as [E|Hne].
  - rewrite <- E. apply Qmult_le_compat_r;
      [|apply Qlt_le_weak, pow2_pos].
    rewrite <- Zle_Qle. apply round_half_even_monotone.
    apply Qmult_le_compat_r; [assumption|].
    apply Qlt_le_weak, Qinv_lt_0_compat, pow2_pos.
  - destruct (significand_bounds H1) as [[_ Hu] _].
    destruct (significand_bounds H2) as [_ Hl].
    fold e1 in Hu. fold e2 in Hl.
    assert (Hn : (-1074 < e2)%Z).
    { unfold e1, e2, ulp_exponent in *. lia. }
    specialize (Hl Hn).
    apply Qle_trans with (pow2 (e1 + 53)).
    + rewrite Z.add_comm, pow2_plus, (@pow2_inject 53) by lia.
      apply Qmult_le_compat_r; [|apply Qlt_le_weak, pow2_pos].
      now rewrite <- Zle_Qle.
    + apply Qle_trans with (pow2 (52 + e2)).
      * apply pow2_le. lia.
      * rewrite pow2_plus, (@pow2_inject 52) by lia.
        apply Qmult_le_compat_r; [|apply Qlt_le_weak, pow2_pos].
        now rewrite <- Zle_Qle.
Qed.

Lemma nearest_monotone (q1 q2 : Q) :
  (q1 <= q2)%Q -> (nearest q1 <= nearest q2)%Q.
Proof.
  intros H. unfold nearest.
  destruct (q1 ?= 0)%Q eqn:C1; destruct (q2 ?= 0)%Q eqn:C2;
    repeat match goal with
           | X : (_ ?= _)%Q = Eq |- _ => apply Qeq_alt in X
           | X : (_ ?= _)%Q = Lt |- _ => apply Qlt_alt in X
           | X : (_ ?= _)%Q = Gt |- _ => apply Qgt_alt in X
           end; try (exfalso; lra).
  - apply Qle_refl.
  - now apply nearest_pos_nonneg.
  - assert (0 <= nearest_pos (- q1))%Q by (apply nearest_pos_nonneg; lra).
    lra.
  - assert (nearest_pos (- q2) <= nearest_pos (- q1))%Q
      by (apply nearest_pos_monotone; lra).
    lra.
  - assert (0 <= nearest_pos (- q1))%Q by (apply nearest_pos_nonneg; lra).
    assert (0 <= nearest_pos q2)%Q by (now apply nearest_pos_nonneg).
    lra.
  - now apply nearest_pos_monotone.
Qed.

Lemma Qle_lt_or_eq_bool (x y : Q) :
  (x <= y)%Q -> Qlt_bool x y || Qeq_bool x y = true.
Proof.
  intros H. destruct (Qlt_bool x y) eqn:E; [reflexivity|].
  apply Qlt_bool_false_iff in E. simpl. apply Qeq_bool_iff.
  now apply Qle_antisym.
Qed.

Lemma MAX_FLOAT_pos : (0 < MAX_FLOAT)%Q.
Proof. reflexivity. Qed.

Lemma value_monotone (q1 q2 : Q) :
  (q1 <= q2)%Q -> (value q1 <= value q2)%Q.
Proof.
  intros H. pose proof (nearest_monotone H) as Hn.
  pose proof MAX_FLOAT_pos as HM. unfold value.
  destruct (Qlt_bool MAX_FLOAT (nearest q1)) eqn:A1;
    destruct (Qlt_bool MAX_FLOAT (nearest q2)) eqn:A2;
    destruct (Qlt_bool (nearest q1) (- MAX_FLOAT)) eqn:B1;
    destruct (Qlt_bool (nearest q2) (- MAX_FLOAT)) eqn:B2;
    repeat match goal with
           | X : Qlt_bool _ _ = true |- _ => apply Qlt_bool_iff in X
           | X : Qlt_bool _ _ = false |- _ => apply Qlt_bool_false_iff in X
           end; lra.
Qed.

Lemma value_bounds (q : Q) : (- MAX_FLOAT <= value q <= MAX_FLOAT)%Q.
Proof.
  pose proof MAX_FLOAT_pos as HM. unfold value.
  destruct (Qlt_bool MAX_FLOAT (nearest q)) eqn:A;
    destruct (Qlt_bool (nearest q) (- MAX_FLOAT)) eqn:B;
    repeat match goal with
           | X : Qlt_bool _ _ = true |- _ => apply Qlt_bool_iff in X
           | X : Qlt_bool _ _ = false |- _ => apply Qlt_bool_false_iff in X
           end; lra.
Qed.

(** Rounding keeps the order, infinities included. *)
Lemma b64_monotone (q1 q2 : Q) :
  (q1 <= q2)%Q -> f_le (b64 q1) (b64 q2) = true.
Proof.
  intros H. pose proof (nearest_monotone H) as Hn.
  pose proof MAX_FLOAT_pos as HM. unfold b64.
  destruct (Qlt_bool MAX_FLOAT (nearest q1)) eqn:A1;
    destruct (Qlt_bool MAX_FLOAT (nearest q2)) eqn:A2;
    destruct (Qlt_bool (nearest q1) (- MAX_FLOAT)) eqn:B1;
    destruct (Qlt_bool (nearest q2) (- MAX_FLOAT)) eqn:B2;
    try reflexivity;
    repeat match goal with
           | X : Qlt_bool _ _ = true |- _ => apply Qlt_bool_iff in X
           | X : Qlt_bool _ _ = false |- _ => apply Qlt_bool_false_iff in X
           end; try (exfalso; lra).
  unfold f_le, f_lt, f_eq. now apply Qle_lt_or_eq_bool.
Qed.

Lemma b64_not_nan (q : Q) : is_nan (b64 q) = false.
Proof.
  unfold b64. destruct (Qlt_bool _ _); [reflexivity|].
  destruct (Qlt_bool _ _); reflexivity.
Qed.

(** A result between two finite floats is a finite float. *)
Lemma b64_between (lo hi q : Q) :
  (lo <= q <= hi)%Q ->
  (- MAX_FLOAT <= nearest lo)%Q -> (nearest hi <= MAX_FLOAT)%Q ->
  b64 q = Fin (nearest q) /\ value q = nearest q
  /\ (nearest lo <= nearest q <= nearest hi)%Q.
Proof.
  intros [H1 H2] Hlo Hhi.
  pose proof (nearest_monotone H1). pose proof (nearest_monotone H2).
  unfold b64, value.
  assert (A : Qlt_bool MAX_FLOAT (nearest q) = false)
    by (apply Qlt_bool_false_iff; lra).
  assert (B : Qlt_bool (nearest q) (- MAX_FLOAT) = false)
    by (apply Qlt_bool_false_iff; lra).
  rewrite A, B. repeat split; assumption.
Qed.

(** Deciding a closed comparison of rationals by computation. *)
Ltac Qle_compute := apply Qle_bool_iff; vm_compute; reflexivity.


(** *** The finite floats of a range *)

Lemma value_within (lo hi q : Q) :
  (lo <= q <= hi)%Q -> (value lo <= value q <= value hi)%Q.
Proof. intros [? ?]. split; now apply value_monotone. Qed.

Lemma b64_within (lo hi q : Q) :
  (lo <= q <= hi)%Q ->
  (- MAX_FLOAT <= nearest lo)%Q -> (nearest hi <= MAX_FLOAT)%Q ->
  within (nearest lo) (nearest hi) (b64 q).
Proof.
  intros H Hlo Hhi.
  destruct (b64_between H Hlo Hhi) as (-> & _ & ?). assumption.
Qed.

Lemma Qmult_le_nonneg_l (c a b : Q) :
  (0 <= c)%Q -> (a <= b)%Q -> (c * a <= c * b)%Q.
Proof.
  intros Hc H. rewrite !(Qmult_comm c). now apply Qmult_le_compat_r.
Qed.

(** The product of a non-negative constant and a float of a range. *)
Lemma f_mul_within (c lo hi : Q) (x : pyfloat) :
  (0 <= value c)%Q -> within lo hi x ->
  (- MAX_FLOAT <= nearest (value c * value lo))%Q ->
  (nearest (value c * value hi) <= MAX_FLOAT)%Q ->
  within (nearest (value c * value lo)) (nearest (value c * value hi))
    (f_mul (Fin c) x).
Proof.
  intros Hc Hx Hlo Hhi. destruct x as [q| | |]; try contradiction.
  cbn [f_mul]. apply b64_within; try assumption.
  destruct (value_within Hx). split; now apply Qmult_le_nonneg_l.
Qed.

Lemma f_add_within (l1 h1 l2 h2 : Q) (x y : pyfloat) :
  within l1 h1 x -> within l2 h2 y ->
  (- MAX_FLOAT <= nearest (value l1 + value l2))%Q ->
  (nearest (value h1 + value h2) <= MAX_FLOAT)%Q ->
  within (nearest (value l1 + value l2)) (nearest (value h1 + value h2))
    (f_add x y).
Proof.
  intros Hx Hy Hlo Hhi.
  destruct x as [p| | |]; try contradiction.
  destruct y as [q| | |]; try contradiction.
  cbn [f_add]. apply b64_within; try assumption.
  destruct (value_within Hx), (value_within Hy). split; lra.
Qed.

Lemma within_weaken (lo hi lo' hi' : Q) (x : pyfloat) :
  within lo hi x -> (lo' <= lo)%Q -> (hi <= hi')%Q -> within lo' hi' x.
Proof. destruct x; simpl; try tauto. intros [? ?] ? ?. split; lra. Qed.

Lemma weighted_combination_in_unit (s t f : pyfloat) :
  in_unit s -> in_unit t -> in_unit f ->
  in_unit (weighted_combination s t f).
Proof.
  intros Hs Ht Hf. change (within 0 1 (weighted_combination s t f)).
  assert (H4 : (0 <= value 0.4)%Q) by Qle_compute.
  assert (H2 : (0 <= value 0.2)%Q) by Qle_compute.
  unfold weighted_combination.
  eapply within_weaken.
  - apply f_add_within.
    + apply f_add_within.
      * apply (@f_mul_within 0.4 0 1 s H4 Hs); Qle_compute.
      * apply (@f_mul_within 0.4 0 1 t H4 Ht); Qle_compute.
      * Qle_compute.
      * Qle_compute.
    + apply (@f_mul_within 0.2 0 1 f H2 Hf); Qle_compute.
    + Qle_compute.
    + Qle_compute.
  - Qle_compute.
  - Qle_compute.
Qed.

Lemma py_round_in_unit (x : pyfloat) (ndigits : nat) :
  in_unit x -> in_unit (py_round x ndigits).
Proof.
  destruct x as [q| | |]; simpl; try tauto.
  intros H.
  set (p := (10 ^ Z.of_nat ndigits)%Z).
  assert (Hp : (0 < p)%Z) by (apply Z.pow_pos_nonneg; lia).
  assert (HpQ : (0 < inject_Z p)%Q) by now apply inject_Z_pos.
  assert (Hv : (0 <= value q <= 1)%Q).
  { destruct (@value_within 0 1 q H) as [H0 H1]. split.
    - eapply Qle_trans; [|exact H0]. Qle_compute.
    - eapply Qle_trans; [exact H1|]. Qle_compute. }
  assert (Hlo : (0 <= round_half_even (value q * inject_Z p))%Z).
  { apply round_half_even_lower. change (inject_Z 0) with 0%Q.
    apply Qmult_le_0_compat; [tauto|now apply Qlt_le_weak]. }
  assert (Hhi : (round_half_even (value q * inject_Z p) <= p)%Z).
  { apply round_half_even_upper.
    setoid_replace (inject_Z p) with (1 * inject_Z p)%Q at 2 by ring.
    apply Qmult_le_compat_r; [tauto|now apply Qlt_le_weak]. }
  change (within 0 1
            (b64 (inject_Z (round_half_even (value q * inject_Z p))
                  / inject_Z p))).
  eapply within_weaken.
  - apply (@b64_within 0 1); [|Qle_compute|Qle_compute]. split.
    + apply Qle_shift_div_l; [assumption|].
      rewrite Qmult_0_l. change 0%Q with (inject_Z 0).
      now rewrite <- Zle_Qle.
    + apply Qle_shift_div_r; [assumption|].
      rewrite Qmult_1_l. now rewrite <- Zle_Qle.
  - Qle_compute.
  - Qle_compute.
Qed.

(** *** The fused score grows with its signals *)

Lemma f_le_Fin (x y : Q) : f_le (Fin x) (Fin y) = true <-> (x <= y)%Q.
Proof.
  unfold f_le, f_lt, f_eq. split.
  - intros H. apply orb_true_iff in H as [H|H].
    + apply Qlt_bool_iff in H. now apply Qlt_le_weak.
    + apply Qeq_bool_iff in H. rewrite H. apply Qle_refl.
  - apply Qle_lt_or_eq_bool.
Qed.

Lemma f_le_b64_PInf (q : Q) : f_le (b64 q) PInf = true.
Proof.
  unfold b64. destruct (Qlt_bool _ _); [reflexivity|].
  destruct (Qlt_bool _ _); reflexivity.
Qed.

Lemma f_le_NInf_b64 (q : Q) : f_le NInf (b64 q) = true.
Proof.
  unfold b64. destruct (Qlt_bool _ _); [reflexivity|].
  destruct (Qlt_bool _ _); reflexivity.
Qed.

Lemma py_round_monotone (x y : Q) (ndigits : nat) :
  (x <= y)%Q ->
  f_le (py_round (Fin x) ndigits) (py_round (Fin y) ndigits) = true.
Proof.
  intros H. unfold py_round. apply b64_monotone.
  set (p := (10 ^ Z.of_nat ndigits)%Z).
  assert (Hp : (0 < p)%Z) by (apply Z.pow_pos_nonneg; lia).
  assert (HpQ : (0 < inject_Z p)%Q) by now apply inject_Z_pos.
  apply Qmult_le_compat_r.
  - rewrite <- Zle_Qle. apply round_half_even_monotone.
    apply Qmult_le_compat_r; [now apply value_monotone|].
    now apply Qlt_le_weak.
  - apply Qlt_le_weak, Qinv_lt_0_compat. assumption.
Qed.

(** Rounding keeps the order of any two floats that have one. *)
Lemma py_round_keeps_order (a b : pyfloat) (ndigits : nat) :
  f_le a b = true ->
  f_le (py_round a ndigits) (py_round b ndigits) = true.
Proof.
  destruct a as [x| | |], b as [y| | |]; intros H;
    try discriminate H; try reflexivity.
  - apply py_round_monotone. now apply f_le_Fin.
  - apply f_le_b64_PInf.
  - apply f_le_NInf_b64.
Qed.

Lemma f_add_monotone (a a' b b' : Q) :
  (a <= a')%Q -> (b <= b')%Q ->
  f_le (f_add (Fin a) (Fin b)) (f_add (Fin a') (Fin b')) = true.
Proof.
  intros Ha Hb. cbn [f_add]. apply b64_monotone.
  pose proof (value_monotone Ha). pose proof (value_monotone Hb). lra.
Qed.

(** The product of a float and a non-negative constant below one is
    finite, and grows with the float. *)
Lemma f_mul_weight (c : Q) :
  (0 <= value c)%Q ->
  (- MAX_FLOAT <= nearest (value c * - MAX_FLOAT))%Q ->
  (nearest (value c * MAX_FLOAT) <= MAX_FLOAT)%Q ->
  forall x y : Q,
    (x <= y)%Q ->
    exists p q,
      f_mul (Fin c) (Fin x) = Fin p /\ f_mul (Fin c) (Fin y) = Fin q
      /\ (p <= q)%Q
      /\ (nearest (value c * - MAX_FLOAT) <= p)%Q
      /\ (q <= nearest (value c * MAX_FLOAT))%Q.
Proof.
  intros Hc Hlo Hhi x y Hxy. cbn [f_mul].
  assert (Hb : forall z,
             (value c * - MAX_FLOAT <= value c * value z
              <= value c * MAX_FLOAT)%Q).
  { intros z. destruct (value_bounds z).
    split; now apply Qmult_le_nonneg_l. }
  destruct (b64_between (Hb x) Hlo Hhi) as (-> & _ & Hx1 & _).
  destruct (b64_between (Hb y) Hlo Hhi) as (-> & _ & _ & Hy2).
  do 2 eexists. repeat split; try assumption.
  apply nearest_monotone, Qmult_le_nonneg_l; [assumption|].
  now apply value_monotone.
Qed.

Lemma weighted_combination_monotone (s1 s2 t1 t2 f1 f2 : Q) :
  (s1 <= s2)%Q -> (t1 <= t2)%Q -> (f1 <= f2)%Q ->
  f_le (weighted_combination (Fin s1) (Fin t1) (Fin f1))
       (weighted_combination (Fin s2) (Fin t2) (Fin f2)) = true.
Proof.
  intros Hs Ht Hf. unfold weighted_combination.
  assert (H4 : (0 <= value 0.4)%Q) by Qle_compute.
  assert (H2 : (0 <= value 0.2)%Q) by Qle_compute.
  destruct (@f_mul_weight 0.4 H4 ltac:(Qle_compute) ltac:(Qle_compute)
              s1 s2 Hs) as (a1 & a2 & -> & -> & Ha & Ha1 & Ha2).
  destruct (@f_mul_weight 0.4 H4 ltac:(Qle_compute) ltac:(Qle_compute)
              t1 t2 Ht) as (b1 & b2 & -> & -> & Hb & Hb1 & Hb2).
  destruct (@f_mul_weight 0.2 H2 ltac:(Qle_compute) ltac:(Qle_compute)
              f1 f2 Hf) as (c1 & c2 & -> & -> & Hc & Hc1 & Hc2).
  set (lo := nearest (value 0.4 * - MAX_FLOAT)) in *.
  set (hi := nearest (value 0.4 * MAX_FLOAT)) in *.
  assert (W1 : within lo hi (Fin a1)) by (simpl; split; lra).
  assert (W2 : within lo hi (Fin a2)) by (simpl; split; lra).
  assert (W3 : within lo hi (Fin b1)) by (simpl; split; lra).
  assert (W4 : within lo hi (Fin b2)) by (simpl; split; lra).
  pose proof (@f_add_within _ _ _ _ _ _ W1 W3 ltac:(Qle_compute)
                ltac:(Qle_compute))
    as S1.
  pose proof (@f_add_within _ _ _ _ _ _ W2 W4 ltac:(Qle_compute)
                ltac:(Qle_compute))
    as S2.
  pose proof (f_add_monotone Ha Hb) as H12.
  destruct (f_add (Fin a1) (Fin b1)) as [x1| | |]; try contradiction.
  destruct (f_add (Fin a2) (Fin b2)) as [x2| | |]; try contradiction.
  apply f_add_monotone; [now apply f_le_Fin|assumption].
Qed.

(** *** What the two roundings are *)

(** The nearest integer is within a half, and is even at a half. *)
Lemma round_half_even_spec (q : Q) :
  (Qabs (inject_Z (round_half_even q) - q) <= 1 # 2)%Q
  /\ (Qabs (inject_Z (round_half_even q) - q) == 1 # 2 ->
      Z.even (round_half_even q) = true)%Q.
Proof.
  pose proof (Qfloor_le q) as Hlo. pose proof (Qlt_floor q) as Hhi.
  rewrite inject_Z_plus in Hhi. change (inject_Z 1) with 1%Q in Hhi.
  unfold round_half_even.
  destruct (q - inject_Z (Qfloor q) ?= 1 # 2)%Q eqn:C;
    [apply Qeq_alt in C|apply Qlt_alt in C|apply Qgt_alt in C].
  - destruct (Z.even (Qfloor q)) eqn:E.
    + split; [|intros _; exact E]. apply Qabs_Qle_condition. split; lra.
    + split.
      * rewrite inject_Z_plus. change (inject_Z 1) with 1%Q.
        apply Qabs_Qle_condition. split; lra.
      * intros _. rewrite Z.even_add, E. reflexivity.
  - split; [apply Qabs_Qle_condition; split; lra|].
    intros H. exfalso.
    rewrite Qabs_neg in H by lra. lra.
  - rewrite inject_Z_plus. change (inject_Z 1) with 1%Q.
    split; [apply Qabs_Qle_condition; split; lra|].
    intros H. exfalso.
    rewrite Qabs_pos in H by lra. lra.
Qed.

(** [round(x, n)] is the float of a decimal [k / 10^n] at most half a
    unit of the last decimal place from the value of [x], with [k] even
    when it is exactly half a unit away. *)
Lemma py_round_spec (q : Q) (ndigits : nat) :
  let scale := inject_Z (10 ^ Z.of_nat ndigits) in
  exists k : Z,
    py_round (Fin q) ndigits = b64 (inject_Z k / scale)
    /\ (Qabs (inject_Z k / scale - value q) <= (1 # 2) / scale)%Q
    /\ (Qabs (inject_Z k / scale - value q) == (1 # 2) / scale ->
        Z.even k = true)%Q.
Proof.
  intros scale.
  assert (Hs : (0 < scale)%Q).
  { apply inject_Z_pos, Z.pow_pos_nonneg; lia. }
  assert (Hs' : ~ (scale == 0)%Q) by (apply Qnot_eq_sym, Qlt_not_eq, Hs).
  exists (round_half_even (value q * scale)). split; [reflexivity|].
  destruct (round_half_even_spec (value q * scale)) as [H1 H2].
  set (k := round_half_even (value q * scale)) in *.
  assert (E : (Qabs (inject_Z k / scale - value q)
               == Qabs (inject_Z k - value q * scale) / scale)%Q).
  { setoid_replace (inject_Z k / scale - value q)%Q
      with ((inject_Z k - value q * scale) * / scale)%Q by (field; try exact Hs').
    rewrite Qabs_Qmult. rewrite (Qabs_pos (/ scale)); [reflexivity|].
    apply Qlt_le_weak, Qinv_lt_0_compat, Hs. }
  split.
  - rewrite E. apply Qmult_le_compat_r; [exact H1|].
    apply Qlt_le_weak, Qinv_lt_0_compat, Hs.
  - intros H. apply H2. rewrite E in H.
    apply (Qmult_inj_r _ _ (/ scale)); [|exact H].
    apply Qnot_eq_sym, Qlt_not_eq, Qinv_lt_0_compat, Hs.
Qed.

(** A positive number rounds to a multiple of the unit in its last
    place, with a significand of at most 53 bits, at most half a unit
    away, and to an even multiple when it lies half-way. *)
Lemma nearest_pos_spec (q : Q) :
  (0 < q)%Q ->
  let ulp := pow2 (ulp_exponent q) in
  exists m : Z,
    (nearest q == inject_Z m * ulp)%Q
    /\ (0 <= m <= 2 ^ 53)%Z
    /\ (Qabs (nearest q - q) <= ulp / 2)%Q
    /\ (Qabs (nearest q - q) == ulp / 2 -> Z.even m = true)%Q.
Proof.
  intros Hq ulp.
  assert (Hn : (nearest q == nearest_pos q)%Q).
  { unfold nearest. destruct (q ?= 0)%Q eqn:C;
      [apply Qeq_alt in C; lra|apply Qlt_alt in C; lra|reflexivity]. }
  pose proof (pow2_pos (ulp_exponent q)) as Hu. fold ulp in Hu.
  assert (Hu' : ~ (ulp == 0)%Q) by (apply Qnot_eq_sym, Qlt_not_eq, Hu).
  exists (round_half_even (q / ulp)).
  destruct (significand_bounds Hq) as [Hm _]. fold ulp in Hm.
  destruct (round_half_even_spec (q / ulp)) as [H1 H2].
  set (m := round_half_even (q / ulp)) in *.
  assert (E : (Qabs (nearest q - q)
               == Qabs (inject_Z m - q / ulp) * ulp)%Q).
  { rewrite Hn. unfold nearest_pos. fold ulp. fold m.
    setoid_replace (inject_Z m * ulp - q)%Q
      with ((inject_Z m - q / ulp) * ulp)%Q by (field; try exact Hu').
    rewrite Qabs_Qmult, (Qabs_pos ulp); [reflexivity|].
    now apply Qlt_le_weak. }
  split; [rewrite Hn; reflexivity|]. split; [exact Hm|]. split.
  - rewrite E.
    setoid_replace (ulp / 2)%Q with ((1 # 2) * ulp)%Q by field.
    apply Qmult_le_compat_r; [exact H1|now apply Qlt_le_weak].
  - intros H. apply H2. rewrite E in H.
    setoid_replace (ulp / 2)%Q with ((1 # 2) * ulp)%Q in H by field.
    apply (Qmult_inj_r _ _ ulp); [exact Hu'|exact H].
Qed.

(** *** binary64 numbers round to themselves *)

Lemma nearest_comp (q1 q2 : Q) : (q1 == q2 -> nearest q1 == nearest q2)%Q.
Proof.
  intros H. apply Qle_antisym; apply nearest_monotone; rewrite H;
    apply Qle_refl.
Qed.

Lemma value_comp (q1 q2 : Q) : (q1 == q2 -> value q1 == value q2)%Q.
Proof.
  intros H. apply Qle_antisym; apply value_monotone; rewrite H;
    apply Qle_refl.
Qed.

Lemma nearest_of_pos (q : Q) : (0 < q -> nearest q = nearest_pos q)%Q.
Proof.
  intros H. unfold nearest. destruct (q ?= 0)%Q eqn:C;
    [apply Qeq_alt in C; lra|apply Qlt_alt in C; lra|reflexivity].
Qed.

Lemma nearest_of_neg (q : Q) : (q < 0 -> nearest q = - nearest_pos (- q))%Q.
Proof.
  intros H. unfold nearest. destruct (q ?= 0)%Q eqn:C;
    [apply Qeq_alt in C; lra|reflexivity|apply Qgt_alt in C; lra].
Qed.

Lemma nearest_of_zero (q : Q) : (q == 0 -> nearest q = 0)%Q.
Proof.
  intros H. unfold nearest. apply Qeq_alt in H. now rewrite H.
Qed.

Lemma nearest_opp (q : Q) : (nearest (- q) == - nearest q)%Q.
Proof.
  destruct (Q_dec q 0) as [[H|H]|H].
  - rewrite (nearest_of_neg H), nearest_of_pos by lra. ring.
  - rewrite (nearest_of_pos H), nearest_of_neg by lra.
    assert (E : (nearest_pos (- - q) == nearest_pos q)%Q).
    { rewrite <- !nearest_of_pos by lra. apply nearest_comp. ring. }
    rewrite E. reflexivity.
  - rewrite (nearest_of_zero H), nearest_of_zero by lra. reflexivity.
Qed.

Lemma round_half_even_integer (q : Q) (j : Z) :
  (q == inject_Z j)%Q -> round_half_even q = j.
Proof.
  intros H. unfold round_half_even.
  assert (Hf : Qfloor q = j) by (rewrite H; apply Qfloor_Z).
  rewrite Hf.
  assert (C : (q - inject_Z j ?= 1 # 2)%Q = Lt).
  { apply Qlt_alt. rewrite H.
    setoid_replace (inject_Z j - inject_Z j)%Q with 0%Q by ring.
    reflexivity. }
  now rewrite C.
Qed.

Lemma pow2_le_inv (a b : Z) : (pow2 a <= pow2 b)%Q -> (a <= b)%Z.
Proof.
  intros H.
  apply Qpower_le_compat_l_inv with (q := 2%Q); [assumption|reflexivity].
Qed.

Lemma ilog2_unique (q : Q) (l : Z) :
  (pow2 l <= q)%Q -> (q < pow2 (l + 1))%Q -> ilog2 q = l.
Proof.
  intros Hlo Hhi.
  assert (Hq : (0 < q)%Q) by (eapply Qlt_le_trans; [apply pow2_pos|eassumption]).
  destruct (ilog2_spec Hq) as [Hlo' Hhi'].
  assert (H1 : (pow2 l < pow2 (ilog2 q + 1))%Q) by lra.
  assert (H2 : (pow2 (ilog2 q) < pow2 (l + 1))%Q) by lra.
  apply pow2_lt_inv in H1, H2. lia.
Qed.

(** A multiple of a power of two, with a significand of at most 53
    bits and an exponent of at least -1074, rounds to itself. *)
Lemma nearest_pos_fixed (m e : Z) :
  (0 < m <= 2 ^ 53)%Z -> (-1074 <= e)%Z ->
  (nearest_pos (inject_Z m * pow2 e) == inject_Z m * pow2 e)%Q.
Proof.
  intros Hm He. set (r := (inject_Z m * pow2 e)%Q).
  pose proof (pow2_pos e) as Hpe.
  assert (Hr : (0 < r)%Q).
  { unfold r. apply Qmult_lt_0_compat; [apply inject_Z_pos; lia|assumption]. }
  (* the exponent of [r] is at most [e], or [m] is [2^53] *)
  assert (Hk : exists d : Z,
             (0 <= d)%Z
             /\ (r / pow2 (ulp_exponent r)
                 == inject_Z (if Z.eq_dec m (2 ^ 53) then 2 ^ 52
                              else m * 2 ^ d))%Q
             /\ (inject_Z (if Z.eq_dec m (2 ^ 53) then 2 ^ 52
                           else m * 2 ^ d) * pow2 (ulp_exponent r)
                 == r)%Q).
  { destruct (Z.eq_dec m (2 ^ 53)) as [E|Hne].
    - exists 0%Z. split; [lia|].
      assert (Hr2 : (r == pow2 (e + 53))%Q).
      { unfold r. rewrite E, Z.add_comm, pow2_plus, <- pow2_inject by lia.
        reflexivity. }
      assert (Hl : ilog2 r = (e + 53)%Z).
      { apply ilog2_unique.
        - rewrite Hr2. apply Qle_refl.
        - rewrite Hr2. apply Qpower_lt_compat_l; [lia|reflexivity]. }
      unfold ulp_exponent. rewrite Hl.
      replace (Z.max (e + 53 - 52) (-1074)) with (e + 1)%Z by lia.
      rewrite Hr2. replace (e + 53)%Z with (52 + (e + 1))%Z by lia.
      rewrite pow2_plus, <- (@pow2_inject 52) by lia.
      split; [field; apply Qnot_eq_sym, Qlt_not_eq, pow2_pos|reflexivity].
    - assert (Hlt : (r < pow2 (e + 53))%Q).
      { unfold r. rewrite Z.add_comm, pow2_plus, (@pow2_inject 53) by lia.
        apply Qmult_lt_compat_r; [assumption|].
        rewrite <- Zlt_Qlt. lia. }
      destruct (ilog2_spec Hr) as [Hlo _].
      assert (H1 : (pow2 (ilog2 r) < pow2 (e + 53))%Q) by lra.
      apply pow2_lt_inv in H1.
      set (u := ulp_exponent r) in *.
      exists (e - u)%Z.
      assert (Hd : (0 <= e - u)%Z) by (unfold u, ulp_exponent; lia).
      split; [assumption|].
      rewrite inject_Z_mult, <- pow2_inject by assumption.
      assert (Hp : (pow2 e == pow2 (e - u) * pow2 u)%Q).
      { rewrite <- pow2_plus. now replace (e - u + u)%Z with e by lia. }
      unfold r. rewrite Hp. split.
      + field. apply Qnot_eq_sym, Qlt_not_eq, pow2_pos.
      + ring. }
  destruct Hk as (d & Hd & Hq & Hback).
  unfold nearest_pos. fold r. rewrite (round_half_even_integer Hq).
  exact Hback.
Qed.

Lemma nearest_idempotent (q : Q) : (nearest (nearest q) == nearest q)%Q.
Proof.
  assert (Hpos : forall p, (0 < p)%Q ->
                           (nearest (nearest_pos p) == nearest_pos p)%Q).
  { intros p Hp. unfold nearest_pos at 2.
    destruct (significand_bounds Hp) as [[H0 H1] _].
    set (m := round_half_even (p / pow2 (ulp_exponent p))) in *.
    destruct (Z.eq_dec m 0) as [E|Hne].
    - assert (Hz : (nearest_pos p == 0)%Q).
      { unfold nearest_pos. fold m. rewrite E. ring. }
      rewrite (nearest_of_zero Hz). unfold nearest_pos. fold m.
      rewrite E. ring.
    - assert (E : (nearest_pos p
                   == inject_Z m * pow2 (ulp_exponent p))%Q)
        by reflexivity.
      rewrite (nearest_comp E), nearest_of_pos.
      + apply nearest_pos_fixed; [lia|unfold ulp_exponent; lia].
      + apply Qmult_lt_0_compat; [apply inject_Z_pos; lia|apply pow2_pos]. }
  destruct (Q_dec q 0) as [[H|H]|H].
  - rewrite (nearest_of_neg H).
    rewrite nearest_opp, Hpos by lra. reflexivity.
  - rewrite (nearest_of_pos H). now apply Hpos.
  - rewrite (nearest_of_zero H). reflexivity.
Qed.

(** The result of an operation, when finite, is its own value. *)
Lemma value_b64 (q x : Q) : b64 q = Fin x -> (value x == x)%Q.
Proof.
  unfold b64. pose proof MAX_FLOAT_pos as HM.
  destruct (Qlt_bool MAX_FLOAT (nearest q)) eqn:A; [discriminate|].
  destruct (Qlt_bool (nearest q) (- MAX_FLOAT)) eqn:B; [discriminate|].
  intros H. injection H as <-.
  apply Qlt_bool_false_iff in A, B.
  pose proof (nearest_idempotent q) as Hi.
  unfold value.
  destruct (Qlt_bool MAX_FLOAT (nearest (nearest q))) eqn:A';
    [apply Qlt_bool_iff in A'; lra|].
  destruct (Qlt_bool (nearest (nearest q)) (- MAX_FLOAT)) eqn:B';
    [apply Qlt_bool_iff in B'; lra|].
  exact Hi.
Qed.

(** *** The rounding error of numbers below two *)

Lemma nearest_error (q : Q) :
  (Qabs q < 2)%Q -> (Qabs (nearest q - q) <= pow2 (-53))%Q.
Proof.
  assert (Hpos : forall p, (0 < p)%Q -> (p < 2)%Q ->
                           (Qabs (nearest p - p) <= pow2 (-53))%Q).
  { intros p Hp H2.
    destruct (nearest_pos_spec Hp) as (m & _ & _ & He & _).
    cbv zeta in He. eapply Qle_trans; [exact He|].
    destruct (ilog2_spec Hp) as [Hlo _].
    assert (H1 : (pow2 (ilog2 p) < pow2 1)%Q).
    { eapply Qle_lt_trans; [exact Hlo|]. exact H2. }
    apply pow2_lt_inv in H1.
    assert (Hu : (pow2 (ulp_exponent p) <= pow2 (-52))%Q).
    { apply pow2_le. unfold ulp_exponent. lia. }
    change (pow2 (-53)) with (pow2 (-52) / 2)%Q.
    apply Qmult_le_compat_r; [exact Hu|discriminate]. }
  intros H. destruct (Q_dec q 0) as [[Hq|Hq]|Hq].
  - rewrite Qabs_neg in H by lra.
    setoid_replace (nearest q - q)%Q with (- (nearest (- q) - - q))%Q
      by (rewrite nearest_opp; ring).
    rewrite Qabs_opp. apply Hpos; lra.
  - rewrite Qabs_pos in H by lra. now apply Hpos.
  - rewrite (nearest_of_zero Hq).
    setoid_replace (0 - q)%Q with 0%Q by lra. discriminate.
Qed.

Lemma value_error (q : Q) :
  (Qabs q < 2)%Q -> (Qabs (value q - q) <= pow2 (-53))%Q.
Proof.
  intros H. pose proof (@nearest_error q H) as He.
  assert (Hb : (-(2) <= q <= 2)%Q).
  { apply Qabs_Qlt_condition in H. lra. }
  destruct (@b64_between (-(2)) 2 q Hb ltac:(Qle_compute)
              ltac:(Qle_compute)) as (_ & -> & _).
  exact He.
Qed.

(** *** The fused sum against the exact one *)

(** One operation on numbers below two: the result is finite, is its
    own value, and is off by at most [2^-53]. *)
Lemma b64_small (q : Q) :
  (0 <= q <= 3 # 2)%Q ->
  exists x,
    b64 q = Fin x /\ (value x == x)%Q /\ (0 <= x <= 3 # 2)%Q
    /\ (- pow2 (-53) <= x - q <= pow2 (-53))%Q.
Proof.
  intros H.
  destruct (@b64_between 0 (3 # 2) q H ltac:(Qle_compute)
              ltac:(Qle_compute)) as (Hb & _ & Hlo & Hhi).
  exists (nearest q). split; [exact Hb|].
  split; [exact (value_b64 _ Hb)|]. split.
  - split.
    + eapply Qle_trans; [|exact Hlo]. Qle_compute.
    + eapply Qle_trans; [exact Hhi|]. Qle_compute.
  - apply Qabs_Qle_condition, nearest_error.
    apply Qabs_Qlt_condition. lra.
Qed.

Lemma value_small (q : Q) :
  (0 <= q <= 1)%Q ->
  (0 <= value q <= 1)%Q /\ (- pow2 (-53) <= value q - q <= pow2 (-53))%Q.
Proof.
  intros H. split.
  - destruct (@value_within 0 1 q H) as [H0 H1]. split.
    + eapply Qle_trans; [|exact H0]. Qle_compute.
    + eapply Qle_trans; [exact H1|]. Qle_compute.
  - apply Qabs_Qle_condition, value_error.
    apply Qabs_Qlt_condition. lra.
Qed.

(** For signals in [0,1] the binary64 sum is a number of [0,1] within
    [2^-50] of the exact sum. *)
Lemma weighted_combination_error (s t f : Q) :
  (0 <= s <= 1)%Q -> (0 <= t <= 1)%Q -> (0 <= f <= 1)%Q ->
  exists x,
    weighted_combination (Fin s) (Fin t) (Fin f) = Fin x
    /\ (value x == x)%Q /\ (0 <= x <= 1)%Q
    /\ (Qabs (x - (0.4 * s + 0.4 * t + 0.2 * f)) <= pow2 (-50))%Q.
Proof.
  intros Hs Ht Hf. unfold weighted_combination.
  assert (K4 : (value 0.4 == 3602879701896397 # 9007199254740992)%Q)
    by (vm_compute; reflexivity).
  assert (K2 : (value 0.2 == 3602879701896397 # 18014398509481984)%Q)
    by (vm_compute; reflexivity).
  destruct (value_small Hs) as [Hs1 Hs2].
  destruct (value_small Ht) as [Ht1 Ht2].
  destruct (value_small Hf) as [Hf1 Hf2].
  change (pow2 (-53)) with (1 # 9007199254740992)%Q in *.
  cbn [f_mul].
  set (vs := value s) in *. set (vt := value t) in *.
  set (vf := value f) in *.
  assert (E1 : (value 0.4 * vs == (3602879701896397 # 9007199254740992) * vs)%Q)
    by (now rewrite K4).
  assert (E2 : (value 0.4 * vt == (3602879701896397 # 9007199254740992) * vt)%Q)
    by (now rewrite K4).
  assert (E3 : (value 0.2 * vf == (3602879701896397 # 18014398509481984) * vf)%Q)
    by (now rewrite K2).
  destruct (@b64_small (value 0.4 * vs) ltac:(lra))
    as (p1 & Hp1 & V1 & B1 & R1).
  destruct (@b64_small (value 0.4 * vt) ltac:(lra))
    as (p2 & Hp2 & V2 & B2 & R2).
  destruct (@b64_small (value 0.2 * vf) ltac:(lra))
    as (p3 & Hp3 & V3 & B3 & R3).
  change (pow2 (-53)) with (1 # 9007199254740992)%Q in *.
  rewrite Hp1, Hp2, Hp3. cbn [f_add].
  destruct (@b64_small (value p1 + value p2) ltac:(lra))
    as (p12 & Hp12 & V12 & B12 & R12).
  change (pow2 (-53)) with (1 # 9007199254740992)%Q in *.
  rewrite Hp12. cbn [f_add].
  destruct (@b64_small (value p12 + value p3) ltac:(lra))
    as (x & Hx & Vx & Bx & Rx).
  change (pow2 (-53)) with (1 # 9007199254740992)%Q in *.
  exists x. split; [exact Hx|]. split; [exact Vx|].
  split.
  { pose proof (@weighted_combination_in_unit (Fin s) (Fin t) (Fin f)
                  Hs Ht Hf) as Hu.
    unfold weighted_combination in Hu. cbn [f_mul] in Hu.
    fold vs vt vf in Hu. rewrite Hp1, Hp2, Hp3 in Hu. cbn [f_add] in Hu.
    rewrite Hp12 in Hu. cbn [f_add] in Hu. rewrite Hx in Hu. exact Hu. }
  change (pow2 (-50)) with (1 # 1125899906842624)%Q.
  apply Qabs_Qle_condition. lra.
Qed.

(** The rounded score of signals in [0,1]: the sum [x], the decimal
    [k/1000] it rounds to and the float [r] of that decimal. *)
Lemma rounded_score_spec (s t f : Q) :
  (0 <= s <= 1)%Q -> (0 <= t <= 1)%Q -> (0 <= f <= 1)%Q ->
  exists (x : Q) (k : Z) (r : Q),
    weighted_combination (Fin s) (Fin t) (Fin f) = Fin x
    /\ (Qabs (x - (0.4 * s + 0.4 * t + 0.2 * f))
        <= 1 # 1125899906842624)%Q
    /\ py_round (Fin x) 3 = b64 (inject_Z k / 1000)
    /\ (0 <= k <= 1000)%Z
    /\ (Qabs (inject_Z k / 1000 - x) <= 1 # 2000)%Q
    /\ ((Qabs (inject_Z k / 1000 - x) == 1 # 2000)%Q -> Z.even k = true)
    /\ b64 (inject_Z k / 1000) = Fin r
    /\ (Qabs (r - inject_Z k / 1000) <= 1 # 9007199254740992)%Q.
Proof.
  intros Hs Ht Hf.
  destruct (weighted_combination_error Hs Ht Hf)
    as (x & Hx & Vx & Bx & Ex).
  destruct (py_round_spec x 3) as (k & Hk & Hd & He).
  cbv zeta in Hd, He.
  change (inject_Z (10 ^ Z.of_nat 3)) with 1000%Q in Hk, Hd, He.
  rewrite Vx in Hd, He.
  assert (Hkb : (0 <= k <= 1000)%Z).
  { apply Qabs_Qle_condition in Hd.
    assert (Hq : forall q : Q,
               (- (1 # 2000) <= q * (1 # 1000) - x <= 1 # 2000)%Q ->
               (-(1) < q < 1001)%Q) by (intros q Hq; lra).
    destruct (Hq (inject_Z k)) as [H0 H1]; [exact Hd|].
    change (-(1))%Q with (inject_Z (-1)) in H0.
    change 1001%Q with (inject_Z 1001) in H1.
    rewrite <- Zlt_Qlt in H0, H1. lia. }
  assert (Hku : (0 <= inject_Z k / 1000 <= 3 # 2)%Q).
  { destruct Hkb as [H0 H1]. rewrite Zle_Qle in H0, H1.
    change (inject_Z 0) with 0%Q in H0.
    change (inject_Z 1000) with 1000%Q in H1.
    assert (Hq : forall q : Q,
               (0 <= q)%Q -> (q <= 1000)%Q ->
               (0 <= q * (1 # 1000) <= 3 # 2)%Q) by (intros; lra).
    exact (Hq _ H0 H1). }
  destruct (b64_small Hku) as (r & Hr & _ & _ & Er).
  exists x, k, r. repeat split; try assumption; try lia.
  apply Qabs_Qle_condition. exact Er.
Qed.


(** The clamp of [score_content_relevance]. *)
Lemma clamp_in_unit (x : pyfloat) :
  in_unit (py_max (Fin 0.0) (py_min (Fin 1.0) x)).
Proof.
  unfold py_min, py_max.
  destruct x as [q| | |]; simpl; try (split; lra).
  destruct (Qlt_bool q 1.0) eqn:E1; simpl.
  - destruct (Qlt_bool 0.0 q) eqn:E0; simpl.
    + apply Qlt_bool_iff in E0, E1. split; lra.
    + split; lra.
  - split; lra.
Qed.

Lemma clamp_finite (q : Q) :
  exists r,
    py_max (Fin 0.0) (py_min (Fin 1.0) (Fin q)) = Fin r
    /\ ((0 <= q <= 1)%Q -> r == q)
    /\ ((q < 0)%Q -> r == 0)
    /\ ((1 < q)%Q -> r == 1).
Proof.
  unfold py_min, py_max. simpl.
  destruct (Qlt_bool q 1.0) eqn:E1; simpl.
  - destruct (Qlt_bool 0.0 q) eqn:E0; simpl.
    + apply Qlt_bool_iff in E0, E1.
      exists q. repeat split; intros; lra.
    + apply Qlt_bool_false_iff in E0. apply Qlt_bool_iff in E1.
      exists 0.0. repeat split; intros; lra.
  - apply Qlt_bool_false_iff in E1.
    exists 1.0. repeat split; intros; lra.
Qed.

(** ** Freshness as a function of age *)

Lemma freshness_of_age_in_unit (d : Z) : in_unit (freshness_of_age d).
Proof.
  unfold freshness_of_age.
  repeat match goal with
         | |- context [if ?b then _ else _] => destruct b
         end; simpl; split; lra.
Qed.

Lemma freshness_of_age_steps (d : Z) :
  ((d <= 0)%Z -> freshness_of_age d = Fin 1.0)
  /\ ((0 < d <= 7)%Z -> freshness_of_age d = Fin 0.9)
  /\ ((7 < d <= 30)%Z -> freshness_of_age d = Fin 0.7)
  /\ ((30 < d <= 90)%Z -> freshness_of_age d = Fin 0.4)
  /\ ((90 < d)%Z -> freshness_of_age d = Fin 0.2).
Proof.
  unfold freshness_of_age.
  repeat split; intros H;
    repeat match goal with
           | |- context [(?a <=? ?b)%Z] =>
               destruct (Z.leb_spec a b); try lia
           end; reflexivity.
Qed.

Lemma freshness_of_age_antitone (d1 d2 : Z) :
  (d1 <= d2)%Z ->
  f_le (freshness_of_age d2) (freshness_of_age d1) = true.
Proof.
  intros H. unfold freshness_of_age.
  repeat match goal with
         | |- context [(?a <=? ?b)%Z] =>
             destruct (Z.leb_spec a b); try lia
         end; reflexivity.
Qed.

(** ** Running computations *)

Lemma bind_Ok {A B} (m : M A) (k : A -> M B) (w w1 : World) (a : A) :
  m w = (Ok a, w1) -> bind m k w = k a w1.
Proof. intros H. unfold bind. now rewrite H. Qed.

Lemma bind_Ok_inv {A B} (m : M A) (k : A -> M B) (w w' : World) (b : B) :
  bind m k w = (Ok b, w') ->
  exists a w1, m w = (Ok a, w1) /\ k a w1 = (Ok b, w').
Proof.
  unfold bind. destruct (m w) as [[a|e] w1]; intros H.
  - now exists a, w1.
  - discriminate.
Qed.

Section Scoring.
Context {lib : PyLib} {svc : Services}.

(** *** Freshness *)

Lemma calculate_freshness_empty (w : World) :
  _calculate_freshness [] w = (Ok (Fin 0.5), w).
Proof. reflexivity. Qed.

Lemma calculate_freshness_unparseable (p : str) (w : World) :
  fromisoformat (replace_char 90%N (lit "+00:00") p) = None ->
  _calculate_freshness p w = (Ok (Fin 0.5), w).
Proof.
  intros H. destruct p as [|c p]; [reflexivity|].
  unfold _calculate_freshness, try_except, freshness_of_date.
  cbn [is_empty]. now rewrite H.
Qed.

Lemma calculate_freshness_naive (p : str) (w : World) (pub : datetime) :
  p <> [] ->
  fromisoformat (replace_char 90%N (lit "+00:00") p) = Some pub ->
  dt_utcoffset pub = None ->
  _calculate_freshness p w
  = (Ok (freshness_of_age (days (clock w - dt_wall pub)%Z)), w).
Proof.
  intros Hp H Hn. destruct p as [|c p]; [congruence|].
  unfold _calculate_freshness, try_except, freshness_of_date.
  cbn [is_empty]. rewrite H.
  unfold bind, utcnow, datetime_sub. cbn. now rewrite Hn.
Qed.

(** A publication date with a UTC offset cannot be subtracted from
    the naive [utcnow()]: the [TypeError] is caught and the freshness
    is 0.5 whatever the age. *)
Lemma calculate_freshness_aware (p : str) (w : World) (pub : datetime)
  (off : Z) :
  p <> [] ->
  fromisoformat (replace_char 90%N (lit "+00:00") p) = Some pub ->
  dt_utcoffset pub = Some off ->
  _calculate_freshness p w = (Ok (Fin 0.5), w).
Proof.
  intros Hp H Hn. destruct p as [|c p]; [congruence|].
  unfold _calculate_freshness, try_except, freshness_of_date.
  cbn [is_empty]. rewrite H.
  unfold bind, utcnow, datetime_sub. cbn. now rewrite Hn.
Qed.

Lemma calculate_freshness_total (p : str) (w : World) :
  exists x, _calculate_freshness p w = (Ok x, w) /\ in_unit x.
Proof.
  assert (Hhalf : in_unit (Fin 0.5)) by (simpl; split; lra).
  destruct p as [|c p]; [now exists (Fin 0.5)|].
  destruct (fromisoformat (replace_char 90%N (lit "+00:00") (c :: p)))
    as [pub|] eqn:E.
  - destruct (dt_utcoffset pub) as [off|] eqn:Eo.
    + exists (Fin 0.5). split; [|assumption].
      eapply calculate_freshness_aware; eauto; discriminate.
    + eexists. split.
      * eapply calculate_freshness_naive; eauto; discriminate.
      * apply freshness_of_age_in_unit.
  - exists (Fin 0.5). split; [|assumption].
    now apply calculate_freshness_unparseable.
Qed.

(** *** Topic relevance *)

Lemma score_content_relevance_run (content : str) (topics : list str)
  (w : World) :
  score_content_relevance content topics w
  = (match chat_completions_create w (relevance_request topics content)
     with
     | Raise e => Raise e
     | Ok None => Raise NO_STRIP
     | Ok (Some reply) =>
         Ok (match float_of_str (strip reply) with
             | Some score => py_max (Fin 0.0) (py_min (Fin 1.0) score)
             | None => Fin 0.5
             end)
     end,
     w ++ [EvChat (relevance_request topics content)]).
Proof.
  unfold score_content_relevance, bind, chat, try_except.
  destruct (chat_completions_create w (relevance_request topics content))
    as [[reply|]|e]; cbn; try reflexivity.
  unfold py_float. now destruct (float_of_str (strip reply)).
Qed.

Lemma score_content_relevance_in_unit (content : str)
  (topics : list str) (w w' : World) (x : pyfloat) :
  score_content_relevance content topics w = (Ok x, w') -> in_unit x.
Proof.
  rewrite score_content_relevance_run.
  destruct (chat_completions_create w (relevance_request topics content))
    as [[reply|]|e]; intros H; inversion H; subst.
  destruct (float_of_str (strip reply)).
  - apply clamp_in_unit.
  - simpl; split; lra.
Qed.

(** *** The fused score *)

Lemma calculate_relevance_score_inv (it : item) (ctx : user_context)
  (w w' : World) (r : pyfloat) :
  _calculate_relevance_score it ctx w = (Ok r, w') ->
  exists content topic fresh,
    it_content it = Some content
    /\ score_content_relevance (firstn 500 content)
         (get (uc_current_topics ctx) []) w = (Ok topic, w')
    /\ _calculate_freshness (published_of it) w' = (Ok fresh, w')
    /\ in_unit topic /\ in_unit fresh
    /\ r = py_round
             (weighted_combination (get (it_similarity it) (Fin 0.5))
                topic fresh) 3.
Proof.
  unfold _calculate_relevance_score. intros H.
  destruct (it_content it) as [content|]; [|discriminate].
  cbn [getitem] in H. unfold bind at 1 in H. cbn [ret] in H.
  apply bind_Ok_inv in H as (topic & w1 & Htopic & H).
  apply bind_Ok_inv in H as (fresh & w2 & Hfresh & H).
  destruct (calculate_freshness_total (published_of it) w1)
    as (x & Hx & Hxu).
  rewrite Hx in Hfresh. inversion Hfresh; subst x w2.
  inversion H; subst.
  exists content, topic, fresh. repeat split; try assumption.
  eapply score_content_relevance_in_unit; eassumption.
Qed.

Lemma calculate_relevance_score_returns (it : item) (ctx : user_context)
  (w : World) (content reply : str) :
  it_content it = Some content ->
  chat_completions_create w
    (relevance_request (get (uc_current_topics ctx) [])
       (firstn 500 content)) = Ok (Some reply) ->
  exists r,
    _calculate_relevance_score it ctx w
    = (Ok r,
       w ++ [EvChat (relevance_request (get (uc_current_topics ctx) [])
                       (firstn 500 content))])
    /\ (similarity_in_unit it -> in_unit r).
Proof.
  intros Hc Hr.
  set (w1 := w ++ [EvChat (relevance_request
                             (get (uc_current_topics ctx) [])
                             (firstn 500 content))]).
  destruct (calculate_freshness_total (published_of it) w1)
    as (fresh & Hf & Hfu).
  pose proof (score_content_relevance_run (firstn 500 content)
                (get (uc_current_topics ctx) []) w) as Hs.
  rewrite Hr in Hs. fold w1 in Hs.
  eexists. split.
  - unfold _calculate_relevance_score. rewrite Hc. cbn [getitem].
    unfold bind at 1. cbn [ret].
    erewrite bind_Ok by exact Hs.
    erewrite bind_Ok by exact Hf.
    reflexivity.
  - intros Hsim. apply py_round_in_unit.
    apply weighted_combination_in_unit; try assumption.
    + unfold similarity_in_unit in Hsim.
      destruct (it_similarity it); [assumption|simpl; split; lra].
    + eapply score_content_relevance_in_unit. exact Hs.
Qed.

End Scoring.

(** ** The scorer *)

(** C1. Whenever the scorer returns a score, that score is
    [round(0.4*similarity + 0.4*topicRelevance + 0.2*freshness, 3)] as
    binary64 computes it, for the similarity of the candidate (0.5 when
    it carries none), the topic relevance the rating call gave and the
    freshness of its publication date.  For signals in [0,1] the sum is
    a binary64 number within [2^-50] of the exact sum, and its rounding
    is the float of a decimal [k/1000] with [0 <= k <= 1000], at most
    [1/2000] from the sum, [k] being even when it is exactly [1/2000]
    away; and for sub-signals in [0,1] the score is in [0,1]. *)
Theorem relevance_score_fusion {lib : PyLib} {svc : Services} :
  (forall (it : item) (ctx : user_context) (w w' : World) (r : pyfloat),
      _calculate_relevance_score it ctx w = (Ok r, w') ->
      exists content topic fresh,
        it_content it = Some content
        /\ score_content_relevance (firstn 500 content)
             (get (uc_current_topics ctx) []) w = (Ok topic, w')
        /\ _calculate_freshness (published_of it) w' = (Ok fresh, w')
        /\ r = py_round
                 (f_add
                    (f_add
                       (f_mul (Fin 0.4) (get (it_similarity it) (Fin 0.5)))
                       (f_mul (Fin 0.4) topic))
                    (f_mul (Fin 0.2) fresh)) 3
        /\ (similarity_in_unit it -> in_unit r))
  /\ (forall s t f : Q,
         (0 <= s <= 1)%Q -> (0 <= t <= 1)%Q -> (0 <= f <= 1)%Q ->
         exists (x : Q) (k : Z),
           f_add (f_add (f_mul (Fin 0.4) (Fin s)) (f_mul (Fin 0.4) (Fin t)))
             (f_mul (Fin 0.2) (Fin f)) = Fin x
           /\ (Qabs (x - (0.4 * s + 0.4 * t + 0.2 * f))
               <= 1 # 1125899906842624)%Q
           /\ py_round (Fin x) 3 = b64 (inject_Z k / 1000)
           /\ (0 <= k <= 1000)%Z
           /\ (Qabs (inject_Z k / 1000 - x) <= 1 # 2000)%Q
           /\ ((Qabs (inject_Z k / 1000 - x) == 1 # 2000)%Q ->
               Z.even k = true))
  /\ (forall s t f : pyfloat,
         in_unit s -> in_unit t -> in_unit f ->
         in_unit (py_round (weighted_combination s t f) 3)).
Proof.
  split; [|split].
  - intros it ctx w w' r H.
    destruct (calculate_relevance_score_inv _ _ _ H)
      as (content & topic & fresh & Hc & Ht & Hf & Htu & Hfu & Hr).
    exists content, topic, fresh.
    repeat split; try assumption.
    intros Hs. subst r. apply py_round_in_unit.
    apply weighted_combination_in_unit; try assumption.
    unfold similarity_in_unit in Hs.
    destruct (it_similarity it); [assumption|simpl; split; lra].
  - intros s t f Hs Ht Hf.
    destruct (rounded_score_spec Hs Ht Hf)
      as (x & k & r & Hx & Ex & Hk & Hkb & Hd & He & _).
    exists x, k. repeat split; try assumption; lia.
  - intros s t f Hs Ht Hf.
    now apply py_round_in_unit, weighted_combination_in_unit.
Qed.

Lemma relevance_score_fusion_witness :
  (exists r,
      _calculate_relevance_score (lib := Demo.lib)
        (svc := Demo.services [] [] Demo.TOPICS)
        Demo.doc_recent (Demo.context Demo.TOPICS) []
      = (Ok r,
         [EvChat (relevance_request Demo.TOPICS
                    (lit "Attention is all you need."))])
      /\ r = b64 0.74 /\ in_unit r)
  /\ py_round (weighted_combination (Fin 0.53125) (Fin 0.8) (Fin 0.9)) 3
     = Fin (6422133068630327 # 9007199254740992)
  /\ b64 0.713 = Fin (6422133068630327 # 9007199254740992)
  /\ py_round (weighted_combination (Fin 0.09375) (Fin 0) (Fin 0.7)) 3
     = b64 0.177
  /\ py_round (weighted_combination (Fin 0.00125) (Fin 0) (Fin 1)) 3
     = b64 0.201
  /\ b64 0.1 = Fin (7205759403792794 # 72057594037927936).
Proof.
  split.
  - exists (b64 0.74). split; [vm_compute; reflexivity|].
    split; [reflexivity|].
    destruct (proj1 (@relevance_score_fusion Demo.lib
                       (Demo.services [] [] Demo.TOPICS))
                Demo.doc_recent (Demo.context Demo.TOPICS) [] _ _
                ltac:(vm_compute; reflexivity))
      as (_ & _ & _ & _ & _ & _ & _ & Hu).
    apply Hu. simpl. split; lra.
  - repeat split; vm_compute; reflexivity.
Defined.



(** ** Freshness *)

(** The part of the freshness rule the code keeps: a missing or
    unparseable date gives 0.5, and a date without a UTC offset gives the
    step function of its age in days, which never grows with the age.
    No call raises. *)
Lemma calculate_freshness_naive_steps {lib : PyLib} {svc : Services}
  (p : str) (w : World) :
  (exists x, _calculate_freshness p w = (Ok x, w))
  /\ (p = [] -> _calculate_freshness p w = (Ok (Fin 0.5), w))
  /\ (fromisoformat (replace_char 90%N (lit "+00:00") p) = None ->
      _calculate_freshness p w = (Ok (Fin 0.5), w))
  /\ (forall pub,
         p <> [] ->
         fromisoformat (replace_char 90%N (lit "+00:00") p) = Some pub ->
         dt_utcoffset pub = None ->
         let age := days (clock w - dt_wall pub)%Z in
         _calculate_freshness p w = (Ok (freshness_of_age age), w)
         /\ ((age <= 0)%Z -> freshness_of_age age = Fin 1.0)
         /\ ((0 < age <= 7)%Z -> freshness_of_age age = Fin 0.9)
         /\ ((7 < age <= 30)%Z -> freshness_of_age age = Fin 0.7)
         /\ ((30 < age <= 90)%Z -> freshness_of_age age = Fin 0.4)
         /\ ((90 < age)%Z -> freshness_of_age age = Fin 0.2))
  /\ (forall age1 age2,
         (age1 <= age2)%Z ->
         f_le (freshness_of_age age2) (freshness_of_age age1) = true).
Proof.
  split; [|split; [|split; [|split]]].
  - destruct (calculate_freshness_total p w) as (x & Hx & _). now exists x.
  - intros ->. reflexivity.
  - apply calculate_freshness_unparseable.
  - intros pub Hp Hpub Hn age.
    split; [now apply calculate_freshness_naive|].
    apply freshness_of_age_steps.
  - apply freshness_of_age_antitone.
Qed.

(** C5 at the failing input: on 1 June 2024 a document published on
    1 January 2020 is more than 90 days old; written without an offset
    its freshness is 0.2, written with the ["Z"] suffix, which the code
    rewrites to ["+00:00"], it is 0.5. *)
Theorem freshness_of_utc_timestamp :
  let svc := Demo.services [] [] Demo.TOPICS in
  _calculate_freshness (lib := Demo.lib) (svc := svc)
    (lit "2020-01-01T00:00:00Z") [] = (Ok (Fin 0.5), [])
  /\ _calculate_freshness (lib := Demo.lib) (svc := svc)
       (lit "2020-01-01T00:00:00") [] = (Ok (Fin 0.2), [])
  /\ (90 < days (Demo.NOON_1_JUNE_2024
                 - Demo.wall_of (lit "2020-01-01T00:00:00")))%Z.
Proof. repeat split. Qed.

(** ** Topic relevance *)

(** C6. For every reply of the rating call: a reply that parses as a
    finite number gives that number clamped into [0,1]; a reply that does
    not parse gives exactly 0.5, returned and not raised; the result is
    in [0,1] in every case (the infinities clamp to the bounds, a NaN
    gives 1.0).  With it the scorer returns a score, which is in [0,1]
    when the similarity of the candidate is. *)
Theorem topic_relevance_parse_and_clamp {lib : PyLib} {svc : Services} :
  (forall (content : str) (topics : list str) (w : World) (reply : str),
      chat_completions_create w (relevance_request topics content)
      = Ok (Some reply) ->
      exists x,
        score_content_relevance content topics w
        = (Ok x, w ++ [EvChat (relevance_request topics content)])
        /\ in_unit x
        /\ (float_of_str (strip reply) = None -> x = Fin 0.5)
        /\ (forall q,
               float_of_str (strip reply) = Some (Fin q) ->
               exists r,
                 x = Fin r
                 /\ ((0 <= q <= 1)%Q -> r == q)
                 /\ ((q < 0)%Q -> r == 0)
                 /\ ((1 < q)%Q -> r == 1))
        /\ (float_of_str (strip reply) = Some PInf -> x = Fin 1.0)
        /\ (float_of_str (strip reply) = Some NInf -> x = Fin 0.0)
        /\ (float_of_str (strip reply) = Some NaN -> x = Fin 1.0))
  /\ (forall (it : item) (ctx : user_context) (w : World)
             (content reply : str),
         it_content it = Some content ->
         chat_completions_create w
           (relevance_request (get (uc_current_topics ctx) [])
              (firstn 500 content)) = Ok (Some reply) ->
         float_of_str (strip reply) = None ->
         similarity_in_unit it ->
         exists r w',
           _calculate_relevance_score it ctx w = (Ok r, w') /\ in_unit r).
Proof.
  split.
  - intros content topics w reply Hreply.
    pose proof (score_content_relevance_run content topics w) as Hrun.
    rewrite Hreply in Hrun.
    eexists. split; [exact Hrun|].
    split; [eapply score_content_relevance_in_unit; exact Hrun|].
    repeat split.
    + now intros ->.
    + intros q ->. apply clamp_finite.
    + now intros ->.
    + now intros ->.
    + now intros ->.
  - intros it ctx w content reply Hc Hreply _ Hsim.
    destruct (calculate_relevance_score_returns it ctx w Hc Hreply)
      as (r & Hr & Hu).
    eauto.
Qed.

Lemma topic_relevance_parse_and_clamp_witness :
  (exists x,
      score_content_relevance (lib := Demo.lib)
        (svc := Demo.services [] [] Demo.TOPICS)
        (lit "Transformers from scratch.") Demo.TOPICS [] = (Ok x,
          [EvChat (relevance_request Demo.TOPICS
                     (lit "Transformers from scratch."))])
      /\ x = Fin 0.5)
  /\ (exists r w',
         _calculate_relevance_score (lib := Demo.lib)
           (svc := Demo.services [] [] Demo.TOPICS)
           Demo.doc_utc (Demo.context Demo.TOPICS) [] = (Ok r, w')
         /\ in_unit r).
Proof.
  split.
  - destruct (proj1 (@topic_relevance_parse_and_clamp Demo.lib
                       (Demo.services [] [] Demo.TOPICS))
                (lit "Transformers from scratch.") Demo.TOPICS []
                (lit "fairly relevant") eq_refl)
      as (x & Hx & _ & Hnone & _).
    exists x. split; [exact Hx|]. apply Hnone. reflexivity.
  - apply (proj2 (@topic_relevance_parse_and_clamp Demo.lib
                    (Demo.services [] [] Demo.TOPICS))
             Demo.doc_utc (Demo.context Demo.TOPICS) []
             (lit "Transformers from scratch.") (lit "fairly relevant")
             eq_refl eq_refl eq_refl).
    simpl. split; lra.
Defined.

(** ** The order on floats *)

Ltac float_order :=
  unfold f_le, f_lt, f_eq, is_nan in *;
  repeat match goal with
         | x : pyfloat |- _ => destruct x
         end;
  simpl in *; try congruence; try reflexivity;
  repeat match goal with
         | H : _ || _ = true |- _ => apply orb_prop in H
         | H : Qlt_bool _ _ = true |- _ => apply Qlt_bool_iff in H
         | H : Qlt_bool _ _ = false |- _ => apply Qlt_bool_false_iff in H
         | H : Qeq_bool _ _ = true |- _ => apply Qeq_bool_iff in H
         | H : Qeq_bool _ _ = false |- _ => apply Qeq_bool_neq in H
         | H : _ \/ _ |- _ => destruct H
         end;
  try congruence.

Lemma f_le_total (a b : pyfloat) :
  is_nan a = false -> is_nan b = false ->
  f_lt a b = false -> f_le b a = true.
Proof.
  intros Ha Hb H. float_order.
  apply Qle_lt_or_eq_bool. assumption.
Qed.

Lemma f_lt_le (a b : pyfloat) : f_lt a b = true -> f_le a b = true.
Proof. intros H. unfold f_le. now rewrite H. Qed.

Lemma f_le_trans (a b c : pyfloat) :
  f_le a b = true -> f_le b c = true -> f_le a c = true.
Proof.
  intros H1 H2. float_order; apply Qle_lt_or_eq_bool; lra.
Qed.

Lemma f_lt_le_trans (a b c : pyfloat) :
  f_lt a b = true -> f_le b c = true -> f_lt a c = true.
Proof.
  intros H1 H2. float_order; apply Qlt_bool_iff; lra.
Qed.

Lemma f_lt_not_eq (a b k : pyfloat) :
  f_lt a b = true -> f_eq a k = true -> f_eq b k = false.
Proof.
  intros H1 H2. float_order.
  match goal with
  | |- Qeq_bool ?x ?y = false =>
      destruct (Qeq_bool x y) eqn:E; [|reflexivity];
      apply Qeq_bool_iff in E; lra
  end.
Qed.

(** ** The stable sort *)

Section SortFacts.
Variable A : Type.
Variable key : A -> pyfloat.

Lemma insert_sorted_perm (x : A) (l : list A) :
  Permutation (x :: l) (insert_sorted key x l).
Proof.
  induction l as [|y l IH]; simpl; [reflexivity|].
  destruct (f_lt (key x) (key y)); [reflexivity|].
  rewrite perm_swap. now constructor.
Qed.

Lemma sort_ascending_acc_perm (l acc : list A) :
  Permutation (rev l ++ acc)
    (fold_left (fun acc x => insert_sorted key x acc) l acc).
Proof.
  revert acc; induction l as [|x l IH]; intros acc; simpl.
  - reflexivity.
  - rewrite <- IH, <- app_assoc. simpl.
    apply Permutation_app_head, insert_sorted_perm.
Qed.

Lemma sort_ascending_perm (l : list A) :
  Permutation l (sort_ascending key l).
Proof.
  unfold sort_ascending.
  rewrite <- sort_ascending_acc_perm, app_nil_r.
  apply Permutation_rev.
Qed.

Lemma list_sort_perm (reverse : bool) (l : list A) :
  Permutation l (list_sort key reverse l).
Proof.
  unfold list_sort. destruct reverse.
  - rewrite <- Permutation_rev, <- sort_ascending_perm.
    apply Permutation_rev.
  - apply sort_ascending_perm.
Qed.

Lemma insert_sorted_sorted (x : A) (l : list A) :
  is_nan (key x) = false -> numeric_keys key l ->
  StronglySorted (key_le key) l -> StronglySorted (key_le key) (insert_sorted key x l).
Proof.
  intros Hx Hl Hs.
  induction Hs as [|y l Hs IH Hy]; simpl.
  - constructor; constructor.
  - inversion Hl as [|? ? Hny Hnl]; subst.
    destruct (f_lt (key x) (key y)) eqn:E.
    + constructor; [now constructor|].
      constructor; [now apply f_lt_le|].
      eapply Forall_impl; [|exact Hy].
      intros a Ha. unfold key_le in *.
      eapply f_le_trans; [apply f_lt_le; exact E|exact Ha].
    + constructor; [now apply IH|].
      eapply Permutation_Forall; [apply insert_sorted_perm|].
      constructor; [|assumption].
      now apply f_le_total.
Qed.

Lemma numeric_insert (x : A) (l : list A) :
  is_nan (key x) = false -> numeric_keys key l ->
  numeric_keys key (insert_sorted key x l).
Proof.
  intros Hx Hl.
  eapply Permutation_Forall; [apply insert_sorted_perm|].
  now constructor.
Qed.

Lemma sort_ascending_acc_sorted (l acc : list A) :
  numeric_keys key l -> numeric_keys key acc -> StronglySorted (key_le key) acc ->
  StronglySorted (key_le key)
    (fold_left (fun acc x => insert_sorted key x acc) l acc).
Proof.
  revert acc; induction l as [|x l IH]; intros acc Hl Hacc Hs; simpl.
  - assumption.
  - inversion Hl; subst.
    apply IH; [assumption|now apply numeric_insert|].
    now apply insert_sorted_sorted.
Qed.

Lemma sort_ascending_sorted (l : list A) :
  numeric_keys key l -> StronglySorted (key_le key) (sort_ascending key l).
Proof.
  intros Hl. apply sort_ascending_acc_sorted;
    [assumption|constructor|constructor].
Qed.

Lemma filter_none (f : A -> bool) (l : list A) :
  (forall z, In z l -> f z = false) -> filter f l = [].
Proof.
  induction l as [|z l IH]; intros H; [reflexivity|].
  simpl. rewrite (H z (or_introl eq_refl)).
  apply IH. intros. apply H. now right.
Qed.

(** A new element goes after the elements already placed whose key
    equals its own. *)
Lemma insert_sorted_stable (k : pyfloat) (x : A) (l : list A) :
  StronglySorted (key_le key) l ->
  filter (key_same key k) (insert_sorted key x l)
  = filter (key_same key k) l ++ filter (key_same key k) [x].
Proof.
  intros Hs.
  induction Hs as [|y l Hs IH Hy]; [reflexivity|].
  cbn [insert_sorted].
  destruct (f_lt (key x) (key y)) eqn:E.
  - cbn [filter]. destruct (key_same key k x) eqn:Ex.
    + assert (Hy0 : key_same key k y = false)
        by (unfold key_same in *; eapply f_lt_not_eq; eassumption).
      rewrite Hy0.
      rewrite filter_none; [reflexivity|].
      intros z Hz. unfold key_same in *.
      eapply f_lt_not_eq; [|exact Ex].
      eapply f_lt_le_trans; [exact E|].
      exact (proj1 (Forall_forall _ _) Hy z Hz).
    + now rewrite app_nil_r.
  - cbn [filter]. rewrite IH.
    destruct (key_same key k y); reflexivity.
Qed.

Lemma sort_ascending_acc_stable (k : pyfloat) (l acc : list A) :
  numeric_keys key l -> numeric_keys key acc -> StronglySorted (key_le key) acc ->
  filter (key_same key k)
    (fold_left (fun acc x => insert_sorted key x acc) l acc)
  = filter (key_same key k) acc ++ filter (key_same key k) l.
Proof.
  revert acc; induction l as [|x l IH]; intros acc Hl Hacc Hs.
  - simpl. now rewrite app_nil_r.
  - inversion Hl; subst. cbn [fold_left].
    rewrite IH;
      [|assumption|now apply numeric_insert|now apply insert_sorted_sorted].
    rewrite insert_sorted_stable by assumption.
    rewrite <- app_assoc. f_equal.
    cbn [filter]. now destruct (key_same key k x).
Qed.

Lemma numeric_rev (l : list A) :
  numeric_keys key l -> numeric_keys key (rev l).
Proof. apply Permutation_Forall, Permutation_rev. Qed.

Lemma StronglySorted_snoc (R : A -> A -> Prop) (m : list A) (x : A) :
  StronglySorted R m -> Forall (fun y => R y x) m ->
  StronglySorted R (m ++ [x]).
Proof.
  induction 1 as [|y m Hm IH Hy]; intros Hx; simpl.
  - constructor; constructor.
  - inversion Hx; subst.
    constructor; [now apply IH|].
    apply Forall_app. split; [assumption|now constructor].
Qed.

Lemma StronglySorted_rev (R : A -> A -> Prop) (l : list A) :
  StronglySorted R l -> StronglySorted (fun a b => R b a) (rev l).
Proof.
  induction 1 as [|x l Hs IH Hx]; simpl; [constructor|].
  apply StronglySorted_snoc; [assumption|].
  eapply Permutation_Forall; [apply Permutation_rev|exact Hx].
Qed.

Lemma filter_rev (f : A -> bool) (l : list A) :
  filter f (rev l) = rev (filter f l).
Proof.
  induction l as [|x l IH]; [reflexivity|].
  simpl. rewrite filter_app, IH. simpl.
  destruct (f x); simpl; [reflexivity|now rewrite app_nil_r].
Qed.

(** [l.sort(key=key, reverse=True)] on keys none of which is a NaN:
    a permutation, descending, and equal keys keep their order. *)
Lemma list_sort_reverse_spec (l : list A) :
  numeric_keys key l ->
  Permutation l (list_sort key true l)
  /\ StronglySorted (fun a b => key_le key b a) (list_sort key true l)
  /\ forall k,
       filter (key_same key k) (list_sort key true l) = filter (key_same key k) l.
Proof.
  intros Hl. split; [apply list_sort_perm|]. split.
  - unfold list_sort.
    apply (StronglySorted_rev (R := key_le key)).
    apply sort_ascending_sorted. now apply numeric_rev.
  - intros k. unfold list_sort, sort_ascending.
    rewrite filter_rev, sort_ascending_acc_stable;
      [|now apply numeric_rev|constructor|constructor].
    simpl. rewrite filter_rev. apply rev_involutive.
Qed.

End SortFacts.

(** ** Retrieval *)

Lemma searches_app (w1 w2 : World) :
  searches (w1 ++ w2) = searches w1 ++ searches w2.
Proof.
  induction w1 as [|e w1 IH]; [reflexivity|].
  destruct e; simpl; now rewrite IH.
Qed.

(** The space-joined topics are empty exactly for no topic or for one
    empty topic. *)
Lemma join_space_empty (topics : list str) :
  join (lit " ") topics = [] <-> topics = [] \/ topics = [[]].
Proof.
  split.
  - destruct topics as [|t [|u topics]]; simpl; intros H.
    + now left.
    + right. now subst.
    + apply app_eq_nil in H as [_ H]. discriminate.
  - intros [->| ->]; reflexivity.
Qed.

Section Retrieval.
Context {lib : PyLib} {svc : Services}.

Lemma retrieve_no_topics (ctx : user_context) (top_k : Z) (w : World) :
  join (lit " ") (get (uc_current_topics ctx) []) = [] ->
  retrieve_relevant_content ctx top_k w = (Ok [], w).
Proof.
  intros H. unfold retrieve_relevant_content. now rewrite H.
Qed.

Lemma retrieve_run (ctx : user_context) (top_k : Z) (w : World) :
  let q := generate_embedding
             (join (lit " ") (get (uc_current_topics ctx) [])) in
  let primary := search_request q top_k 0.25 in
  let relaxed := search_request q top_k 0.15 in
  join (lit " ") (get (uc_current_topics ctx) []) <> [] ->
  retrieve_relevant_content ctx top_k w
  = match match_learning_content w primary with
    | Ok [] =>
        (match_learning_content (w ++ [EvSearch primary]) relaxed,
         w ++ [EvSearch primary; EvSearch relaxed])
    | Ok (c :: cs) => (Ok (c :: cs), w ++ [EvSearch primary])
    | Raise e => (Raise e, w ++ [EvSearch primary])
    end.
Proof.
  intros q primary relaxed Hq.
  unfold retrieve_relevant_content.
  destruct (join (lit " ") (get (uc_current_topics ctx) [])) eqn:E;
    [congruence|].
  cbn [is_empty].
  unfold bind, search_content_by_embedding.
  fold q. fold primary.
  change (search_request q top_k PRIMARY_THRESHOLD) with primary.
  change (search_request q top_k RELAXED_THRESHOLD) with relaxed.
  destruct (match_learning_content w primary) as [[|c0 cs]|e];
    cbn; try reflexivity.
  now rewrite <- app_assoc.
Qed.

End Retrieval.

(** C2. With a query to send, the retriever first calls the store with
    the embedding of the topics joined by spaces, threshold 0.25 and
    the requested limit.  It calls it once more, with the same
    embedding, threshold 0.15 and the same limit, exactly when the first
    search returned no candidate, and the answer of that second search
    is its result; it issues no other search. *)
Theorem retrieve_threshold_fallback {lib : PyLib} {svc : Services}
  (ctx : user_context) (top_k : Z) (w : World) :
  let q := encode (join (lit " ") (get (uc_current_topics ctx) [])) in
  let primary :=
    {| sc_query_embedding := q;
       sc_match_threshold := 0.25;
       sc_match_count := top_k |} in
  let relaxed :=
    {| sc_query_embedding := q;
       sc_match_threshold := 0.15;
       sc_match_count := top_k |} in
  let run := retrieve_relevant_content ctx top_k w in
  join (lit " ") (get (uc_current_topics ctx) []) <> [] ->
  (snd run = w ++ [EvSearch primary]
   \/ snd run = w ++ [EvSearch primary; EvSearch relaxed])
  /\ (snd run = w ++ [EvSearch primary; EvSearch relaxed]
      <-> match_learning_content w primary = Ok [])
  /\ (match_learning_content w primary = Ok [] ->
      fst run = match_learning_content (w ++ [EvSearch primary]) relaxed)
  /\ (forall c cs,
         match_learning_content w primary = Ok (c :: cs) ->
         fst run = Ok (c :: cs))
  /\ (forall e,
         match_learning_content w primary = Raise e -> fst run = Raise e).
Proof.
  intros q primary relaxed run Hq.
  pose proof (retrieve_run ctx top_k w Hq) as Hrun.
  cbv zeta in Hrun.
  change (generate_embedding
            (join (lit " ") (get (uc_current_topics ctx) [])))
    with q in Hrun.
  change (search_request q top_k 0.25) with primary in Hrun.
  change (search_request q top_k 0.15) with relaxed in Hrun.
  fold run in Hrun.
  assert (Hne : w ++ [EvSearch primary]
                <> w ++ [EvSearch primary; EvSearch relaxed]).
  { intros H. apply app_inv_head in H. discriminate. }
  destruct (match_learning_content w primary) as [[|c cs]|e];
    rewrite Hrun; cbn [fst snd].
  - split; [now right|]. split; [tauto|].
    split; [reflexivity|]. split; intros; discriminate.
  - split; [now left|]. split.
    + split; [intros H; now apply Hne in H|discriminate].
    + split; [discriminate|]. split; [|discriminate].
      intros c' cs' H. now inversion H.
  - split; [now left|]. split.
    + split; [intros H; now apply Hne in H|discriminate].
    + split; [discriminate|]. split; [discriminate|].
      intros e' H. now inversion H.
Qed.

Lemma retrieve_threshold_fallback_witness :
  let svc := Demo.services [] [Demo.doc_utc] Demo.TOPICS in
  let q := encode (lit "transformers attention") in
  retrieve_relevant_content (svc := svc)
    (Demo.context Demo.TOPICS) 14 []
  = (Ok [Demo.doc_utc],
     [EvSearch {| sc_query_embedding := q;
                  sc_match_threshold := 0.25;
                  sc_match_count := 14 |};
      EvSearch {| sc_query_embedding := q;
                  sc_match_threshold := 0.15;
                  sc_match_count := 14 |}]).
Proof.
  intros svc q.
  pose proof (@retrieve_threshold_fallback Demo.lib svc
                (Demo.context Demo.TOPICS) 14 []) as H.
  cbv zeta in H.
  destruct H as (_ & Htrace & Hres & _); [discriminate|].
  apply injective_projections.
  - rewrite Hres; reflexivity.
  - apply (proj2 Htrace). reflexivity.
Defined.

(** ** The digest when nothing is retrieved *)

Section Digest.
Context {lib : PyLib} {svc : Services}.

Lemma get_user_progress_run (w : World) (rows : list user_progress) :
  select_user_progress w = Ok rows ->
  get_user_progress w = (Ok (hd_error rows), w ++ [EvSelectProgress]).
Proof. intros H. unfold get_user_progress. now rewrite H. Qed.

Lemma digest_without_candidates (n : Z) (w w2 : World)
  (p : user_progress) (rest : list user_progress) :
  select_user_progress w = Ok (p :: rest) ->
  retrieve_relevant_content (context_of_progress p) (n * 2)
    (w ++ [EvSelectProgress]) = (Ok [], w2) ->
  generate_daily_digest n w
  = (Ok (no_content_digest (isoformat (clock w2))), w2).
Proof.
  intros Hp Hr. unfold generate_daily_digest.
  erewrite bind_Ok by (apply get_user_progress_run; exact Hp).
  cbn [hd_error].
  erewrite bind_Ok by exact Hr.
  reflexivity.
Qed.

Lemma tool_reply_of_digest (n : Z) (w w' : World) (d : digest) :
  generate_daily_digest n w = (Ok d, w') ->
  Server.generate_daily_digest n w = (Server.Success d, w').
Proof. intros H. unfold Server.generate_daily_digest. now rewrite H. Qed.

End Digest.

(** C7. With an empty space-joined topic string, retrieval returns the
    empty sequence and makes no call; the digest built for a learner with
    such topics is the no-content digest, whose insight list is empty,
    returned (and reported by the tool as a success) after reading the
    progress only: the trace gains no search. *)
Theorem empty_topics_short_circuit {lib : PyLib} {svc : Services} :
  (forall (ctx : user_context) (top_k : Z) (w : World),
      join (lit " ") (get (uc_current_topics ctx) []) = [] ->
      retrieve_relevant_content ctx top_k w = (Ok [], w))
  /\ (forall (n : Z) (w : World) (p : user_progress)
             (rest : list user_progress),
         select_user_progress w = Ok (p :: rest) ->
         join (lit " ") (up_current_topics p) = [] ->
         let w1 := w ++ [EvSelectProgress] in
         let d := no_content_digest (isoformat (clock w1)) in
         generate_daily_digest n w = (Ok d, w1)
         /\ Server.generate_daily_digest n w = (Server.Success d, w1)
         /\ dg_insights d = []
         /\ searches w1 = searches w).
Proof.
  split; [apply @retrieve_no_topics|].
  intros n w p rest Hp Hq w1 d.
  assert (Hd : generate_daily_digest n w = (Ok d, w1)).
  { apply digest_without_candidates with (p := p) (rest := rest);
      [assumption|].
    now apply retrieve_no_topics. }
  split; [exact Hd|]. split; [now apply tool_reply_of_digest|].
  split; [reflexivity|].
  unfold w1. rewrite searches_app. simpl. apply app_nil_r.
Qed.

Lemma empty_topics_short_circuit_witness :
  let svc := Demo.services [Demo.doc_recent] [] [] in
  retrieve_relevant_content (svc := svc)
    (Demo.context [[]]) 14 [] = (Ok [], [])
  /\ Server.generate_daily_digest (lib := Demo.lib) (svc := svc) 7 []
     = (Server.Success (no_content_digest (lit "<now>")),
        [EvSelectProgress]).
Proof.
  intros svc. split.
  - apply (proj1 (@empty_topics_short_circuit Demo.lib svc)). reflexivity.
  - apply (proj2 (@empty_topics_short_circuit Demo.lib svc) 7%Z []
             (Demo.learner []) [] eq_refl eq_refl).
Defined.



(** ** Insight generation *)

Lemma slice_to_length {A} (l : list A) (n : Z) :
  (0 <= n)%Z -> (Z.of_nat (List.length (slice_to l n)) <= n)%Z.
Proof.
  intros Hn. unfold slice_to.
  destruct (Z.leb_spec 0 n); [|lia].
  pose proof (firstn_le_length (Z.to_nat n) l). lia.
Qed.

Lemma slice_to_nil {A} (n : Z) : slice_to (@nil A) n = [].
Proof.
  unfold slice_to. destruct (0 <=? n)%Z; apply firstn_nil.
Qed.

Lemma slice_to_prefix {A} (l : list A) (n : Z) :
  exists rest, l = slice_to l n ++ rest.
Proof.
  unfold slice_to. destruct (0 <=? n)%Z.
  - exists (skipn (Z.to_nat n) l). now rewrite firstn_skipn.
  - exists (skipn (List.length l - Z.to_nat (- n)) l).
    now rewrite firstn_skipn.
Qed.

Lemma f_add_Fin_not_nan (a : pyfloat) (q : Q) :
  is_nan a = false -> is_nan (f_add a (Fin q)) = false.
Proof.
  destruct a; intros H; try discriminate H; cbn [f_add];
    [apply b64_not_nan|reflexivity|reflexivity].
Qed.

Lemma py_round_not_nan (a : pyfloat) (ndigits : nat) :
  is_nan a = false -> is_nan (py_round a ndigits) = false.
Proof.
  destruct a; intros H; try discriminate H; cbn [py_round];
    [apply b64_not_nan|reflexivity|reflexivity].
Qed.

Lemma f_mul_weight_not_nan (c : Q) (s : pyfloat) :
  (0 < value c)%Q -> s <> NaN -> is_nan (f_mul (Fin c) s) = false.
Proof.
  intros Hc Hs. apply Qgt_alt in Hc.
  destruct s; cbn [f_mul]; [apply b64_not_nan| | |congruence];
    unfold scale_inf; rewrite Hc; reflexivity.
Qed.

Lemma weighted_round_not_nan (s t f : pyfloat) (ndigits : nat) :
  s <> NaN -> in_unit t -> in_unit f ->
  is_nan (py_round (weighted_combination s t f) ndigits) = false.
Proof.
  intros Hs Ht Hf. unfold weighted_combination.
  pose proof (@f_mul_within 0.4 0 1 t ltac:(Qle_compute) Ht
                ltac:(Qle_compute) ltac:(Qle_compute)) as Wt.
  pose proof (@f_mul_within 0.2 0 1 f ltac:(Qle_compute) Hf
                ltac:(Qle_compute) ltac:(Qle_compute)) as Wf.
  destruct (f_mul (Fin 0.4) t) as [p| | |]; try contradiction.
  destruct (f_mul (Fin 0.2) f) as [q| | |]; try contradiction.
  apply py_round_not_nan, f_add_Fin_not_nan, f_add_Fin_not_nan.
  apply f_mul_weight_not_nan; [|exact Hs].
  apply Qlt_bool_iff. vm_compute. reflexivity.
Qed.

Section Insights.
Context {lib : PyLib} {svc : Services}.

Lemma insight_of_item_inv (it : item) (ctx : user_context)
  (w w' : World) (ins : insight) :
  insight_of_item it ctx w = (Ok ins, w') ->
  in_content_id ins = it_id it
  /\ in_similarity_score ins = get (it_similarity it) (Fin 0.0)
  /\ exists topic fresh,
      in_unit topic /\ in_unit fresh
      /\ in_relevance_score ins
         = py_round
             (weighted_combination (get (it_similarity it) (Fin 0.5))
                topic fresh) 3.
Proof.
  unfold insight_of_item. intros H.
  apply bind_Ok_inv in H as (content & w1 & _ & H).
  apply bind_Ok_inv in H as (text & w2 & _ & H).
  apply bind_Ok_inv in H as (r & w3 & Hr & H).
  inversion H; subst; clear H. cbn.
  destruct (calculate_relevance_score_inv _ _ _ Hr)
    as (c & topic & fresh & _ & _ & _ & Ht & Hf & Heq).
  split; [reflexivity|]. split; [reflexivity|].
  now exists topic, fresh.
Qed.

Lemma generate_insight_run (content : str) (ctx : user_context)
  (w : World) :
  let request :=
    insight_request (get (uc_current_week ctx) 1%Z)
      (get (uc_current_topics ctx) []) (get (uc_learning_goals ctx) [])
      content in
  generate_insight content ctx w
  = (match chat_completions_create w request with
     | Raise e => Raise e
     | Ok None => Raise NO_STRIP
     | Ok (Some raw) => Ok (_extract_final_output (strip raw))
     end,
     w ++ [EvChat request]).
Proof.
  intros request. unfold generate_insight, bind, chat. fold request.
  destruct (chat_completions_create w request) as [[raw|]|e];
    reflexivity.
Qed.

Lemma collect_insights_cons (it : item) (rest : list item)
  (ctx : user_context) (acc : list insight) (w : World) :
  collect_insights (it :: rest) ctx acc w
  = match insight_of_item it ctx w with
    | (Ok ins, w1) => collect_insights rest ctx (acc ++ [ins]) w1
    | (Raise _, w1) => collect_insights rest ctx acc w1
    end.
Proof.
  cbn [collect_insights]. unfold bind at 1, try_except, bind at 1.
  destruct (insight_of_item it ctx w) as [[ins|e] w1]; reflexivity.
Qed.

(** The loop always ends normally; what it adds are the insights of
    the items that did not raise, in the order of the items. *)
Lemma collect_insights_total (items : list item) (ctx : user_context) :
  forall (acc : list insight) (w : World),
  exists new w',
    collect_insights items ctx acc w = (Ok (acc ++ new), w')
    /\ (List.length new <= List.length items)%nat
    /\ subsequence (List.map in_content_id new) (List.map it_id items)
    /\ Forall
         (fun ins =>
            exists it w1 w2,
              In it items /\ insight_of_item it ctx w1 = (Ok ins, w2))
         new.
Proof.
  induction items as [|it rest IH]; intros acc w.
  - exists [], w. rewrite app_nil_r.
    repeat split; [apply Nat.le_refl|constructor|constructor].
  - rewrite collect_insights_cons.
    destruct (insight_of_item it ctx w) as [[ins|e] w1] eqn:E.
    + destruct (IH (acc ++ [ins]) w1) as (new & w' & Hrun & Hlen & Hsub & Hall).
      exists (ins :: new), w'. rewrite Hrun, <- app_assoc.
      split; [reflexivity|]. split; [simpl; lia|]. split.
      * simpl. destruct (insight_of_item_inv _ _ _ E) as (-> & _).
        now constructor.
      * constructor.
        -- exists it, w, w1. split; [now left|assumption].
        -- eapply Forall_impl; [|exact Hall].
           intros a (it' & wa & wb & Hin & Ha).
           exists it', wa, wb. split; [now right|assumption].
    + destruct (IH acc w1) as (new & w' & Hrun & Hlen & Hsub & Hall).
      exists new, w'.
      split; [assumption|]. split; [simpl; lia|]. split.
      * simpl. now constructor.
      * eapply Forall_impl; [|exact Hall].
        intros a (it' & wa & wb & Hin & Ha).
        exists it', wa, wb. split; [now right|assumption].
Qed.

Lemma collect_insights_keeps (pre post : list item) (it : item)
  (ctx : user_context) (ins : insight) :
  forall (acc : list insight) (w w1 : World),
    insight_of_item it ctx (snd (collect_insights pre ctx acc w))
    = (Ok ins, w1) ->
    exists l, fst (collect_insights (pre ++ it :: post) ctx acc w) = Ok l
              /\ In ins l.
Proof.
  induction pre as [|p pre IH]; intros acc w w1 H.
  - cbn in H. simpl app. rewrite collect_insights_cons, H.
    destruct (collect_insights_total post ctx (acc ++ [ins]) w1)
      as (new & w' & Hrun & _).
    rewrite Hrun. eexists. split; [reflexivity|].
    apply in_or_app. left. apply in_or_app. right. now left.
  - simpl app. rewrite collect_insights_cons in *.
    destruct (insight_of_item p ctx w) as [[i0|e] w0]; eapply IH; exact H.
Qed.

Lemma collect_insights_all_fail (items : list item) (ctx : user_context) :
  (forall it w, In it items ->
                exists e w1, insight_of_item it ctx w = (Raise e, w1)) ->
  forall (acc : list insight) (w : World),
    fst (collect_insights items ctx acc w) = Ok acc.
Proof.
  induction items as [|it rest IH]; intros Hfail acc w; [reflexivity|].
  rewrite collect_insights_cons.
  destruct (Hfail it w (or_introl eq_refl)) as (e & w1 & ->).
  apply IH. intros. apply Hfail. now right.
Qed.

Lemma generate_insights_run (items : list item) (ctx : user_context)
  (n : Z) (w : World) :
  exists collected w',
    collect_insights (slice_to items n) ctx [] w = (Ok collected, w')
    /\ generate_insights_from_content items ctx n w
       = (Ok (list_sort in_relevance_score true collected), w')
    /\ (List.length collected <= List.length (slice_to items n))%nat
    /\ subsequence (List.map in_content_id collected)
         (List.map it_id (slice_to items n))
    /\ Forall
         (fun ins =>
            exists it w1 w2,
              In it (slice_to items n)
              /\ insight_of_item it ctx w1 = (Ok ins, w2))
         collected.
Proof.
  destruct (collect_insights_total (slice_to items n) ctx [] w)
    as (new & w' & Hrun & Hlen & Hsub & Hall).
  simpl in Hrun.
  exists new, w'. split; [assumption|]. split; [|auto].
  unfold generate_insights_from_content.
  erewrite bind_Ok by exact Hrun. reflexivity.
Qed.

(** Every way the digest can be returned. *)
Lemma generate_daily_digest_inv (n : Z) (w w' : World) (d : digest) :
  generate_daily_digest n w = (Ok d, w') ->
  exists p relevant w1,
    retrieve_relevant_content (context_of_progress p) (n * 2)
      (w ++ [EvSelectProgress]) = (Ok relevant, w1)
    /\ ((relevant = [] /\ dg_insights d = [])
        \/ (relevant <> []
            /\ exists w2,
                generate_insights_from_content relevant
                  (context_of_progress p) n w1
                = (Ok (dg_insights d), w2))).
Proof.
  unfold generate_daily_digest. intros H.
  apply bind_Ok_inv in H as ([p|] & w0 & Hp & H); [|discriminate].
  assert (w0 = w ++ [EvSelectProgress]) as ->.
  { unfold get_user_progress in Hp.
    destruct (select_user_progress w); now inversion Hp. }
  apply bind_Ok_inv in H as (relevant & w1 & Hr & H).
  exists p, relevant, w1. split; [assumption|].
  destruct relevant as [|c cs]; cbn [is_nil] in H.
  - left. split; [reflexivity|].
    apply bind_Ok_inv in H as (now & w2 & _ & H).
    now inversion H.
  - right. split; [discriminate|].
    apply bind_Ok_inv in H as (insights & w2 & Hi & H).
    apply bind_Ok_inv in H as (u & w3 & _ & H).
    apply bind_Ok_inv in H as (summary & w4 & _ & H).
    apply bind_Ok_inv in H as (now & w5 & _ & H).
    inversion H; subst; clear H. cbn. now exists w2.
Qed.

(** The loop adds nothing exactly when every item raises where the
    loop reaches it. *)
Lemma collect_insights_nothing (items : list item) (ctx : user_context) :
  forall (acc : list insight) (w : World),
    fst (collect_insights items ctx acc w) = Ok acc
    <-> (forall pre it post,
            items = pre ++ it :: post ->
            exists e w2,
              insight_of_item it ctx
                (snd (collect_insights pre ctx acc w)) = (Raise e, w2)).
Proof.
  induction items as [|it rest IH]; intros acc w.
  - split; [|reflexivity].
    intros _ [|? ?] ? ? H; discriminate H.
  - rewrite collect_insights_cons.
    destruct (insight_of_item it ctx w) as [[ins|e] w1] eqn:E.
    + split.
      * intros H.
        destruct (collect_insights_total rest ctx (acc ++ [ins]) w1)
          as (new & w' & Hrun & _).
        rewrite Hrun in H. cbn [fst] in H. exfalso.
        assert (Hl : List.length ((acc ++ [ins]) ++ new)
                     = List.length acc) by congruence.
        rewrite !length_app in Hl. simpl in Hl. lia.
      * intros H. destruct (H [] it rest eq_refl) as (e & w2 & He).
        cbn in He. congruence.
    + rewrite IH. split.
      * intros H [|x pre] it' post Heq.
        -- inversion Heq; subst. cbn. now exists e, w1.
        -- inversion Heq; subst. rewrite collect_insights_cons, E.
           now apply H with (post := post).
      * intros H pre it' post ->.
        specialize (H (it :: pre) it' post eq_refl).
        now rewrite collect_insights_cons, E in H.
Qed.

(** Every way the digest can be returned, with the progress row it was
    built for. *)
Lemma generate_daily_digest_inv_progress (n : Z) (w w' : World)
  (d : digest) :
  generate_daily_digest n w = (Ok d, w') ->
  exists p rows relevant w1,
    select_user_progress w = Ok (p :: rows)
    /\ retrieve_relevant_content (context_of_progress p) (n * 2)
         (w ++ [EvSelectProgress]) = (Ok relevant, w1)
    /\ ((relevant = [] /\ dg_insights d = [])
        \/ (relevant <> []
            /\ exists w2,
                generate_insights_from_content relevant
                  (context_of_progress p) n w1
                = (Ok (dg_insights d), w2))).
Proof.
  intros H.
  destruct (generate_daily_digest_inv _ _ H)
    as (p & relevant & w1 & Hr & Hcase).
  unfold generate_daily_digest in H.
  apply bind_Ok_inv in H as ([p'|] & w0 & Hp & H); [|discriminate].
  unfold get_user_progress in Hp.
  destruct (select_user_progress w) as [[|p0 rows]|e0] eqn:Es;
    inversion Hp; subst; clear Hp.
  apply bind_Ok_inv in H as (relevant' & w1' & Hr' & H).
  exists p', rows, relevant', w1'.
  split; [reflexivity|]. split; [assumption|].
  destruct relevant' as [|c cs]; cbn [is_nil] in H.
  - left. split; [reflexivity|].
    apply bind_Ok_inv in H as (now & w2 & _ & H).
    now inversion H.
  - right. split; [discriminate|].
    apply bind_Ok_inv in H as (insights & w2 & Hi & H).
    apply bind_Ok_inv in H as (u & w3 & _ & H).
    apply bind_Ok_inv in H as (summary & w4 & _ & H).
    apply bind_Ok_inv in H as (now & w5 & _ & H).
    inversion H; subst; clear H. cbn. now exists w2.
Qed.

End Insights.

(** ** The number of insights *)

(** Runs a closed computation and gives its value and final trace. *)
Ltac exists_run :=
  match goal with
  | |- exists a w, ?run = (Ok a, w) /\ _ =>
      let v := eval vm_compute in run in
      match v with
      | (Ok ?a0, ?w0) =>
          exists a0, w0; split; [vm_compute; reflexivity|]
      end
  end.

(** C3, as the code has it.  A returned digest was built for the stored
    progress row from the candidates the retrieval gave.  For a
    non-negative target count it never holds more insights than the
    target, and never more than the candidates it was to process.  It
    holds none when nothing was retrieved; and it holds none exactly
    when each of the first [n] candidates raises, in insight generation
    or in scoring, where the loop of this build reaches it. *)
Theorem insight_count_bounded {lib : PyLib} {svc : Services}
  (n : Z) (w w' : World) (d : digest) :
  generate_daily_digest n w = (Ok d, w') ->
  exists p rows relevant w1,
    select_user_progress w = Ok (p :: rows)
    /\ retrieve_relevant_content (context_of_progress p) (n * 2)
         (w ++ [EvSelectProgress]) = (Ok relevant, w1)
    /\ ((0 <= n)%Z -> (Z.of_nat (List.length (dg_insights d)) <= n)%Z)
    /\ (List.length (dg_insights d)
        <= List.length (slice_to relevant n))%nat
    /\ (relevant = [] -> dg_insights d = [])
    /\ (dg_insights d = []
        <-> forall pre it post,
              slice_to relevant n = pre ++ it :: post ->
              exists e w2,
                insight_of_item it (context_of_progress p)
                  (snd (collect_insights pre (context_of_progress p) []
                          w1))
                = (Raise e, w2)).
Proof.
  intros Hd.
  destruct (generate_daily_digest_inv_progress _ _ Hd)
    as (p & rows & relevant & w1 & Hp & Hr & Hcase).
  exists p, rows, relevant, w1.
  split; [exact Hp|]. split; [exact Hr|].
  destruct Hcase as [[-> Hnil]|[Hne (w2 & Hi)]].
  - rewrite Hnil, slice_to_nil. cbn [List.length].
    split; [lia|]. split; [lia|]. split; [reflexivity|].
    split; [|reflexivity].
    intros _ [|? ?] ? ? H; discriminate H.
  - destruct (generate_insights_run relevant (context_of_progress p) n w1)
      as (collected & w3 & Hc & Hg & Hlen & _).
    rewrite Hi in Hg.
    assert (Hds : dg_insights d
                  = list_sort in_relevance_score true collected)
      by congruence.
    assert (w3 = w2) as -> by congruence.
    pose proof (list_sort_perm in_relevance_score true collected) as Hperm.
    pose proof (Permutation_length Hperm) as Hl.
    rewrite Hds.
    split.
    { intros Hn. pose proof (slice_to_length relevant Hn). lia. }
    split; [lia|]. split; [contradiction|].
    rewrite <- (collect_insights_nothing (slice_to relevant n)
                  (context_of_progress p) [] w1).
    rewrite Hc. cbn [fst]. split.
    + intros Hnil. rewrite Hnil in Hperm.
      apply Permutation_sym, Permutation_nil in Hperm. now subst.
    + intros H. inversion H; subst. reflexivity.
Qed.

Lemma insight_count_bounded_witness :
  exists d w',
    generate_daily_digest (lib := Demo.lib)
      (svc := Demo.services
                [Demo.doc_recent; Demo.doc_unscored; Demo.doc_utc] []
                Demo.TOPICS) 2 [] = (Ok d, w')
    /\ (Z.of_nat (List.length (dg_insights d)) <= 2)%Z
    /\ List.length (dg_insights d) = 2%nat.
Proof.
  exists_run.
  split; [|vm_compute; reflexivity].
  match goal with
  | |- (Z.of_nat (List.length (dg_insights ?d)) <= 2)%Z =>
      destruct (@insight_count_bounded Demo.lib
                  (Demo.services
                     [Demo.doc_recent; Demo.doc_unscored; Demo.doc_utc] []
                     Demo.TOPICS) 2%Z [] _ d
                  ltac:(vm_compute; reflexivity))
        as (_ & _ & _ & _ & _ & _ & Hle & _)
  end.
  apply Hle. discriminate.
Defined.

(** C3, as stated, fails: the store returns one candidate, the
    generation call for it raises, the candidate is skipped and the
    digest has no insight although retrieval was not empty. *)
Lemma empty_digest_despite_candidates :
  let svc := Demo.services [Demo.doc_failing] [] Demo.TOPICS in
  ~ (forall d w' retrieved w1,
        generate_daily_digest (lib := Demo.lib) (svc := svc) 1 []
        = (Ok d, w') ->
        retrieve_relevant_content (svc := svc)
          (context_of_progress (Demo.learner Demo.TOPICS)) (1 * 2)
          [EvSelectProgress] = (Ok retrieved, w1) ->
        dg_insights d = [] -> retrieved = []).
Proof.
  intros svc H.
  specialize (H _ _ _ _ eq_refl eq_refl eq_refl).
  discriminate H.
Qed.

(** A negative target count is cut from the end of the candidates: with
    three candidates and a target of -1 the digest has two insights. *)
Example negative_target_count :
  match
    fst (generate_daily_digest (lib := Demo.lib)
           (svc := Demo.services
                     [Demo.doc_recent; Demo.doc_unscored; Demo.doc_utc] []
                     Demo.TOPICS) (-1) [])
  with
  | Ok d => List.length (dg_insights d) = 2%nat
  | Raise _ => False
  end.
Proof. vm_compute. reflexivity. Qed.

(** ** The order of the insights *)

Section Order.
Context {lib : PyLib} {svc : Services}.

Lemma retrieve_result_origin (ctx : user_context) (top_k : Z)
  (w w' : World) (l : list item) :
  retrieve_relevant_content ctx top_k w = (Ok l, w') ->
  l = [] \/ exists w0 c, match_learning_content w0 c = Ok l.
Proof.
  destruct (join (lit " ") (get (uc_current_topics ctx) [])) eqn:E.
  - rewrite retrieve_no_topics by assumption.
    intros H. inversion H. now left.
  - rewrite retrieve_run by (rewrite E; discriminate).
    rewrite E.
    match goal with
    | |- context [match_learning_content w ?c] =>
        destruct (match_learning_content w c) as [[|x xs]|e] eqn:E1
    end; intros H; inversion H; subst.
    + right. eauto.
    + right. eauto.
Qed.

Lemma collected_scores_numeric (items : list item) (ctx : user_context)
  (collected : list insight) :
  Forall (fun it => it_similarity it <> Some NaN) items ->
  Forall
    (fun ins =>
       exists it w1 w2,
         In it items /\ insight_of_item it ctx w1 = (Ok ins, w2))
    collected ->
  Forall (fun ins => is_nan (in_relevance_score ins) = false) collected.
Proof.
  intros Hitems. apply Forall_impl.
  intros ins (it & w1 & w2 & Hin & Hrun).
  destruct (insight_of_item_inv _ _ _ Hrun)
    as (_ & _ & topic & fresh & Ht & Hf & ->).
  apply weighted_round_not_nan; try assumption.
  pose proof (proj1 (Forall_forall _ _) Hitems it Hin) as Hs.
  cbv beta in Hs. unfold get.
  destruct (it_similarity it) as [s|]; congruence.
Qed.

Lemma Forall_slice_to {A} (P : A -> Prop) (l : list A) (n : Z) :
  Forall P l -> Forall P (slice_to l n).
Proof.
  destruct (slice_to_prefix l n) as (rest & Hl).
  intros H. rewrite Hl in H. now apply Forall_app in H.
Qed.

End Order.

(** C8. When no candidate carries a NaN similarity, the insights
    returned are the collected ones (kept in retrieval order) sorted by
    relevance score in descending order, and the insights of equal score
    are in the order in which they were collected.  The insight list of
    every digest is sorted so, when the store returns no NaN
    similarity. *)
Theorem insights_sorted_stable {lib : PyLib} {svc : Services} :
  (forall (items : list item) (ctx : user_context) (n : Z) (w : World),
      Forall (fun it => it_similarity it <> Some NaN) items ->
      exists collected insights w',
        collect_insights (slice_to items n) ctx [] w = (Ok collected, w')
        /\ subsequence (List.map in_content_id collected)
             (List.map it_id (slice_to items n))
        /\ generate_insights_from_content items ctx n w
           = (Ok insights, w')
        /\ Permutation collected insights
        /\ sorted_descending insights
        /\ forall k,
            filter (fun i => f_eq (in_relevance_score i) k) insights
            = filter (fun i => f_eq (in_relevance_score i) k) collected)
  /\ (forall (n : Z) (w w' : World) (d : digest),
         (forall w0 c l,
             match_learning_content w0 c = Ok l ->
             Forall (fun it => it_similarity it <> Some NaN) l) ->
         generate_daily_digest n w = (Ok d, w') ->
         sorted_descending (dg_insights d)).
Proof.
  assert (Hstep :
    forall (items : list item) (ctx : user_context) (n : Z) (w : World),
      Forall (fun it => it_similarity it <> Some NaN) items ->
      exists collected insights w',
        collect_insights (slice_to items n) ctx [] w = (Ok collected, w')
        /\ subsequence (List.map in_content_id collected)
             (List.map it_id (slice_to items n))
        /\ generate_insights_from_content items ctx n w
           = (Ok insights, w')
        /\ Permutation collected insights
        /\ sorted_descending insights
        /\ forall k,
            filter (fun i => f_eq (in_relevance_score i) k) insights
            = filter (fun i => f_eq (in_relevance_score i) k) collected).
  { intros items ctx n w Hitems.
    destruct (generate_insights_run items ctx n w)
      as (collected & w' & Hc & Hg & _ & Hsub & Hall).
    assert (Hnum : Forall
                     (fun ins => is_nan (in_relevance_score ins) = false)
                     collected).
    { eapply collected_scores_numeric; [|exact Hall].
      now apply Forall_slice_to. }
    destruct (@list_sort_reverse_spec _ in_relevance_score collected Hnum)
      as (Hperm & Hsorted & Hstable).
    exists collected, (list_sort in_relevance_score true collected), w'.
    repeat split; assumption. }
  split; [exact Hstep|].
  intros n w w' d Hstore Hd.
  destruct (generate_daily_digest_inv _ _ Hd)
    as (p & relevant & w1 & Hr & [[_ ->]|[Hne (w2 & Hi)]]).
  - constructor.
  - destruct (retrieve_result_origin _ _ _ Hr) as [->|(w0 & c & Hc)];
      [congruence|].
    destruct (Hstep relevant (context_of_progress p) n w1
                (Hstore _ _ _ Hc))
      as (collected & insights & w3 & _ & _ & Hg & _ & Hs & _).
    rewrite Hi in Hg. inversion Hg; subst. exact Hs.
Qed.

Lemma insights_sorted_stable_witness :
  exists collected insights w',
    collect_insights (lib := Demo.lib)
      (svc := Demo.services [] [] Demo.TOPICS)
      [Demo.doc_utc; Demo.doc_recent; Demo.doc_failing; Demo.doc_unscored]
      (Demo.context Demo.TOPICS) [] [] = (Ok collected, w')
    /\ generate_insights_from_content (lib := Demo.lib)
         (svc := Demo.services [] [] Demo.TOPICS)
         [Demo.doc_utc; Demo.doc_recent; Demo.doc_failing;
          Demo.doc_unscored]
         (Demo.context Demo.TOPICS) 7 [] = (Ok insights, w')
    /\ List.map in_content_id collected
       = [Some 2%Z; Some 1%Z; Some 3%Z]
    /\ List.map in_content_id insights
       = [Some 1%Z; Some 3%Z; Some 2%Z]
    /\ sorted_descending insights.
Proof.
  destruct (proj1 (@insights_sorted_stable Demo.lib
                     (Demo.services [] [] Demo.TOPICS))
              [Demo.doc_utc; Demo.doc_recent; Demo.doc_failing;
               Demo.doc_unscored]
              (Demo.context Demo.TOPICS) 7%Z [])
    as (collected & insights & w' & Hc & _ & Hg & _ & Hs & _).
  { repeat constructor; discriminate. }
  exists collected, insights, w'.
  change (slice_to
            [Demo.doc_utc; Demo.doc_recent; Demo.doc_failing;
             Demo.doc_unscored] 7)
    with [Demo.doc_utc; Demo.doc_recent; Demo.doc_failing;
          Demo.doc_unscored] in Hc.
  split; [exact Hc|]. split; [exact Hg|].
  vm_compute in Hc. vm_compute in Hg.
  inversion Hc; subst collected. inversion Hg; subst insights.
  split; [reflexivity|]. split; [reflexivity|]. exact Hs.
Defined.

(** ** The two defaults for a missing similarity *)

(** The score computed with similarity 0.5 is above the one the same
    signals give with similarity 0.0. *)
Lemma default_similarity_raises_score (topic fresh : pyfloat) :
  in_unit topic -> in_unit fresh ->
  f_lt (py_round (weighted_combination (Fin 0.0) topic fresh) 3)
    (py_round (weighted_combination (Fin 0.5) topic fresh) 3) = true.
Proof.
  destruct topic as [t| | |], fresh as [f| | |]; try contradiction.
  cbn [in_unit]. intros Ht Hf.
  destruct (@rounded_score_spec 0.0 t f ltac:(split; lra) Ht Hf)
    as (x0 & k0 & r0 & Hx0 & E0 & Hk0 & _ & D0 & _ & Hr0 & R0).
  destruct (@rounded_score_spec 0.5 t f ltac:(split; lra) Ht Hf)
    as (x5 & k5 & r5 & Hx5 & E5 & Hk5 & _ & D5 & _ & Hr5 & R5).
  rewrite Hx0, Hx5, Hk0, Hk5, Hr0, Hr5. cbn [f_lt].
  apply Qlt_bool_iff.
  apply Qabs_Qle_condition in E0, E5, D0, D5, R0, R5.
  assert (Hq : forall q0 q5 : Q,
             (- (1 # 2000) <= q0 - x0 <= 1 # 2000)%Q ->
             (- (1 # 2000) <= q5 - x5 <= 1 # 2000)%Q ->
             (- (1 # 9007199254740992) <= r0 - q0 <= 1 # 9007199254740992)%Q ->
             (- (1 # 9007199254740992) <= r5 - q5 <= 1 # 9007199254740992)%Q ->
             (r0 < r5)%Q) by (intros; lra).
  exact (Hq _ _ D0 D5 R0 R5).
Qed.

(** C10. For a candidate that carries no similarity, the relevance
    score of its insight is the fusion of 0.5, of the topic relevance
    the rating call of this run gave and of the freshness of the
    candidate, while the insight reports a similarity of 0.0; the score
    is not the one the reported similarity would give, which is
    smaller. *)
Theorem absent_similarity_defaults_differ {lib : PyLib} {svc : Services}
  (it : item) (ctx : user_context) (w w' : World) (ins : insight) :
  it_similarity it = None ->
  insight_of_item it ctx w = (Ok ins, w') ->
  in_similarity_score ins = Fin 0.0
  /\ exists content text w1 topic fresh,
      it_content it = Some content
      /\ generate_insight content ctx w = (Ok text, w1)
      /\ score_content_relevance (firstn 500 content)
           (get (uc_current_topics ctx) []) w1 = (Ok topic, w')
      /\ _calculate_freshness (published_of it) w' = (Ok fresh, w')
      /\ in_relevance_score ins
         = py_round
             (f_add
                (f_add (f_mul (Fin 0.4) (Fin 0.5))
                   (f_mul (Fin 0.4) topic))
                (f_mul (Fin 0.2) fresh)) 3
      /\ f_lt
           (py_round
              (f_add
                 (f_add (f_mul (Fin 0.4) (in_similarity_score ins))
                    (f_mul (Fin 0.4) topic))
                 (f_mul (Fin 0.2) fresh)) 3)
           (in_relevance_score ins) = true.
Proof.
  intros Hnone Hrun. unfold insight_of_item in Hrun.
  apply bind_Ok_inv in Hrun as (content & w0 & Hc & Hrun).
  apply bind_Ok_inv in Hrun as (text & w1 & Htext & Hrun).
  apply bind_Ok_inv in Hrun as (r & w2 & Hr & Hrun).
  inversion Hrun; subst; clear Hrun. cbn.
  rewrite Hnone. cbn [get].
  destruct (it_content it) as [c|] eqn:Ec; [|discriminate Hc].
  cbn in Hc. inversion Hc; subst c w0; clear Hc.
  destruct (calculate_relevance_score_inv _ _ _ Hr)
    as (c & topic & fresh & Hc & Ht & Hf & Htu & Hfu & Heq).
  rewrite Ec in Hc. inversion Hc; subst c; clear Hc.
  rewrite Hnone in Heq. cbn [get] in Heq.
  split; [reflexivity|].
  exists content, text, w1, topic, fresh.
  split; [reflexivity|]. split; [exact Htext|]. split; [exact Ht|].
  split; [exact Hf|]. split; [exact Heq|].
  rewrite Heq. now apply default_similarity_raises_score.
Qed.

Lemma absent_similarity_defaults_differ_witness :
  exists ins w',
    insight_of_item (lib := Demo.lib)
      (svc := Demo.services [] [] Demo.TOPICS)
      Demo.doc_unscored (Demo.context Demo.TOPICS) [] = (Ok ins, w')
    /\ in_similarity_score ins = Fin 0.0
    /\ in_relevance_score ins = b64 0.62
    /\ py_round
         (weighted_combination (in_similarity_score ins) (Fin 0.8)
            (Fin 0.5)) 3 = b64 0.42.
Proof.
  exists_run.
  split; [|split; vm_compute; reflexivity].
  eapply (@absent_similarity_defaults_differ Demo.lib
            (Demo.services [] [] Demo.TOPICS) Demo.doc_unscored
            (Demo.context Demo.TOPICS) []);
    [reflexivity|vm_compute; reflexivity].
Defined.

(** * Further properties *)

(** ** Trimming and markers *)

Lemma lstrip_fixed (s : str) :
  match s with
  | [] => True
  | c :: _ => isspace c = false
  end ->
  lstrip s = s.
Proof.
  destruct s as [|c s]; [reflexivity|].
  simpl. now intros ->.
Qed.

Lemma lstrip_idempotent (s : str) : lstrip (lstrip s) = lstrip s.
Proof. apply lstrip_fixed, lstrip_head. Qed.

Lemma rstrip_prefix (t : str) :
  exists r, t = rstrip t ++ r /\ forallb isspace r = true.
Proof.
  destruct (lstrip_decompose (rev t)) as (l & Hl & Hws).
  exists (rev l). unfold rstrip. split; [|now rewrite forallb_rev].
  rewrite <- rev_app_distr, <- Hl. now rewrite rev_involutive.
Qed.

Lemma rstrip_idempotent (t : str) : rstrip (rstrip t) = rstrip t.
Proof.
  unfold rstrip. now rewrite rev_involutive, lstrip_idempotent.
Qed.

Lemma lstrip_rstrip_lstrip (s : str) :
  lstrip (rstrip (lstrip s)) = rstrip (lstrip s).
Proof.
  apply lstrip_fixed.
  destruct (rstrip_prefix (lstrip s)) as (r & Hr & _).
  pose proof (lstrip_head s) as Hh.
  destruct (rstrip (lstrip s)) as [|c u]; [exact I|].
  rewrite Hr in Hh. exact Hh.
Qed.

Lemma strip_idempotent (s : str) : strip (strip s) = strip s.
Proof.
  unfold strip. now rewrite lstrip_rstrip_lstrip, rstrip_idempotent.
Qed.

Lemma lstrip_all_space (l : str) :
  forallb isspace l = true -> lstrip l = [].
Proof.
  induction l as [|c l IH]; [reflexivity|].
  simpl. intros H. apply andb_prop in H as [-> H]. now apply IH.
Qed.

Lemma lstrip_app_space (l s : str) :
  forallb isspace l = true -> lstrip (l ++ s) = lstrip s.
Proof.
  induction l as [|c l IH]; [reflexivity|].
  simpl. intros H. apply andb_prop in H as [-> H]. now apply IH.
Qed.

Lemma rstrip_app_space (s r : str) :
  forallb isspace r = true -> rstrip (s ++ r) = rstrip s.
Proof.
  intros H. unfold rstrip.
  rewrite rev_app_distr, lstrip_app_space; [reflexivity|].
  now rewrite forallb_rev.
Qed.

Lemma lstrip_nil_all_space (s : str) :
  lstrip s = [] -> forallb isspace s = true.
Proof.
  induction s as [|c s IH]; [reflexivity|].
  simpl. destruct (isspace c); [exact IH|discriminate].
Qed.

Lemma strip_app_space (l s r : str) :
  forallb isspace l = true -> forallb isspace r = true ->
  strip (l ++ s ++ r) = strip s.
Proof.
  intros Hl Hr. unfold strip. rewrite lstrip_app_space by assumption.
  destruct (lstrip s) as [|c u] eqn:E.
  - apply lstrip_nil_all_space in E.
    rewrite lstrip_all_space; [reflexivity|].
    rewrite forallb_app. now rewrite E, Hr.
  - assert (Hs : lstrip (s ++ r) = (c :: u) ++ r).
    { clear Hl l. revert E. induction s as [|a s IH]; [discriminate|].
      simpl. destruct (isspace a) eqn:Ea.
      - exact IH.
      - intros H. inversion H; subst. reflexivity. }
    rewrite Hs. now apply rstrip_app_space.
Qed.

Lemma strip_nil_iff (s : str) :
  strip s = [] <-> forallb isspace s = true.
Proof.
  split.
  - intros H.
    destruct (strip_decompose s) as (l & r & Hs & Hl & Hr).
    rewrite H in Hs. rewrite Hs, forallb_app. simpl. now rewrite Hl, Hr.
  - intros H. unfold strip. now rewrite lstrip_all_space.
Qed.

Lemma contains_strip (sub s : str) :
  contains sub (strip s) = true -> contains sub s = true.
Proof.
  intros H.
  destruct (strip_decompose s) as (l & r & Hs & _).
  destruct (contains_inv _ _ H) as (pre & post & Hc).
  rewrite Hs, Hc.
  replace (l ++ (pre ++ sub ++ post) ++ r)
    with ((l ++ pre) ++ sub ++ (post ++ r))
    by (now rewrite <- !app_assoc).
  apply contains_intro.
Qed.

Lemma starts_with_app_space (m x r : str) :
  no_space m = true -> blank r = true ->
  starts_with m (x ++ r) = starts_with m x.
Proof.
  unfold no_space, blank. intros Hm Hr. revert x.
  induction m as [|a m IH]; intros x; [reflexivity|].
  simpl in Hm. apply andb_prop in Hm as [Ha Hm].
  destruct x as [|b x]; simpl.
  - destruct r as [|c r]; [reflexivity|].
    simpl in Hr. apply andb_prop in Hr as [Hc _].
    destruct (N.eqb_spec a c) as [->|]; [|reflexivity].
    rewrite Hc in Ha. discriminate.
  - now rewrite IH.
Qed.

Lemma contains_blank (m s : str) :
  m <> [] -> no_space m = true -> blank s = true -> contains m s = false.
Proof.
  intros Hne Hm Hs.
  destruct (contains m s) eqn:E; [|reflexivity].
  destruct (contains_inv _ _ E) as (pre & post & ->).
  unfold blank in Hs. rewrite !forallb_app in Hs.
  apply andb_prop in Hs as [_ Hs]. apply andb_prop in Hs as [Hs _].
  destruct m as [|a m]; [congruence|].
  simpl in Hm, Hs.
  apply andb_prop in Hm as [Ha _]. apply andb_prop in Hs as [Hb _].
  rewrite Hb in Ha. discriminate.
Qed.

Lemma contains_app_space_l (m l s : str) :
  m <> [] -> no_space m = true -> blank l = true ->
  contains m (l ++ s) = contains m s.
Proof.
  intros Hne Hm. induction l as [|c l IH]; intros Hl; [reflexivity|].
  simpl in Hl. apply andb_prop in Hl as [Hc Hl].
  simpl. rewrite (IH Hl).
  destruct m as [|a m]; [congruence|].
  simpl in Hm. apply andb_prop in Hm as [Ha _].
  simpl. destruct (N.eqb_spec a c) as [->|]; [|reflexivity].
  rewrite Hc in Ha. discriminate.
Qed.

Lemma contains_app_space_r (m s r : str) :
  m <> [] -> no_space m = true -> blank r = true ->
  contains m (s ++ r) = contains m s.
Proof.
  intros Hne Hm Hr. induction s as [|c s IH].
  - simpl app. rewrite contains_blank by assumption.
    destruct m; [congruence|reflexivity].
  - simpl. rewrite IH.
    change (c :: s ++ r) with ((c :: s) ++ r).
    now rewrite starts_with_app_space.
Qed.

Lemma contains_strip_eq (m s : str) :
  m <> [] -> no_space m = true -> contains m (strip s) = contains m s.
Proof.
  intros Hne Hm.
  destruct (strip_decompose s) as (l & r & Hs & Hl & Hr).
  rewrite Hs at 2.
  rewrite contains_app_space_l, contains_app_space_r by assumption.
  reflexivity.
Qed.

Lemma contains_last_part (sep s : str) :
  sep <> [] -> unbordered sep ->
  contains sep (last_part (split sep s)) = false.
Proof.
  intros Hne Hub.
  destruct (contains sep s) eqn:E.
  - destruct (@last_occurrence sep s Hne E) as (pre & post & -> & Hpost).
    now rewrite last_part_split.
  - unfold last_part, split. now rewrite split_from_absent.
Qed.

(** ** What the post-processing returns *)

Lemma extract_final_output_facts (text : str) :
  contains THINK_END (_extract_final_output text) = false
  /\ strip (_extract_final_output text) = _extract_final_output text
  /\ (_extract_final_output text = [] <-> blank text = true).
Proof.
  assert (Hne : THINK_END <> []) by discriminate.
  assert (Hns : no_space THINK_END = true) by reflexivity.
  unfold _extract_final_output.
  destruct (contains THINK_END text) eqn:Eend.
  - assert (Hnb : blank text = false).
    { destruct (blank text) eqn:B; [|reflexivity].
      rewrite contains_blank in Eend by assumption. discriminate. }
    destruct (strip (last_part (split THINK_END text))) as [|c u] eqn:Es;
      cbn [is_empty negb].
    + repeat split; try reflexivity; intros H;
        [discriminate|congruence].
    + split; [|split].
      * destruct (contains THINK_END (c :: u)) eqn:Ec; [|reflexivity].
        rewrite <- Es in Ec. apply contains_strip in Ec.
        rewrite contains_last_part in Ec
          by (assumption || apply THINK_END_unbordered).
        discriminate.
      * rewrite <- Es. apply strip_idempotent.
      * split; intros H; [discriminate|congruence].
  - destruct (contains THINK_START text) eqn:Estart.
    + assert (Hnb : blank text = false).
      { destruct (blank text) eqn:B; [|reflexivity].
        rewrite contains_blank in Estart
          by (assumption || reflexivity || discriminate).
        discriminate. }
      repeat split; try reflexivity; intros H;
        [discriminate|congruence].
    + split; [|split].
      * destruct (contains THINK_END (strip text)) eqn:Ec; [|reflexivity].
        apply contains_strip in Ec. congruence.
      * apply strip_idempotent.
      * apply strip_nil_iff.
Qed.

(** Trimming the reply before the post-processing changes nothing. *)
Lemma extract_final_output_strip (raw : str) :
  _extract_final_output (strip raw) = _extract_final_output raw.
Proof.
  assert (Hne : THINK_END <> []) by discriminate.
  assert (Hns : no_space THINK_END = true) by reflexivity.
  destruct (strip_decompose raw) as (l & r & Hraw & Hl & Hr).
  unfold _extract_final_output.
  rewrite !contains_strip_eq by (assumption || reflexivity || discriminate).
  destruct (contains THINK_END raw) eqn:Eend.
  - rewrite <- (@contains_strip_eq THINK_END raw Hne Hns) in Eend.
    destruct (@last_occurrence THINK_END (strip raw) Hne Eend) as (pre & post & Hcore & Hpost).
    assert (Hlast1 : last_part (split THINK_END (strip raw)) = post).
    { rewrite Hcore.
      now apply last_part_split; try apply THINK_END_unbordered. }
    assert (Hlast2 : last_part (split THINK_END raw) = post ++ r).
    { rewrite Hraw, Hcore.
      replace (l ++ (pre ++ THINK_END ++ post) ++ r)
        with ((l ++ pre) ++ THINK_END ++ (post ++ r))
        by (now rewrite <- !app_assoc).
      apply last_part_split; try apply THINK_END_unbordered;
        [assumption|].
      now rewrite contains_app_space_r. }
    rewrite Hlast1, Hlast2.
    replace (strip (post ++ r)) with (strip post); [reflexivity|].
    symmetry. apply (strip_app_space [] post r); [reflexivity|assumption].
  - destruct (contains THINK_START raw); [reflexivity|].
    apply strip_idempotent.
Qed.

(** X1. The text [_extract_final_output] returns never contains the end
    marker, has no whitespace at either end, and is empty exactly when
    the reply consists of whitespace only. *)
Theorem extract_final_output_clean (text : str) :
  contains THINK_END (_extract_final_output text) = false
  /\ strip (_extract_final_output text) = _extract_final_output text
  /\ (_extract_final_output text = [] <-> blank text = true).
Proof. apply extract_final_output_facts. Qed.

(** ** The generation call *)

(** X2. [generate_insight] makes one completion call and returns the
    post-processing of the reply as the service sent it: the trimming it
    does first leaves the result unchanged.  An error of the service,
    and a reply without content, are raised to the caller. *)
Theorem generate_insight_of_reply {svc : Services} (content : str)
  (ctx : user_context) (w : World) :
  let request :=
    insight_request (get (uc_current_week ctx) 1%Z)
      (get (uc_current_topics ctx) []) (get (uc_learning_goals ctx) [])
      content in
  generate_insight content ctx w
  = (match chat_completions_create w request with
     | Raise e => Raise e
     | Ok None => Raise NO_STRIP
     | Ok (Some raw) => Ok (_extract_final_output raw)
     end,
     w ++ [EvChat request]).
Proof.
  intros request. unfold request. rewrite generate_insight_run.
  destruct (chat_completions_create w _) as [[raw|]|e]; try reflexivity.
  now rewrite extract_final_output_strip.
Qed.

Lemma bind_ret_l {A B} (a : A) (k : A -> M B) (w : World) :
  bind (ret a) k w = k a w.
Proof. reflexivity. Qed.

Lemma bind_ext {A B} (m1 m2 : M A) (k1 k2 : A -> M B) (w : World) :
  m1 w = m2 w ->
  (forall a w', k1 a w' = k2 a w') ->
  bind m1 k1 w = bind m2 k2 w.
Proof.
  intros Hm Hk. unfold bind. rewrite Hm.
  destruct (m2 w) as [[a|e] w']; [apply Hk|reflexivity].
Qed.

(** X3. The insight of a candidate depends on its content only through
    the first 1000 characters: two candidates that differ in their
    content beyond them give the same calls and the same outcome. *)
Theorem insight_of_item_truncates {lib : PyLib} {svc : Services}
  (it : item) (c1 c2 : str) (ctx : user_context) (w : World) :
  firstn 1000 c1 = firstn 1000 c2 ->
  insight_of_item (with_content it c1) ctx w
  = insight_of_item (with_content it c2) ctx w.
Proof.
  intros H.
  assert (H500 : firstn 500 c1 = firstn 500 c2).
  { change 500%nat with (Nat.min 500 1000).
    now rewrite <- !firstn_firstn, H. }
  unfold insight_of_item. cbn [with_content it_content getitem].
  rewrite !bind_ret_l.
  apply bind_ext.
  - unfold generate_insight, insight_request. now rewrite H.
  - intros text w1. apply bind_ext; [|reflexivity].
    unfold _calculate_relevance_score.
    cbn [with_content it_content it_similarity getitem].
    rewrite !bind_ret_l.
    apply bind_ext.
    + unfold score_content_relevance, relevance_request.
      now rewrite H500.
    + reflexivity.
Qed.

Lemma insight_of_item_truncates_witness :
  insight_of_item (lib := Demo.lib)
    (svc := Demo.services [] [] Demo.TOPICS)
    (with_content Demo.doc_recent (repeat 97%N 1000 ++ lit "one"))
    (Demo.context Demo.TOPICS) []
  = insight_of_item (lib := Demo.lib)
      (svc := Demo.services [] [] Demo.TOPICS)
      (with_content Demo.doc_recent (repeat 97%N 1000 ++ lit "another"))
      (Demo.context Demo.TOPICS) [].
Proof.
  apply insight_of_item_truncates. reflexivity.
Defined.

(** ** Counting the calls of a run *)

Lemma chats_app (w1 w2 : World) : chats (w1 ++ w2) = chats w1 ++ chats w2.
Proof.
  induction w1 as [|e w1 IH]; [reflexivity|].
  destruct e; simpl; now rewrite IH.
Qed.

Lemma inserts_app (w1 w2 : World) :
  inserts (w1 ++ w2) = inserts w1 ++ inserts w2.
Proof.
  induction w1 as [|e w1 IH]; [reflexivity|].
  destruct e; simpl; now rewrite IH.
Qed.

Lemma calls_weaken (s c i s' c' i' : nat) (ext : World) :
  (s <= s')%nat -> (c <= c')%nat -> (i <= i')%nat ->
  calls s c i ext -> calls s' c' i' ext.
Proof. unfold calls. intros ? ? ? (? & ? & ?). repeat split; lia. Qed.

Lemma calls_app (s1 c1 i1 s2 c2 i2 : nat) (e1 e2 : World) :
  calls s1 c1 i1 e1 -> calls s2 c2 i2 e2 ->
  calls (s1 + s2) (c1 + c2) (i1 + i2) (e1 ++ e2).
Proof.
  unfold calls. intros (? & ? & ?) (? & ? & ?).
  rewrite searches_app, chats_app, inserts_app, !length_app.
  repeat split; lia.
Qed.

Lemma calls_nil (s c i : nat) : calls s c i [].
Proof. unfold calls. simpl. repeat split; lia. Qed.

Lemma appends_weaken {A} (P Q : World -> Prop) (m : M A) :
  (forall ext, P ext -> Q ext) -> appends P m -> appends Q m.
Proof.
  intros HPQ Hm w. destruct (Hm w) as (ext & Hw & HP). eauto.
Qed.

Lemma appends_ret {A} (a : A) : appends (calls 0 0 0) (ret a).
Proof. intros w. exists []. split; [now rewrite app_nil_r|apply calls_nil]. Qed.

Lemma appends_raise {A} (e : exn) : appends (calls 0 0 0) (@raise A e).
Proof. intros w. exists []. split; [now rewrite app_nil_r|apply calls_nil]. Qed.

Lemma appends_bind {A B} (s1 c1 i1 s2 c2 i2 : nat) (m : M A)
  (k : A -> M B) :
  appends (calls s1 c1 i1) m ->
  (forall a, appends (calls s2 c2 i2) (k a)) ->
  appends (calls (s1 + s2) (c1 + c2) (i1 + i2)) (bind m k).
Proof.
  intros Hm Hk w. unfold bind.
  destruct (Hm w) as (e1 & Hw1 & H1).
  destruct (m w) as [[a|e] w1]; cbn [snd] in Hw1; subst w1.
  - destruct (Hk a (w ++ e1)) as (e2 & Hw2 & H2).
    exists (e1 ++ e2). rewrite Hw2, app_assoc.
    split; [reflexivity|now apply calls_app].
  - exists e1. split; [reflexivity|].
    eapply calls_weaken; [| | |exact H1]; lia.
Qed.

Lemma appends_try_except {A} (s1 c1 i1 s2 c2 i2 : nat) (body : M A)
  (catches : exn -> bool) (handler : exn -> M A) :
  appends (calls s1 c1 i1) body ->
  (forall e, appends (calls s2 c2 i2) (handler e)) ->
  appends (calls (s1 + s2) (c1 + c2) (i1 + i2))
    (try_except body catches handler).
Proof.
  intros Hm Hk w. unfold try_except.
  destruct (Hm w) as (e1 & Hw1 & H1).
  destruct (body w) as [[a|e] w1]; cbn [snd] in Hw1; subst w1.
  - exists e1. split; [reflexivity|].
    eapply calls_weaken; [| | |exact H1]; lia.
  - destruct (catches e).
    + destruct (Hk e (w ++ e1)) as (e2 & Hw2 & H2).
      exists (e1 ++ e2). rewrite Hw2, app_assoc.
      split; [reflexivity|now apply calls_app].
    + exists e1. split; [reflexivity|].
      eapply calls_weaken; [| | |exact H1]; lia.
Qed.

Section CallCounts.
Context {lib : PyLib} {svc : Services}.

Lemma appends_chat (c : chat_call) : appends (calls 0 1 0) (chat c).
Proof.
  intros w. exists [EvChat c]. split; [reflexivity|].
  unfold calls. simpl. repeat split; lia.
Qed.

Lemma appends_search (q : list Q) (limit : Z) (t : Q) :
  appends (calls 1 0 0) (search_content_by_embedding q limit t).
Proof.
  intros w. eexists. split; [reflexivity|].
  unfold calls. simpl. repeat split; lia.
Qed.

Lemma appends_get_user_progress : appends (calls 0 0 0) get_user_progress.
Proof.
  intros w. exists [EvSelectProgress]. split; [reflexivity|].
  apply calls_nil.
Qed.

Lemma appends_store_daily_insight (t : str) (id : option Z) (r : pyfloat)
  (week : Z) :
  appends (calls 0 0 1) (store_daily_insight t id r week).
Proof.
  intros w. eexists. split; [reflexivity|].
  unfold calls. simpl. repeat split; lia.
Qed.

Lemma appends_utcnow : appends (calls 0 0 0) utcnow.
Proof.
  intros w. exists []. split; [now rewrite app_nil_r|apply calls_nil].
Qed.

Lemma appends_content_strip (c : option str) :
  appends (calls 0 0 0) (content_strip c).
Proof. destruct c; [apply appends_ret|apply appends_raise]. Qed.

Lemma appends_generate_insight (content : str) (ctx : user_context) :
  appends (calls 0 1 0) (generate_insight content ctx).
Proof.
  unfold generate_insight.
  apply (appends_bind (s1 := 0) (c1 := 1) (i1 := 0)
           (s2 := 0) (c2 := 0) (i2 := 0)); [apply appends_chat|].
  intros response.
  apply (appends_bind (s1 := 0) (c1 := 0) (i1 := 0)
           (s2 := 0) (c2 := 0) (i2 := 0));
    [apply appends_content_strip|intros; apply appends_ret].
Qed.

Lemma appends_summary (insights : list str) (ctx : user_context) :
  appends (calls 0 1 0) (generate_daily_digest_summary insights ctx).
Proof.
  unfold generate_daily_digest_summary.
  apply (appends_bind (s1 := 0) (c1 := 1) (i1 := 0)
           (s2 := 0) (c2 := 0) (i2 := 0)); [apply appends_chat|].
  intros response. apply appends_content_strip.
Qed.

Lemma appends_score_content_relevance (content : str)
  (topics : list str) :
  appends (calls 0 1 0) (score_content_relevance content topics).
Proof.
  unfold score_content_relevance.
  apply (appends_bind (s1 := 0) (c1 := 1) (i1 := 0)
           (s2 := 0) (c2 := 0) (i2 := 0)); [apply appends_chat|].
  intros response.
  apply (appends_try_except (s1 := 0) (c1 := 0) (i1 := 0)
           (s2 := 0) (c2 := 0) (i2 := 0));
    [|intros; apply appends_ret].
  apply (appends_bind (s1 := 0) (c1 := 0) (i1 := 0)
           (s2 := 0) (c2 := 0) (i2 := 0));
    [apply appends_content_strip|].
  intros stripped.
  apply (appends_bind (s1 := 0) (c1 := 0) (i1 := 0)
           (s2 := 0) (c2 := 0) (i2 := 0));
    [|intros; apply appends_ret].
  unfold py_float. destruct (float_of_str stripped);
    [apply appends_ret|apply appends_raise].
Qed.

Lemma appends_calculate_freshness (p : str) :
  appends (calls 0 0 0) (_calculate_freshness p).
Proof.
  intros w. destruct (calculate_freshness_total p w) as (x & Hx & _).
  exists []. rewrite Hx. split; [now rewrite app_nil_r|apply calls_nil].
Qed.

Lemma appends_calculate_relevance_score (it : item) (ctx : user_context) :
  appends (calls 0 1 0) (_calculate_relevance_score it ctx).
Proof.
  unfold _calculate_relevance_score.
  apply (appends_bind (s1 := 0) (c1 := 0) (i1 := 0)
           (s2 := 0) (c2 := 1) (i2 := 0)).
  { unfold getitem. destruct (it_content it);
      [apply appends_ret|apply appends_raise]. }
  intros content.
  apply (appends_bind (s1 := 0) (c1 := 1) (i1 := 0)
           (s2 := 0) (c2 := 0) (i2 := 0));
    [apply appends_score_content_relevance|].
  intros topic.
  apply (appends_bind (s1 := 0) (c1 := 0) (i1 := 0)
           (s2 := 0) (c2 := 0) (i2 := 0));
    [apply appends_calculate_freshness|intros; apply appends_ret].
Qed.

Lemma appends_insight_of_item (it : item) (ctx : user_context) :
  appends (calls 0 2 0) (insight_of_item it ctx).
Proof.
  unfold insight_of_item.
  apply (appends_bind (s1 := 0) (c1 := 0) (i1 := 0)
           (s2 := 0) (c2 := 2) (i2 := 0)).
  { unfold getitem. destruct (it_content it);
      [apply appends_ret|apply appends_raise]. }
  intros content.
  apply (appends_bind (s1 := 0) (c1 := 1) (i1 := 0)
           (s2 := 0) (c2 := 1) (i2 := 0));
    [apply appends_generate_insight|].
  intros text.
  apply (appends_bind (s1 := 0) (c1 := 1) (i1 := 0)
           (s2 := 0) (c2 := 0) (i2 := 0));
    [apply appends_calculate_relevance_score|intros; apply appends_ret].
Qed.

Lemma appends_collect_insights (items : list item) (ctx : user_context) :
  forall acc,
    appends (calls 0 (2 * List.length items) 0)
      (collect_insights items ctx acc).
Proof.
  induction items as [|it rest IH]; intros acc.
  - apply appends_ret.
  - cbn [collect_insights].
    eapply appends_weaken;
      [|apply (appends_bind (s1 := 0) (c1 := 2) (i1 := 0)
                 (s2 := 0) (c2 := 2 * List.length rest) (i2 := 0))].
    + intros ext. apply calls_weaken; simpl; lia.
    + apply (appends_try_except (s1 := 0) (c1 := 2) (i1 := 0)
               (s2 := 0) (c2 := 0) (i2 := 0));
        [|intros; apply appends_ret].
      apply (appends_bind (s1 := 0) (c1 := 2) (i1 := 0)
               (s2 := 0) (c2 := 0) (i2 := 0));
        [apply appends_insight_of_item|intros; apply appends_ret].
    + intros acc'. apply IH.
Qed.

Lemma appends_generate_insights (items : list item) (ctx : user_context)
  (n : Z) :
  appends (calls 0 (2 * List.length (slice_to items n)) 0)
    (generate_insights_from_content items ctx n).
Proof.
  unfold generate_insights_from_content.
  eapply appends_weaken;
    [|apply (appends_bind (s1 := 0)
               (c1 := 2 * List.length (slice_to items n)) (i1 := 0)
               (s2 := 0) (c2 := 0) (i2 := 0))].
  - intros ext. apply calls_weaken; lia.
  - apply appends_collect_insights.
  - intros. apply appends_ret.
Qed.

Lemma appends_retrieve (ctx : user_context) (top_k : Z) :
  appends (calls 2 0 0) (retrieve_relevant_content ctx top_k).
Proof.
  unfold retrieve_relevant_content.
  destruct (is_empty (join (lit " ") (get (uc_current_topics ctx) []))).
  - eapply appends_weaken; [|apply appends_ret].
    intros ext. apply calls_weaken; lia.
  - apply (appends_bind (s1 := 1) (c1 := 0) (i1 := 0)
             (s2 := 1) (c2 := 0) (i2 := 0)); [apply appends_search|].
    intros relevant.
    destruct (List.length relevant =? 0)%nat; [apply appends_search|].
    eapply appends_weaken; [|apply appends_ret].
    intros ext. apply calls_weaken; lia.
Qed.

Lemma appends_store_insights (insights : list insight) (week : Z) :
  appends (calls 0 0 (List.length insights)) (store_insights insights week).
Proof.
  induction insights as [|i rest IH].
  - apply appends_ret.
  - cbn [store_insights].
    apply (appends_bind (s1 := 0) (c1 := 0) (i1 := 1)
             (s2 := 0) (c2 := 0) (i2 := List.length rest));
      [apply appends_store_daily_insight|intros; apply IH].
Qed.

End CallCounts.

(** ** The calls of a digest build *)

Section DigestCalls.
Context {lib : PyLib} {svc : Services}.

Lemma calls_no_inserts (s c : nat) (ext : World) :
  calls s c 0 ext -> inserts ext = [].
Proof.
  intros (_ & _ & H). destruct (inserts ext); [reflexivity|simpl in H; lia].
Qed.

Lemma calls_no_chats (s i : nat) (ext : World) :
  calls s 0 i ext -> chats ext = [].
Proof.
  intros (_ & H & _). destruct (chats ext); [reflexivity|simpl in H; lia].
Qed.

Lemma generate_insights_length (items : list item) (ctx : user_context)
  (n : Z) (w w' : World) (insights : list insight) :
  generate_insights_from_content items ctx n w = (Ok insights, w') ->
  (List.length insights <= List.length (slice_to items n))%nat.
Proof.
  destruct (generate_insights_run items ctx n w)
    as (collected & w1 & _ & Hg & Hlen & _).
  rewrite Hg. intros H.
  assert (insights = list_sort in_relevance_score true collected) as ->
    by congruence.
  pose proof (Permutation_length
                (list_sort_perm in_relevance_score true collected)).
  lia.
Qed.

(** The part of [generate_daily_digest] that follows a non-empty
    retrieval. *)
Lemma digest_tail_calls (relevant : list item) (p : user_progress)
  (n : Z) (w1 : World) :
  (0 <= n)%Z ->
  exists ext,
    snd ((insights <-
            generate_insights_from_content relevant
              (context_of_progress p) n ;;
          _ <- store_insights insights (up_current_week p) ;;
          summary <-
            generate_daily_digest_summary (List.map in_insight insights)
              (context_of_progress p) ;;
          now <- utcnow ;;
          ret {| dg_date := isoformat (dt_wall now);
                 dg_week := Some (up_current_week p);
                 dg_topics := Some (up_current_topics p);
                 dg_summary := summary;
                 dg_insights := insights;
                 dg_total_insights := Some (List.length insights) |}) w1)
    = w1 ++ ext
    /\ calls 0 (2 * Z.to_nat n + 1) (Z.to_nat n) ext.
Proof.
  intros Hn.
  pose proof (slice_to_length relevant Hn) as Hslice.
  destruct (appends_generate_insights relevant (context_of_progress p) n w1)
    as (e1 & Hw1 & H1).
  unfold bind at 1.
  destruct (generate_insights_from_content relevant
              (context_of_progress p) n w1) as [[insights|e] w2] eqn:Eg;
    cbn [snd] in Hw1; subst w2.
  - pose proof (generate_insights_length _ _ _ _ Eg) as Hlen.
    assert (Hrest :
      appends (calls 0 1 (List.length insights))
        (_ <- store_insights insights (up_current_week p) ;;
         summary <-
           generate_daily_digest_summary (List.map in_insight insights)
             (context_of_progress p) ;;
         now <- utcnow ;;
         ret {| dg_date := isoformat (dt_wall now);
                dg_week := Some (up_current_week p);
                dg_topics := Some (up_current_topics p);
                dg_summary := summary;
                dg_insights := insights;
                dg_total_insights := Some (List.length insights) |})).
    { eapply appends_weaken;
        [|apply (appends_bind (s1 := 0) (c1 := 0)
                   (i1 := List.length insights)
                   (s2 := 0) (c2 := 1) (i2 := 0))].
      - intros ext. apply calls_weaken; lia.
      - apply appends_store_insights.
      - intros _.
        apply (appends_bind (s1 := 0) (c1 := 1) (i1 := 0)
                 (s2 := 0) (c2 := 0) (i2 := 0));
          [apply appends_summary|].
        intros summary.
        apply (appends_bind (s1 := 0) (c1 := 0) (i1 := 0)
                 (s2 := 0) (c2 := 0) (i2 := 0));
          [apply appends_utcnow|intros; apply appends_ret]. }
    destruct (Hrest (w1 ++ e1)) as (e2 & Hw2 & H2).
    exists (e1 ++ e2). rewrite Hw2, app_assoc. split; [reflexivity|].
    eapply calls_weaken; [| | |exact (calls_app H1 H2)]; lia.
  - exists e1. split; [reflexivity|].
    eapply calls_weaken; [| | |exact H1]; lia.
Qed.

Lemma digest_calls (n : Z) (w : World) :
  (0 <= n)%Z ->
  exists ext,
    snd (generate_daily_digest n w) = w ++ ext
    /\ calls 2 (2 * Z.to_nat n + 1) (Z.to_nat n) ext.
Proof.
  intros Hn. unfold generate_daily_digest, bind at 1.
  destruct (appends_get_user_progress w) as (e0 & Hw0 & H0).
  destruct (get_user_progress w) as [[[p|]|e] w0]; cbn [snd] in Hw0;
    subst w0.
  - destruct (appends_retrieve (context_of_progress p) (n * 2) (w ++ e0))
      as (e1 & Hw1 & H1).
    unfold bind at 1.
    destruct (retrieve_relevant_content (context_of_progress p) (n * 2)
                (w ++ e0)) as [[relevant|e] w1]; cbn [snd] in Hw1;
      subst w1.
    + destruct relevant as [|c cs]; cbn [is_nil].
      * exists (e0 ++ e1). cbn. rewrite app_assoc. split; [reflexivity|].
        eapply calls_weaken; [| | |exact (calls_app H0 H1)]; lia.
      * destruct (digest_tail_calls (c :: cs) p ((w ++ e0) ++ e1) Hn)
          as (e2 & Hw2 & H2).
        exists (e0 ++ e1 ++ e2). rewrite Hw2, <- !app_assoc.
        split; [reflexivity|].
        eapply calls_weaken;
          [| | |exact (calls_app H0 (calls_app H1 H2))]; lia.
    + exists (e0 ++ e1). rewrite app_assoc. split; [reflexivity|].
      eapply calls_weaken; [| | |exact (calls_app H0 H1)]; lia.
  - exists e0. split; [reflexivity|].
    eapply calls_weaken; [| | |exact H0]; lia.
  - exists e0. split; [reflexivity|].
    eapply calls_weaken; [| | |exact H0]; lia.
Qed.

End DigestCalls.

(** X4. Whatever its outcome, a digest build for a non-negative target
    count [n] only appends to the trace, and what it appends holds at
    most two similarity searches, at most [2n + 1] completion calls and
    at most [n] stored insight rows; the tool of the server makes the
    same calls. *)
Theorem digest_call_budget {lib : PyLib} {svc : Services}
  (n : Z) (w : World) :
  (0 <= n)%Z ->
  exists ext,
    snd (generate_daily_digest n w) = w ++ ext
    /\ snd (Server.generate_daily_digest n w) = w ++ ext
    /\ (List.length (searches ext) <= 2)%nat
    /\ (List.length (chats ext) <= 2 * Z.to_nat n + 1)%nat
    /\ (List.length (inserts ext) <= Z.to_nat n)%nat.
Proof.
  intros Hn. destruct (digest_calls w Hn) as (ext & Hw & Hs & Hc & Hi).
  exists ext. split; [exact Hw|]. split; [|auto].
  unfold Server.generate_daily_digest.
  destruct (generate_daily_digest n w) as [[d|e] w']; exact Hw.
Qed.

Lemma digest_call_budget_witness :
  exists ext,
    snd (generate_daily_digest (lib := Demo.lib)
           (svc := Demo.services
                     [Demo.doc_recent; Demo.doc_unscored; Demo.doc_utc;
                      Demo.doc_failing] [] Demo.TOPICS) 2 [])
    = [] ++ ext
    /\ (List.length (chats ext) <= 5)%nat.
Proof.
  destruct (@digest_call_budget Demo.lib
              (Demo.services
                 [Demo.doc_recent; Demo.doc_unscored; Demo.doc_utc;
                  Demo.doc_failing] [] Demo.TOPICS) 2%Z [])
    as (ext & Hw & _ & _ & Hc & _); [discriminate|].
  exists ext. split; [exact Hw|exact Hc].
Defined.

(** ** Persisting the insights *)

Section Persist.
Context {lib : PyLib} {svc : Services}.

Lemma store_insights_ok (insights : list insight) (week : Z) :
  forall (w w' : World) (u : unit),
    store_insights insights week w = (Ok u, w') ->
    w' = w ++ List.map (fun i => EvInsertInsight (row_of_insight week i))
                insights.
Proof.
  induction insights as [|i rest IH]; intros w w' u H.
  - inversion H. now rewrite app_nil_r.
  - cbn [store_insights] in H.
    apply bind_Ok_inv in H as (u1 & w1 & H1 & H).
    apply IH in H. subst w'.
    unfold store_daily_insight in H1. inversion H1; subst.
    now rewrite <- app_assoc.
Qed.

(** The store loop stops at the first row the store refuses. *)
Lemma store_insights_stops (pre post : list insight) (i : insight)
  (week : Z) (e : exn) :
  forall w,
    (forall k,
        (k < List.length pre)%nat ->
        exists u,
          insert_daily_insight
            (w ++ List.map
                    (fun j => EvInsertInsight (row_of_insight week j))
                    (firstn k pre))
            (row_of_insight week (nth k pre i)) = Ok u) ->
    insert_daily_insight
      (w ++ List.map (fun j => EvInsertInsight (row_of_insight week j)) pre)
      (row_of_insight week i) = Raise e ->
    store_insights (pre ++ i :: post) week w
    = (Raise e,
       w ++ List.map (fun j => EvInsertInsight (row_of_insight week j))
              (pre ++ [i])).
Proof.
  induction pre as [|a pre IH]; intros w Hok Hfail.
  - simpl in *. rewrite app_nil_r in Hfail.
    unfold bind, store_daily_insight.
    fold (row_of_insight week i). now rewrite Hfail.
  - simpl app. cbn [store_insights].
    destruct (Hok 0%nat) as (u & Hu); [simpl; lia|].
    simpl in Hu. rewrite app_nil_r in Hu.
    unfold bind at 1, store_daily_insight.
    fold (row_of_insight week a). rewrite Hu.
    rewrite IH.
    + cbn [List.map]. now rewrite <- app_assoc.
    + intros k Hk. destruct (Hok (S k)) as (u' & Hu'); [simpl; lia|].
      exists u'. cbn [firstn nth List.map] in Hu'.
      now rewrite <- app_assoc.
    + cbn [List.map] in Hfail. now rewrite <- app_assoc.
Qed.

Lemma digest_ok_inv (n : Z) (w w' : World) (d : digest) :
  generate_daily_digest n w = (Ok d, w') ->
  exists p rows relevant w1,
    select_user_progress w = Ok (p :: rows)
    /\ retrieve_relevant_content (context_of_progress p) (n * 2)
         (w ++ [EvSelectProgress]) = (Ok relevant, w1)
    /\ ((relevant = []
         /\ d = no_content_digest (isoformat (clock w1)) /\ w' = w1)
        \/ (relevant <> []
            /\ exists w2 summary,
                generate_insights_from_content relevant
                  (context_of_progress p) n w1 = (Ok (dg_insights d), w2)
                /\ w' = (w2 ++ List.map
                                 (fun i =>
                                    EvInsertInsight
                                      (row_of_insight (up_current_week p) i))
                                 (dg_insights d))
                        ++ [EvChat
                              (summary_request (up_current_week p)
                                 (up_current_topics p)
                                 (List.map in_insight (dg_insights d)))]
                /\ d = {| dg_date := isoformat (clock w');
                          dg_week := Some (up_current_week p);
                          dg_topics := Some (up_current_topics p);
                          dg_summary := summary;
                          dg_insights := dg_insights d;
                          dg_total_insights :=
                            Some (List.length (dg_insights d)) |})).
Proof.
  unfold generate_daily_digest. intros H.
  apply bind_Ok_inv in H as ([p|] & w0 & Hp & H); [|discriminate].
  unfold get_user_progress in Hp.
  destruct (select_user_progress w) as [[|p0 rows]|e] eqn:Es;
    inversion Hp; subst; clear Hp.
  apply bind_Ok_inv in H as (relevant & w1 & Hr & H).
  exists p, rows, relevant, w1. split; [reflexivity|].
  split; [assumption|].
  destruct relevant as [|c cs]; cbn [is_nil] in H.
  - left. inversion H; subst. auto.
  - right. split; [discriminate|].
    apply bind_Ok_inv in H as (insights & w2 & Hi & H).
    apply bind_Ok_inv in H as (u & w3 & Hst & H).
    apply bind_Ok_inv in H as (summary & w4 & Hsum & H).
    apply store_insights_ok in Hst. subst w3.
    unfold generate_daily_digest_summary in Hsum.
    apply bind_Ok_inv in Hsum as (resp & w5 & Hchat & Hsum).
    unfold chat in Hchat. inversion Hchat; subst; clear Hchat.
    assert (w4 = (w2 ++ List.map
                          (fun i =>
                             EvInsertInsight
                               (row_of_insight (up_current_week p) i))
                          insights)
                 ++ [EvChat
                       (summary_request (up_current_week p)
                          (up_current_topics p)
                          (List.map in_insight insights))]) as ->.
    { unfold content_strip in Hsum.
      destruct resp; inversion Hsum; reflexivity. }
    inversion H; subst; clear H. cbn [dg_insights].
    exists w2, summary. repeat split; assumption || reflexivity.
Qed.

End Persist.

(** X5. A returned digest was built for the first stored progress row.
    It is the no-content digest, and then nothing was stored and no
    completion requested; or every one of its insights has been sent to
    the store, in the ranked order of the digest and with the week of
    that row, before the summary is requested, the summary request is
    the last call of the build and carries the week and the topics of
    the row and the number of these insights, and the count of the
    digest is the length of its insight list. *)
Theorem digest_persists_ranked_insights {lib : PyLib} {svc : Services}
  (n : Z) (w w' : World) (d : digest) :
  generate_daily_digest n w = (Ok d, w') ->
  exists p rows,
    select_user_progress w = Ok (p :: rows)
    /\ ((dg_week d = None
         /\ d = no_content_digest (dg_date d)
         /\ inserts w' = inserts w /\ chats w' = chats w)
        \/ (exists w0,
               dg_week d = Some (up_current_week p)
               /\ dg_topics d = Some (up_current_topics p)
               /\ dg_total_insights d = Some (List.length (dg_insights d))
               /\ inserts w'
                  = inserts w
                    ++ List.map
                         (fun i =>
                            {| ir_insight := in_insight i;
                               ir_content_id := in_content_id i;
                               ir_relevance_score := in_relevance_score i;
                               ir_week := up_current_week p |})
                         (dg_insights d)
               /\ w' = w0
                       ++ [EvChat
                             {| cc_model := lit "qwen/qwen3-32b";
                                cc_prompt :=
                                  SummaryPrompt (up_current_week p)
                                    (up_current_topics p)
                                    (List.length (dg_insights d));
                                cc_max_tokens := 150;
                                cc_temperature := 0.8 |}])).
Proof.
  intros H.
  destruct (digest_ok_inv _ _ H)
    as (p & rows & relevant & w1 & Hp & Hr & Hcase).
  exists p, rows. split; [exact Hp|].
  destruct (appends_retrieve (context_of_progress p) (n * 2)
              (w ++ [EvSelectProgress])) as (e1 & Hw1 & H1).
  rewrite Hr in Hw1. cbn [snd] in Hw1.
  assert (Hi1 : inserts w1 = inserts w).
  { rewrite Hw1, !inserts_app, (calls_no_inserts H1). simpl.
    now rewrite !app_nil_r. }
  assert (Hc1 : chats w1 = chats w).
  { rewrite Hw1, !chats_app, (calls_no_chats H1). simpl.
    now rewrite !app_nil_r. }
  destruct Hcase as [(_ & -> & ->)|(_ & w2 & summary & Hg & Hw' & Hd)].
  - left. repeat split; assumption.
  - right.
    destruct (appends_generate_insights relevant (context_of_progress p)
                n w1) as (e2 & Hw2 & H2).
    rewrite Hg in Hw2. cbn [snd] in Hw2.
    exists (w2 ++ List.map
                    (fun i => EvInsertInsight
                                (row_of_insight (up_current_week p) i))
                    (dg_insights d)).
    rewrite Hd at 1 2 3. cbn [dg_week dg_topics dg_total_insights].
    split; [reflexivity|]. split; [reflexivity|]. split; [reflexivity|].
    split.
    + rewrite Hw', !inserts_app, Hw2, inserts_app, Hi1,
        (calls_no_inserts H2).
      simpl. rewrite !app_nil_r. f_equal.
      clear. induction (dg_insights d) as [|i l IH]; [reflexivity|].
      simpl. now rewrite IH.
    + rewrite Hw'. unfold summary_request. now rewrite length_map.
Qed.

Lemma digest_persists_ranked_insights_witness :
  exists d w',
    generate_daily_digest (lib := Demo.lib)
      (svc := Demo.services
                [Demo.doc_utc; Demo.doc_recent; Demo.doc_unscored] []
                Demo.TOPICS) 3 [] = (Ok d, w')
    /\ List.map ir_content_id (inserts w')
       = [Some 1%Z; Some 3%Z; Some 2%Z]
    /\ List.map in_content_id (dg_insights d)
       = [Some 1%Z; Some 3%Z; Some 2%Z]
    /\ List.map ir_week (inserts w') = [3%Z; 3%Z; 3%Z]
    /\ last (List.map cc_prompt (chats w')) (RelevancePrompt [] [])
       = SummaryPrompt 3 Demo.TOPICS 3.
Proof.
  exists_run.
  match goal with
  | |- List.map _ (inserts ?w') = _ /\ List.map _ (dg_insights ?d) = _ /\ _
    =>
      destruct (@digest_persists_ranked_insights Demo.lib
                  (Demo.services
                     [Demo.doc_utc; Demo.doc_recent; Demo.doc_unscored] []
                     Demo.TOPICS) 3%Z [] w' d)
        as (p & rows & _ & [(Hnone & _)|(w0 & _ & _ & _ & Hins & _)])
  end.
  - vm_compute. reflexivity.
  - discriminate Hnone.
  - repeat split; vm_compute; reflexivity.
Defined.

(** ** Failures of the store and of the progress lookup *)

(** X6. When the store refuses one of the insights of a build, the
    build raises that error: the insights ranked before it are stored,
    the refused row is the last call, the insights after it are not
    sent, no summary is requested, and the tool reports a failure with
    the message of the error. *)
Theorem digest_aborts_on_store_failure {lib : PyLib} {svc : Services}
  (n : Z) (w w1 w2 : World) (p : user_progress)
  (rows : list user_progress) (relevant : list item)
  (pre post : list insight) (i : insight) (e : exn) :
  let week := up_current_week p in
  let sent := List.map (fun j => EvInsertInsight (row_of_insight week j)) in
  select_user_progress w = Ok (p :: rows) ->
  retrieve_relevant_content (context_of_progress p) (n * 2)
    (w ++ [EvSelectProgress]) = (Ok relevant, w1) ->
  relevant <> [] ->
  generate_insights_from_content relevant (context_of_progress p) n w1
  = (Ok (pre ++ i :: post), w2) ->
  (forall k,
      (k < List.length pre)%nat ->
      exists u,
        insert_daily_insight (w2 ++ sent (firstn k pre))
          (row_of_insight week (nth k pre i)) = Ok u) ->
  insert_daily_insight (w2 ++ sent pre) (row_of_insight week i)
  = Raise e ->
  generate_daily_digest n w = (Raise e, w2 ++ sent (pre ++ [i]))
  /\ Server.generate_daily_digest n w
     = (Server.Failure (str_of_exn e), w2 ++ sent (pre ++ [i])).
Proof.
  intros week sent Hp Hr Hne Hg Hok Hfail.
  assert (Hd : generate_daily_digest n w
               = (Raise e, w2 ++ sent (pre ++ [i]))).
  { unfold generate_daily_digest.
    erewrite bind_Ok by (apply get_user_progress_run; exact Hp).
    cbn [hd_error].
    erewrite bind_Ok by exact Hr.
    destruct relevant as [|c cs]; [congruence|]. cbn [is_nil].
    erewrite bind_Ok by exact Hg.
    unfold bind at 1.
    rewrite store_insights_stops with (e := e);
      [reflexivity|exact Hok|exact Hfail]. }
  split; [exact Hd|].
  unfold Server.generate_daily_digest. now rewrite Hd.
Qed.

Lemma digest_aborts_on_store_failure_witness :
  let svc :=
    with_failing_store
      (Demo.services [Demo.doc_utc; Demo.doc_recent; Demo.doc_unscored] []
         Demo.TOPICS)
      (fun r => match ir_content_id r with
                | Some 3%Z => true
                | _ => false
                end) in
  fst (Server.generate_daily_digest (lib := Demo.lib) (svc := svc) 3 [])
  = Server.Failure (lit "insert failed")
  /\ List.map ir_content_id
       (inserts
          (snd (Server.generate_daily_digest (lib := Demo.lib)
                  (svc := svc) 3 [])))
     = [Some 1%Z; Some 3%Z].
Proof.
  intros svc.
  let r := eval vm_compute in
            (retrieve_relevant_content (svc := svc)
               (context_of_progress (Demo.learner Demo.TOPICS)) (3 * 2)
               [EvSelectProgress]) in
  match r with
  | (Ok ?relevant, ?w1) =>
      let g := eval vm_compute in
                (generate_insights_from_content (lib := Demo.lib)
                   (svc := svc) relevant
                   (context_of_progress (Demo.learner Demo.TOPICS)) 3 w1) in
      match g with
      | (Ok (?a :: ?b :: ?c), ?w2) =>
          destruct (@digest_aborts_on_store_failure Demo.lib svc 3%Z []
                      w1 w2 (Demo.learner Demo.TOPICS) [] relevant
                      [a] c b (ServiceError (lit "insert failed")))
            as [_ Hs];
            [ reflexivity
            | vm_compute; reflexivity
            | discriminate
            | vm_compute; reflexivity
            | intros k Hk; destruct k;
              [exists tt; vm_compute; reflexivity|simpl in Hk; lia]
            | vm_compute; reflexivity
            | rewrite Hs; split; vm_compute; reflexivity ]
      end
  end.
Defined.

(** X7. Without a stored progress row the digest build raises
    [ValueError] with the fixed message after the progress lookup alone:
    the tool reports that message as a failure, and the progress tool
    reports ["No progress found"].  An error of the lookup itself is
    reported by both tools with its own message; with a stored row the
    progress tool returns the first one. *)
Theorem digest_requires_progress {lib : PyLib} {svc : Services}
  (n : Z) (w : World) :
  (select_user_progress w = Ok [] ->
   generate_daily_digest n w
   = (Raise (ValueError NO_PROGRESS), w ++ [EvSelectProgress])
   /\ Server.generate_daily_digest n w
      = (Server.Failure NO_PROGRESS, w ++ [EvSelectProgress])
   /\ Tools.get_progress w
      = (Tools.Failed Tools.NO_PROGRESS_FOUND, w ++ [EvSelectProgress]))
  /\ (forall e,
         select_user_progress w = Raise e ->
         Server.generate_daily_digest n w
         = (Server.Failure (str_of_exn e), w ++ [EvSelectProgress])
         /\ Tools.get_progress w
            = (Tools.Failed (str_of_exn e), w ++ [EvSelectProgress]))
  /\ (forall p rows,
         select_user_progress w = Ok (p :: rows) ->
         Tools.get_progress w
         = (Tools.Succeeded p, w ++ [EvSelectProgress])).
Proof.
  split; [|split].
  - intros H.
    assert (Hd : generate_daily_digest n w
                 = (Raise (ValueError NO_PROGRESS),
                    w ++ [EvSelectProgress])).
    { unfold generate_daily_digest.
      erewrite bind_Ok by (apply get_user_progress_run; exact H).
      reflexivity. }
    split; [exact Hd|]. split.
    + unfold Server.generate_daily_digest. now rewrite Hd.
    + unfold Tools.get_progress.
      now rewrite (get_user_progress_run _ H).
  - intros e H. split.
    + unfold Server.generate_daily_digest, generate_daily_digest, bind,
        get_user_progress. now rewrite H.
    + unfold Tools.get_progress, get_user_progress. now rewrite H.
  - intros p rows H. unfold Tools.get_progress.
    now rewrite (get_user_progress_run _ H).
Qed.

Lemma digest_requires_progress_witness :
  let svc :=
    Demo.scripted [Demo.doc_recent] [] Demo.insight_reply
      Demo.relevance_reply [] Demo.NOON_1_JUNE_2024 in
  Server.generate_daily_digest (lib := Demo.lib) (svc := svc) 7 []
  = (Server.Failure NO_PROGRESS, [EvSelectProgress])
  /\ Tools.get_progress (svc := svc) []
     = (Tools.Failed (lit "No progress found"), [EvSelectProgress]).
Proof.
  intros svc.
  destruct (proj1 (@digest_requires_progress Demo.lib svc 7%Z []) eq_refl)
    as (_ & Hs & Ht).
  split; assumption.
Defined.

(** ** What a digest holds *)

Section WellFormed.
Context {lib : PyLib} {svc : Services}.

Lemma generate_insight_clean (content : str) (ctx : user_context)
  (w w' : World) (text : str) :
  generate_insight content ctx w = (Ok text, w') ->
  contains THINK_END text = false /\ strip text = text.
Proof.
  rewrite generate_insight_run. cbv zeta.
  destruct (chat_completions_create w _) as [[raw|]|e];
    intros H; inversion H; subst.
  destruct (extract_final_output_facts (strip raw)) as (H1 & H2 & _).
  now split.
Qed.

Lemma insight_of_item_well_formed (it : item) (ctx : user_context)
  (w w' : World) (i : insight) :
  similarity_in_unit it ->
  insight_of_item it ctx w = (Ok i, w') ->
  copied_from it i /\ well_formed_insight i.
Proof.
  intros Hsim H. unfold insight_of_item in H.
  apply bind_Ok_inv in H as (content & w1 & Hc & H).
  apply bind_Ok_inv in H as (text & w2 & Ht & H).
  apply bind_Ok_inv in H as (r & w3 & Hr & H).
  inversion H; subst; clear H.
  unfold copied_from, well_formed_insight. cbn.
  destruct (generate_insight_clean _ _ _ Ht) as (Hend & Hstrip).
  destruct (calculate_relevance_score_inv _ _ _ Hr)
    as (c & topic & fresh & _ & _ & _ & Htu & Hfu & ->).
  assert (Hs5 : in_unit (get (it_similarity it) (Fin 0.5))).
  { unfold similarity_in_unit in Hsim.
    destruct (it_similarity it); [assumption|simpl; split; lra]. }
  assert (Hs0 : in_unit (get (it_similarity it) (Fin 0.0))).
  { unfold similarity_in_unit in Hsim.
    destruct (it_similarity it); [assumption|simpl; split; lra]. }
  assert (Hround : in_unit
                 (py_round
                    (weighted_combination (get (it_similarity it) (Fin 0.5))
                       topic fresh) 3))
    by (apply py_round_in_unit, weighted_combination_in_unit; assumption).
  repeat split; assumption || reflexivity.
Qed.

End WellFormed.

(** X8. When the store attaches similarities in [0,1] (or none) to the
    candidates it returns, every insight of a returned digest is made
    from one of the first [n] candidates retrieved, whose identifier,
    title, source URL, metadata and similarity it copies; its
    relevance score and its similarity score are in [0,1]; its text
    contains no end marker and has no whitespace at its ends. *)
Theorem digest_insights_well_formed {lib : PyLib} {svc : Services}
  (n : Z) (w w' : World) (d : digest) :
  (forall w0 c l,
      match_learning_content w0 c = Ok l -> Forall similarity_in_unit l) ->
  generate_daily_digest n w = (Ok d, w') ->
  exists p relevant w1,
    retrieve_relevant_content (context_of_progress p) (n * 2)
      (w ++ [EvSelectProgress]) = (Ok relevant, w1)
    /\ Forall
         (fun i =>
            well_formed_insight i
            /\ exists it, In it (slice_to relevant n) /\ copied_from it i)
         (dg_insights d).
Proof.
  intros Hstore H.
  destruct (digest_ok_inv _ _ H)
    as (p & rows & relevant & w1 & _ & Hr & Hcase).
  exists p, relevant, w1. split; [exact Hr|].
  destruct Hcase as [(_ & -> & _)|(Hne & w2 & summary & Hg & _ & _)];
    [constructor|].
  destruct (retrieve_result_origin _ _ _ Hr) as [->|(w0 & c & Hc)];
    [congruence|].
  pose proof (Hstore _ _ _ Hc) as Hsims.
  destruct (generate_insights_run relevant (context_of_progress p) n w1)
    as (collected & w3 & _ & Hg' & _ & _ & Hall).
  rewrite Hg in Hg'.
  assert (dg_insights d = list_sort in_relevance_score true collected)
    as -> by congruence.
  eapply Permutation_Forall; [apply list_sort_perm|].
  eapply Forall_impl; [|exact Hall].
  intros i (it & wa & wb & Hin & Hrun).
  assert (Hsim : similarity_in_unit it).
  { apply (proj1 (Forall_forall _ _) (Forall_slice_to n Hsims) it Hin). }
  destruct (insight_of_item_well_formed _ _ _ Hsim Hrun) as (Hcp & Hwf).
  split; [exact Hwf|]. now exists it.
Qed.

Lemma digest_insights_well_formed_witness :
  exists d w',
    generate_daily_digest (lib := Demo.lib)
      (svc := Demo.services
                [Demo.doc_utc; Demo.doc_recent; Demo.doc_unscored] []
                Demo.TOPICS) 3 [] = (Ok d, w')
    /\ Forall well_formed_insight (dg_insights d).
Proof.
  let r := eval vm_compute in
            (generate_daily_digest (lib := Demo.lib)
               (svc := Demo.services
                         [Demo.doc_utc; Demo.doc_recent; Demo.doc_unscored]
                         [] Demo.TOPICS) 3 []) in
  match r with
  | (Ok ?d, ?w') =>
      exists d, w'; split; [vm_compute; reflexivity|];
      destruct (@digest_insights_well_formed Demo.lib
                  (Demo.services
                     [Demo.doc_utc; Demo.doc_recent; Demo.doc_unscored] []
                     Demo.TOPICS) 3%Z [] w' d)
        as (p & relevant & w1 & _ & Hall)
  end.
  - intros w0 c l Hl. unfold match_learning_content in Hl. cbn in Hl.
    destruct (Qle_bool _ _); inversion Hl; subst;
      repeat constructor; simpl; lra.
  - vm_compute. reflexivity.
  - eapply Forall_impl; [|exact Hall]. now intros i [Hwf _].
Defined.

(** ** A rating reply without content *)

(** X9. A rating reply whose content is absent is not replaced by the
    neutral 0.5: the [AttributeError] is not a [ValueError], so it
    leaves [score_content_relevance], and the loop over the candidates
    drops the candidate although its insight text had been generated. *)
Theorem rating_without_content_drops_candidate {lib : PyLib}
  {svc : Services} (it : item) (ctx : user_context)
  (acc : list insight) (w : World) (content raw : str) :
  let generation :=
    insight_request (get (uc_current_week ctx) 1%Z)
      (get (uc_current_topics ctx) []) (get (uc_learning_goals ctx) [])
      content in
  let rating :=
    relevance_request (get (uc_current_topics ctx) [])
      (firstn 500 content) in
  let w1 := w ++ [EvChat generation] in
  it_content it = Some content ->
  chat_completions_create w generation = Ok (Some raw) ->
  chat_completions_create w1 rating = Ok None ->
  score_content_relevance (firstn 500 content)
    (get (uc_current_topics ctx) []) w1
  = (Raise NO_STRIP, w1 ++ [EvChat rating])
  /\ collect_insights [it] ctx acc w = (Ok acc, w1 ++ [EvChat rating]).
Proof.
  intros generation rating w1 Hc Hgen Hrate.
  assert (Hs : score_content_relevance (firstn 500 content)
                 (get (uc_current_topics ctx) []) w1
               = (Raise NO_STRIP, w1 ++ [EvChat rating])).
  { rewrite score_content_relevance_run.
    fold rating. now rewrite Hrate. }
  split; [exact Hs|].
  rewrite collect_insights_cons.
  assert (Hi : insight_of_item it ctx w
               = (Raise NO_STRIP, w1 ++ [EvChat rating])).
  { unfold insight_of_item. rewrite Hc. cbn [getitem].
    rewrite bind_ret_l.
    erewrite bind_Ok
      by (rewrite generate_insight_run; fold generation;
          rewrite Hgen; reflexivity).
    fold w1.
    unfold _calculate_relevance_score. rewrite Hc. cbn [getitem].
    unfold bind at 1. rewrite bind_ret_l.
    unfold bind at 1. now rewrite Hs. }
  rewrite Hi. reflexivity.
Qed.

Lemma rating_without_content_drops_candidate_witness :
  let svc :=
    Demo.scripted [] [] Demo.insight_reply (fun _ => Ok None) []
      Demo.NOON_1_JUNE_2024 in
  exists w',
    collect_insights (lib := Demo.lib) (svc := svc) [Demo.doc_recent]
      (Demo.context Demo.TOPICS) [] [] = (Ok [], w')
    /\ List.length (chats w') = 2%nat.
Proof.
  intros svc. eexists. split.
  - apply (@rating_without_content_drops_candidate Demo.lib svc
             Demo.doc_recent (Demo.context Demo.TOPICS) [] []
             (lit "Attention is all you need.")
             (lit "<think>plan</think> Study: Attention is all you need."));
      reflexivity.
  - reflexivity.
Defined.

(** ** Comma-separated lists *)

Lemma split_char_parts (c : char) (s : str) :
  forall cur,
    ~ In c cur ->
    Forall (fun p => ~ In c p) (split_from [c] 0 cur s)
    /\ List.length (split_from [c] 0 cur s)
       = S (count_occ N.eq_dec s c).
Proof.
  induction s as [|x s IH]; intros cur Hcur.
  - simpl. split; [|reflexivity].
    constructor; [|constructor]. now rewrite <- in_rev.
  - cbn [split_from starts_with List.length Nat.sub].
    rewrite andb_true_r.
    destruct (N.eqb_spec c x) as [->|Hne].
    + destruct (IH [] (fun H => H)) as (Hall & Hlen).
      simpl. destruct (N.eq_dec x x); [|congruence].
      split; [|now rewrite Hlen].
      constructor; [now rewrite <- in_rev|exact Hall].
    + destruct (IH (x :: cur)) as (Hall & Hlen).
      { intros [H|H]; [congruence|auto]. }
      simpl. destruct (N.eq_dec x c); [congruence|].
      now split.
Qed.

Lemma in_strip (c : char) (s : str) : In c (strip s) -> In c s.
Proof.
  intros H. destruct (strip_decompose s) as (l & r & Hs & _).
  rewrite Hs. apply in_or_app. right. apply in_or_app. now left.
Qed.

(** The parts of a comma-separated text, each trimmed: one more than
    there are commas, none with a comma or with whitespace at an end. *)
Lemma split_concepts_parts (s : str) :
  List.length (Concepts.split_concepts s)
  = S (count_occ N.eq_dec s Concepts.COMMA)
  /\ Forall (fun p => strip p = p /\ ~ In Concepts.COMMA p)
       (Concepts.split_concepts s).
Proof.
  unfold Concepts.split_concepts, split.
  destruct (split_char_parts Concepts.COMMA s [] (fun H => H))
    as (Hall & Hlen).
  split; [now rewrite length_map|].
  apply Forall_map. eapply Forall_impl; [|exact Hall].
  intros p Hp. split; [apply strip_idempotent|].
  intros H. apply Hp. now apply in_strip.
Qed.

(** X10. For every reply with content, [extract_key_concepts] returns
    the first [max_concepts] of the comma-separated parts of the reply:
    for a non-negative [max_concepts] at most that many, for a positive
    one at least one (a blank reply gives one empty concept, not an
    empty list), each without a comma and without whitespace at its
    ends.  There is one part more than there are commas in the trimmed
    reply, and content beyond the first 1000 characters is not sent. *)
Theorem extract_key_concepts_bounds {cs : Concepts.ConceptService}
  (content reply : str) (max_concepts : Z) (w : World) :
  Concepts.key_concepts_create w (firstn 1000 content) max_concepts
  = Ok (Some reply) ->
  exists concepts,
    Concepts.extract_key_concepts content max_concepts w = Ok concepts
    /\ ((0 <= max_concepts)%Z ->
        (Z.of_nat (List.length concepts) <= max_concepts)%Z)
    /\ ((1 <= max_concepts)%Z -> concepts <> [])
    /\ ((Z.of_nat (S (count_occ N.eq_dec (strip reply) Concepts.COMMA))
         <= max_concepts)%Z ->
        List.length concepts
        = S (count_occ N.eq_dec (strip reply) Concepts.COMMA))
    /\ Forall (fun p => strip p = p /\ ~ In Concepts.COMMA p) concepts.
Proof.
  intros H. unfold Concepts.extract_key_concepts. rewrite H.
  destruct (split_concepts_parts (strip reply)) as (Hlen & Hall).
  eexists. split; [reflexivity|].
  split; [apply slice_to_length|]. split; [|split].
  - intros Hmax Hnil. unfold slice_to in Hnil.
    destruct (Z.leb_spec 0 max_concepts); [|lia].
    destruct (Concepts.split_concepts (strip reply)) as [|c cs'];
      [discriminate|].
    destruct (Z.to_nat max_concepts) eqn:E; [lia|discriminate].
  - intros Hmax. unfold slice_to.
    destruct (Z.leb_spec 0 max_concepts); [|lia].
    rewrite firstn_all2; [exact Hlen|]. rewrite Hlen. lia.
  - now apply Forall_slice_to.
Qed.

Lemma extract_key_concepts_bounds_witness :
  Concepts.extract_key_concepts
    (cs := Concepts.answering (lit " attention , transformers,, RAG "))
    (lit "body") 3 []
  = Ok [lit "attention"; lit "transformers"; lit ""]
  /\ Concepts.extract_key_concepts (cs := Concepts.answering (lit "  "))
       (lit "body") 5 [] = Ok [lit ""].
Proof.
  split.
  - destruct (@extract_key_concepts_bounds
                (Concepts.answering (lit " attention , transformers,, RAG "))
                (lit "body") (lit " attention , transformers,, RAG ")
                3%Z [] eq_refl) as (concepts & Hrun & _).
    rewrite Hrun. vm_compute in Hrun.
    injection Hrun as <-. reflexivity.
  - destruct (@extract_key_concepts_bounds
                (Concepts.answering (lit "  "))
                (lit "body") (lit "  ") 5%Z [] eq_refl)
      as (concepts & Hrun & _).
    rewrite Hrun. vm_compute in Hrun.
    injection Hrun as <-. reflexivity.
Defined.

(** ** Ingestion *)

Module IngestionFacts.
Import Ingestion.

Lemma content_rows_app (w1 w2 : FWorld) :
  content_rows (w1 ++ w2) = content_rows w1 ++ content_rows w2.
Proof.
  induction w1 as [|e w1 IH]; [reflexivity|].
  destruct e; simpl; now rewrite IH.
Qed.

Lemma fetches_app (w1 w2 : FWorld) :
  fetches (w1 ++ w2) = fetches w1 ++ fetches w2.
Proof.
  induction w1 as [|e w1 IH]; [reflexivity|].
  destruct e; simpl; now rewrite IH.
Qed.

Lemma content_rows_inserts (rows : list content_row) :
  content_rows (List.map EvInsertContent rows) = rows.
Proof. induction rows as [|r l IH]; [reflexivity|]. simpl. now rewrite IH. Qed.

Lemma fetches_inserts (rows : list content_row) :
  fetches (List.map EvInsertContent rows) = [].
Proof. induction rows as [|r l IH]; [reflexivity|exact IH]. Qed.

Section Facts.
Context {lib : PyLib} {html : Html} {src : Sources} {svc : Services}.

Lemma row_of_item_complete (it : content_item) :
  complete it = true <-> exists row, row_of_item it = Ok row.
Proof.
  unfold complete, row_of_item.
  destruct (ci_title it), (ci_content it), (ci_link it); split;
    try discriminate; try (intros [row H]; discriminate);
    try reflexivity; intros _; eexists; reflexivity.
Qed.

Lemma row_of_item_fields (it : content_item) (row : content_row) :
  row_of_item it = Ok row ->
  ci_title it = Some (cr_title row)
  /\ ci_content it = Some (cr_content row)
  /\ ci_link it = Some (cr_source_url row)
  /\ cr_embedding row
     = generate_embedding
         (cr_title row ++ NEWLINE ++ NEWLINE ++ cr_content row).
Proof.
  unfold row_of_item.
  destruct (ci_title it), (ci_content it), (ci_link it);
    try discriminate.
  intros H. inversion H; subst; clear H. cbn. auto.
Qed.

Lemma ingest_items_spec (items : list content_item) :
  forall (w : FWorld) (stored : list item),
  exists rows added,
    Forall2 (fun it row => row_of_item it = Ok row)
      (List.filter complete items) rows
    /\ ingest_items items w stored
       = (stored ++ added, w ++ List.map EvInsertContent rows)
    /\ (List.length added <= List.length rows)%nat
    /\ ((forall w0 r, exists data, insert_learning_content w0 r = Ok data)
        -> List.length added = List.length rows).
Proof.
  induction items as [|it rest IH]; intros w stored.
  - exists [], []. simpl. rewrite !app_nil_r.
    repeat split; constructor.
  - cbn [ingest_items List.filter].
    destruct (row_of_item it) as [row|e] eqn:Er.
    + assert (Hc : complete it = true)
        by (apply row_of_item_complete; eauto).
      rewrite Hc. unfold store_content.
      destruct (insert_learning_content w row) as [data|e] eqn:Ei.
      * destruct (IH (w ++ [EvInsertContent row])
                    (stored ++ [first_or empty_row data]))
          as (rows & added & HF & Hrun & Hlen & Hall).
        exists (row :: rows), (first_or empty_row data :: added).
        rewrite Hrun. cbn [List.map]. rewrite <- !app_assoc.
        split; [now constructor|]. split; [reflexivity|].
        split; [simpl; lia|].
        intros Hok. simpl. now rewrite (Hall Hok).
      * destruct (IH (w ++ [EvInsertContent row]) stored)
          as (rows & added & HF & Hrun & Hlen & Hall).
        exists (row :: rows), added.
        rewrite Hrun. cbn [List.map]. rewrite <- !app_assoc.
        split; [now constructor|]. split; [reflexivity|].
        split; [simpl; lia|].
        intros Hok. destruct (Hok w row) as (data & Hd). congruence.
    + assert (Hc : complete it = false).
      { destruct (complete it) eqn:E; [|reflexivity].
        apply row_of_item_complete in E as (row & Hrow). congruence. }
      rewrite Hc. apply IH.
Qed.

End Facts.
End IngestionFacts.

(** X11. [ingest_content_with_embeddings] calls the store once for
    every item that has a title, a content and a link, in the order of
    the items, whatever became of the items before it; each row carries
    the embedding of the title, two newlines and the content.  It
    returns at most one stored record per call, and exactly one when no
    call fails; items without one of the three keys are skipped without
    a call. *)
Theorem ingest_attempts_complete_items {html : Ingestion.Html}
  {src : Ingestion.Sources} {svc : Services}
  (items : list Ingestion.content_item) (w : Ingestion.FWorld) :
  exists rows,
    Forall2
      (fun it row =>
         Ingestion.ci_title it = Some (Ingestion.cr_title row)
         /\ Ingestion.ci_content it = Some (Ingestion.cr_content row)
         /\ Ingestion.ci_link it = Some (Ingestion.cr_source_url row)
         /\ Ingestion.cr_embedding row
            = generate_embedding
                (Ingestion.cr_title row ++ [10; 10]%N
                 ++ Ingestion.cr_content row))
      (List.filter Ingestion.complete items) rows
    /\ snd (Ingestion.ingest_content_with_embeddings items w)
       = w ++ List.map Ingestion.EvInsertContent rows
    /\ (List.length
          (fst (Ingestion.ingest_content_with_embeddings items w))
        <= List.length rows <= List.length items)%nat
    /\ ((forall w0 r,
            exists data, Ingestion.insert_learning_content w0 r = Ok data)
        -> List.length
             (fst (Ingestion.ingest_content_with_embeddings items w))
           = List.length rows).
Proof.
  unfold Ingestion.ingest_content_with_embeddings.
  destruct (IngestionFacts.ingest_items_spec items w [])
    as (rows & added & HF & Hrun & Hlen & Hall).
  exists rows. rewrite Hrun. cbn [fst snd app].
  split.
  - eapply Forall2_impl; [|exact HF].
    intros it row H. now apply IngestionFacts.row_of_item_fields in H.
  - split; [reflexivity|]. split; [|exact Hall].
    split; [exact Hlen|].
    rewrite <- (Forall2_length HF). apply filter_length_le.
Qed.

(** ** The fetcher *)

Module FetcherFacts.
Import Ingestion.

Section Facts.
Context {lib : PyLib} {html : Html} {src : Sources}.

Lemma item_of_entry_ok (url : str) (e : entry) (w : FWorld)
  (it : content_item) :
  item_of_entry url e w = Ok it ->
  fetched_from (lit "rss") url it
  /\ ci_title it = Some (get (e_title e) [])
  /\ e_content e <> Some [].
Proof.
  unfold item_of_entry, _extract_content.
  destruct (e_content e) as [[|v vs]|]; [discriminate| |];
    intros H.
  - inversion H; subst. repeat split; discriminate.
  - destruct (e_summary e), (e_description e); inversion H; subst;
      repeat split; discriminate.
Qed.

Lemma item_of_entry_raises (url : str) (e : entry) (w : FWorld) :
  e_content e = Some [] -> item_of_entry url e w = Raise INDEX_ERROR.
Proof. intros H. unfold item_of_entry, _extract_content. now rewrite H. Qed.

Lemma item_of_entry_returns (url : str) (e : entry) (w : FWorld) :
  e_content e <> Some [] -> exists it, item_of_entry url e w = Ok it.
Proof.
  intros H. unfold item_of_entry, _extract_content.
  destruct (e_content e) as [[|v vs]|]; [congruence| |].
  - eexists; reflexivity.
  - destruct (e_summary e), (e_description e); eexists; reflexivity.
Qed.

Lemma items_of_entries_ok (url : str) (entries : list entry) (w : FWorld) :
  forall acc items,
    items_of_entries url entries w acc = Ok items ->
    exists new,
      items = acc ++ new
      /\ Forall2
           (fun e it =>
              fetched_from (lit "rss") url it
              /\ ci_title it = Some (get (e_title e) []))
           entries new.
Proof.
  induction entries as [|e rest IH]; intros acc items H.
  - inversion H. exists []. split; [now rewrite app_nil_r|constructor].
  - cbn [items_of_entries] in H.
    destruct (item_of_entry url e w) as [it|x] eqn:E; [|discriminate].
    destruct (IH _ _ H) as (new & -> & HF).
    exists (it :: new). rewrite <- app_assoc.
    split; [reflexivity|]. constructor; [|assumption].
    destruct (item_of_entry_ok _ _ _ E) as (? & ? & _). now split.
Qed.

Lemma items_of_entries_raises (url : str) (entries : list entry)
  (w : FWorld) :
  (exists e, In e entries /\ e_content e = Some []) ->
  forall acc, exists x, items_of_entries url entries w acc = Raise x.
Proof.
  induction entries as [|e rest IH]; intros (e0 & Hin & He) acc.
  - destruct Hin.
  - cbn [items_of_entries].
    destruct (item_of_entry url e w) as [it|x] eqn:E; [|eauto].
    destruct Hin as [->|Hin].
    + rewrite item_of_entry_raises in E by assumption. discriminate.
    + apply IH. eauto.
Qed.

Lemma items_of_entries_returns (url : str) (entries : list entry)
  (w : FWorld) :
  Forall (fun e => e_content e <> Some []) entries ->
  forall acc, exists items, items_of_entries url entries w acc = Ok items.
Proof.
  induction 1 as [|e rest He Hrest IH]; intros acc.
  - eexists; reflexivity.
  - cbn [items_of_entries].
    destruct (item_of_entry_returns url e w He) as (it & ->). apply IH.
Qed.

Lemma fetch_rss_feed_trace (url : str) (max_items : Z) (w : FWorld) :
  snd (fetch_rss_feed url max_items w) = w ++ [EvParseFeed url].
Proof. reflexivity. Qed.

Lemma fetch_rss_feed_items (url : str) (max_items : Z) (w : FWorld) :
  Forall (fetched_from (lit "rss") url)
    (fst (fetch_rss_feed url max_items w))
  /\ ((0 <= max_items)%Z ->
      (Z.of_nat (List.length (fst (fetch_rss_feed url max_items w)))
       <= max_items)%Z).
Proof.
  unfold fetch_rss_feed. cbn [fst].
  destruct (feedparser_parse w url) as [entries|x];
    [|split; [constructor|simpl; lia]].
  destruct (items_of_entries url (slice_to entries max_items)
              (w ++ [EvParseFeed url]) []) as [items|x] eqn:E;
    [|split; [constructor|simpl; lia]].
  destruct (items_of_entries_ok _ _ _ _ E) as (new & -> & HF).
  simpl app. split.
  - clear E. induction HF as [|e it es its [H _] _ IH]; constructor;
      assumption.
  - intros Hmax. rewrite <- (Forall2_length HF).
    now apply slice_to_length.
Qed.

Lemma fetch_blog_post_item (url : str) (w : FWorld)
  (it : content_item) :
  fst (fetch_blog_post url w) = Some it ->
  fetched_from (lit "blog") url it /\ ci_link it = Some url.
Proof.
  unfold fetch_blog_post. cbn [fst].
  destruct (http_get w url) as [s|x]; [|discriminate].
  destruct (_extract_article_content s) as [content s1].
  intros H. inversion H; subst. repeat split.
Qed.

Lemma fetch_sources_spec (sources : list source) :
  forall (w : FWorld) (acc : list content_item),
  exists new ext,
    fetch_sources sources w acc = (acc ++ new, w ++ ext)
    /\ (List.length new <= 10 * List.length sources)%nat
    /\ Forall (fun it => complete it = true) new
    /\ fetches ext
       = List.map (fun s => get (src_url s) [])
           (List.filter fetchable sources)
    /\ content_rows ext = [].
Proof.
  induction sources as [|s rest IH]; intros w acc.
  - exists [], []. simpl. rewrite !app_nil_r.
    repeat split; constructor.
  - cbn [fetch_sources List.filter]. unfold fetchable at 1.
    destruct (str_eqb (get (src_type s) (lit "rss")) (lit "rss")) eqn:Er.
    + cbn [orb List.map].
      destruct (fetch_rss_feed (get (src_url s) []) DEFAULT_MAX_ITEMS w)
        as [items w1] eqn:Ef.
      pose proof (fetch_rss_feed_items (get (src_url s) [])
                    DEFAULT_MAX_ITEMS w) as (Hall & Hlen).
      pose proof (fetch_rss_feed_trace (get (src_url s) [])
                    DEFAULT_MAX_ITEMS w) as Hw.
      rewrite Ef in Hall, Hlen, Hw. cbn [fst snd] in Hall, Hlen, Hw.
      subst w1.
      destruct (IH (w ++ [EvParseFeed (get (src_url s) [])])
                  (acc ++ items))
        as (new & ext & Hrun & Hn & Hc & Hf & Hr).
      exists (items ++ new), (EvParseFeed (get (src_url s) []) :: ext).
      rewrite Hrun, <- !app_assoc.
      split; [reflexivity|]. split.
      { rewrite length_app. unfold DEFAULT_MAX_ITEMS in Hlen.
        specialize (Hlen ltac:(lia)). simpl List.length. lia. }
      split.
      { apply Forall_app. split; [|assumption].
        eapply Forall_impl; [|exact Hall]. now intros it [H _]. }
      split; [simpl; now rewrite Hf|exact Hr].
    + cbn [orb].
      destruct (str_eqb (get (src_type s) (lit "rss")) (lit "blog"))
        eqn:Eb.
      * cbn [List.map].
        destruct (fetch_blog_post (get (src_url s) []) w)
          as [found w1] eqn:Ef.
        assert (Hw : w1 = w ++ [EvGet (get (src_url s) [])]).
        { unfold fetch_blog_post in Ef. now inversion Ef. }
        subst w1.
        destruct found as [it|].
        -- destruct (IH (w ++ [EvGet (get (src_url s) [])]) (acc ++ [it]))
             as (new & ext & Hrun & Hn & Hc & Hf & Hr).
           exists (it :: new), (EvGet (get (src_url s) []) :: ext).
           rewrite Hrun, <- !app_assoc.
           split; [reflexivity|]. split; [simpl List.length; lia|].
           split.
           { constructor; [|assumption].
             pose proof (fetch_blog_post_item (get (src_url s) []) w) as H.
             rewrite Ef in H. now destruct (H it eq_refl) as [[? _] _]. }
           split; [simpl; now rewrite Hf|exact Hr].
        -- destruct (IH (w ++ [EvGet (get (src_url s) [])]) acc)
             as (new & ext & Hrun & Hn & Hc & Hf & Hr).
           exists new, (EvGet (get (src_url s) []) :: ext).
           rewrite Hrun, <- !app_assoc.
           split; [reflexivity|]. split; [simpl List.length; lia|].
           split; [assumption|].
           split; [simpl; now rewrite Hf|exact Hr].
      * destruct (IH w acc) as (new & ext & Hrun & Hn & Hc & Hf & Hr).
        exists new, ext. rewrite Hrun.
        split; [reflexivity|]. split; [simpl List.length; lia|].
        repeat split; assumption.
Qed.

End Facts.
End FetcherFacts.

(** X12. [fetch_rss_feed] never raises and parses the feed once.  For a
    non-negative [max_items] it returns at most that many items; every
    item carries a title, a content and a link, the type ["rss"] and
    the address of the feed.  When none of the first [max_items]
    entries has an empty content list there is one item per entry, in
    order, with the title of the entry (or the empty title); when one
    of them has, the whole feed gives no item. *)
Theorem fetch_rss_feed_all_or_nothing {lib : PyLib}
  {html : Ingestion.Html} {src : Ingestion.Sources}
  (url : str) (max_items : Z) (w : Ingestion.FWorld) :
  let run := Ingestion.fetch_rss_feed url max_items w in
  snd run = w ++ [Ingestion.EvParseFeed url]
  /\ Forall (fetched_from (lit "rss") url) (fst run)
  /\ ((0 <= max_items)%Z ->
      (Z.of_nat (List.length (fst run)) <= max_items)%Z)
  /\ (forall entries,
         Ingestion.feedparser_parse w url = Ok entries ->
         ((exists e,
              In e (slice_to entries max_items)
              /\ Ingestion.e_content e = Some []) ->
          fst run = [])
         /\ (Forall (fun e => Ingestion.e_content e <> Some [])
               (slice_to entries max_items) ->
             List.map Ingestion.ci_title (fst run)
             = List.map (fun e => Some (get (Ingestion.e_title e) []))
                 (slice_to entries max_items)))
  /\ (forall x, Ingestion.feedparser_parse w url = Raise x -> fst run = []).
Proof.
  intros run.
  destruct (FetcherFacts.fetch_rss_feed_items url max_items w)
    as (Hall & Hlen).
  split; [reflexivity|]. split; [exact Hall|]. split; [exact Hlen|].
  split.
  - intros entries Hp. unfold run, Ingestion.fetch_rss_feed.
    rewrite Hp. cbn [fst]. split.
    + intros Hbad.
      destruct (FetcherFacts.items_of_entries_raises url
                  (slice_to entries max_items)
                  (w ++ [Ingestion.EvParseFeed url]) Hbad [])
        as (x & ->).
      reflexivity.
    + intros Hgood.
      destruct (FetcherFacts.items_of_entries_returns url
                  (w ++ [Ingestion.EvParseFeed url]) Hgood [])
        as (items & Hrun).
      rewrite Hrun.
      destruct (FetcherFacts.items_of_entries_ok _ _ _ _ Hrun)
        as (new & -> & HF).
      simpl app. clear Hrun Hgood.
      induction HF as [|e it es its [_ Ht] _ IH]; [reflexivity|].
      simpl. now rewrite Ht, IH.
  - intros x Hp. unfold run, Ingestion.fetch_rss_feed. now rewrite Hp.
Qed.

Lemma fetch_rss_feed_all_or_nothing_witness :
  List.map Ingestion.ci_title
    (fst (Ingestion.fetch_rss_feed (lib := Demo.lib)
            (src := FetchDemo.sources []) FetchDemo.FEED 2 []))
  = [Some (lit "a"); Some (lit "b")]
  /\ fst (Ingestion.fetch_rss_feed (lib := Demo.lib)
            (src := FetchDemo.sources []) FetchDemo.BROKEN_FEED 10 [])
     = [].
Proof.
  split.
  - destruct (@fetch_rss_feed_all_or_nothing Demo.lib FetchDemo.html
                (FetchDemo.sources []) FetchDemo.FEED 2%Z [])
      as (_ & _ & _ & H & _).
    destruct (H _ eq_refl) as (_ & Hgood).
    rewrite Hgood; [reflexivity|].
    repeat constructor; discriminate.
  - destruct (@fetch_rss_feed_all_or_nothing Demo.lib FetchDemo.html
                (FetchDemo.sources []) FetchDemo.BROKEN_FEED 10%Z [])
      as (_ & _ & _ & H & _).
    destruct (H _ eq_refl) as (Hbad & _).
    apply Hbad. eexists. split; [right; left; reflexivity|reflexivity].
Defined.

(** X13. [fetch_multiple_sources] never raises.  It fetches, in order,
    the sources of type ["rss"] (the type of a source without one) and
    ["blog"], each once, at the address it carries, and makes no call
    for a source of another type.  It returns at most ten items per
    source, each with a title, a content and a link, and stores
    nothing. *)
Theorem fetch_multiple_sources_dispatch {lib : PyLib}
  {html : Ingestion.Html} {src : Ingestion.Sources}
  (sources : list Ingestion.source) (w : Ingestion.FWorld) :
  exists ext,
    snd (Ingestion.fetch_multiple_sources sources w) = w ++ ext
    /\ Ingestion.fetches ext
       = List.map (fun s => get (Ingestion.src_url s) [])
           (List.filter fetchable sources)
    /\ Ingestion.content_rows ext = []
    /\ (List.length (fst (Ingestion.fetch_multiple_sources sources w))
        <= 10 * List.length sources)%nat
    /\ Forall (fun it => Ingestion.complete it = true)
         (fst (Ingestion.fetch_multiple_sources sources w)).
Proof.
  unfold Ingestion.fetch_multiple_sources.
  destruct (FetcherFacts.fetch_sources_spec sources w [])
    as (new & ext & Hrun & Hn & Hc & Hf & Hr).
  exists ext. rewrite Hrun. cbn [fst snd app]. auto.
Qed.

(** ** The ingestion tools of the server *)

Module ToolFacts.
Import Ingestion.

Section Facts.
Context {lib : PyLib} {html : Html} {src : Sources} {svc : Services}.

Lemma get_content_sources_filter (source_type : str) (w : FWorld) :
  (if str_eqb source_type (lit "all") then get_content_sources None w
   else get_content_sources (Some source_type) w)
  = (select_content_sources w (source_filter source_type),
     w ++ [EvSelectSources (source_filter source_type)]).
Proof.
  unfold source_filter, get_content_sources.
  destruct (str_eqb source_type (lit "all")); reflexivity.
Qed.

Lemma ingest_fetched (items : list content_item) (w : FWorld) :
  Forall (fun it => complete it = true) items ->
  exists rows,
    snd (ingest_content_with_embeddings items w)
    = w ++ List.map EvInsertContent rows
    /\ List.length rows = List.length items
    /\ (List.length (fst (ingest_content_with_embeddings items w))
        <= List.length rows)%nat.
Proof.
  intros Hc. unfold ingest_content_with_embeddings.
  destruct (IngestionFacts.ingest_items_spec items w [])
    as (rows & added & HF & Hrun & Hlen & _).
  exists rows. rewrite Hrun. cbn [fst snd app].
  split; [reflexivity|]. split; [|exact Hlen].
  rewrite <- (Forall2_length HF). f_equal.
  clear HF Hrun. induction Hc as [|it l Hit _ IH]; [reflexivity|].
  simpl. now rewrite Hit, IH.
Qed.

End Facts.
End ToolFacts.

(** X14. [ingest_content_from_sources] does not depend on
    [max_items_per_source].  Without a source it reports
    ["No content sources found"] after the one query of the sources.
    Otherwise it succeeds: it sends every fetched item to the store, at
    most ten per source processed, and counts at most one ingested item
    per store call.  The types ["all"] and [""] query every source. *)
Theorem ingest_from_sources_pipeline {lib : PyLib}
  {html : Ingestion.Html} {src : Ingestion.Sources} {svc : Services}
  (source_type : str) (max_items_per_source : Z) (w : Ingestion.FWorld) :
  let run :=
    Ingestion.ingest_content_from_sources source_type
      max_items_per_source w in
  let w1 := w ++ [Ingestion.EvSelectSources (source_filter source_type)] in
  (forall m, Ingestion.ingest_content_from_sources source_type m w = run)
  /\ (Ingestion.select_content_sources w (source_filter source_type)
      = Ok [] ->
      run = (Tools.Failed Ingestion.NO_SOURCES, w1))
  /\ (forall e,
         Ingestion.select_content_sources w (source_filter source_type)
         = Raise e ->
         run = (Tools.Failed (str_of_exn e), w1))
  /\ (forall s sources,
         Ingestion.select_content_sources w (source_filter source_type)
         = Ok (s :: sources) ->
         exists r ext rows,
           run = (Tools.Succeeded r,
                  w1 ++ ext ++ List.map Ingestion.EvInsertContent rows)
           /\ Ingestion.content_rows ext = []
           /\ List.length rows
              = List.length
                  (fst (Ingestion.fetch_multiple_sources (s :: sources)
                          w1))
           /\ Ingestion.ig_sources_processed r
              = List.length (s :: sources)
           /\ (Ingestion.ig_items_ingested r <= List.length rows)%nat
           /\ (List.length rows
               <= 10 * Ingestion.ig_sources_processed r)%nat).
Proof.
  intros run w1.
  split; [reflexivity|].
  unfold run, Ingestion.ingest_content_from_sources.
  rewrite ToolFacts.get_content_sources_filter. fold w1.
  split; [now intros ->|]. split; [now intros e ->|].
  intros s sources ->. cbn [is_nil].
  unfold Ingestion.fetch_multiple_sources.
  destruct (FetcherFacts.fetch_sources_spec (s :: sources) w1 [])
    as (items & ext & Hf & Hlen & Hc & _ & Hrows).
  rewrite Hf. cbn [app fst].
  destruct (ToolFacts.ingest_fetched (w1 ++ ext) Hc)
    as (rows & Hw3 & Hrl & Hil).
  destruct (Ingestion.ingest_content_with_embeddings items (w1 ++ ext))
    as [stored w3] eqn:Ei.
  cbn [fst snd] in Hw3, Hil. subst w3.
  eexists. exists ext, rows. rewrite <- app_assoc.
  split; [reflexivity|]. cbn [Ingestion.ig_sources_processed
                                Ingestion.ig_items_ingested].
  repeat split; try assumption. lia.
Qed.

Lemma ingest_from_sources_pipeline_witness :
  let src :=
    FetchDemo.sources
      [FetchDemo.rss FetchDemo.FEED; FetchDemo.blog FetchDemo.POST;
       FetchDemo.rss FetchDemo.BROKEN_FEED;
       {| Ingestion.src_url := Some FetchDemo.FEED;
          Ingestion.src_type := Some (lit "atom") |}] in
  fst (Ingestion.ingest_content_from_sources (lib := Demo.lib)
         (src := src) (svc := Demo.services [] [] []) (lit "all") 1 [])
  = Tools.Succeeded
      {| Ingestion.ig_sources_processed := 4;
         Ingestion.ig_items_ingested := 4 |}
  /\ fst (Ingestion.ingest_content_from_sources (lib := Demo.lib)
            (src := FetchDemo.sources []) (svc := Demo.services [] [] [])
            (lit "rss") 10 [])
     = Tools.Failed (lit "No content sources found").
Proof.
  intros src. split.
  - destruct (@ingest_from_sources_pipeline Demo.lib FetchDemo.html src
                (Demo.services [] [] []) (lit "all") 1%Z [])
      as (_ & _ & _ & H).
    destruct (H _ _ eq_refl) as (r & ext & rows & Hrun & _).
    rewrite Hrun. vm_compute in Hrun. injection Hrun as <- _.
    reflexivity.
  - destruct (@ingest_from_sources_pipeline Demo.lib FetchDemo.html
                (FetchDemo.sources []) (Demo.services [] [] [])
                (lit "rss") 10%Z [])
      as (_ & H & _).
    now rewrite (H eq_refl).
Defined.

(** X15. [add_content_source] stores the source before it looks at its
    type.  Without immediate ingestion every type is accepted and
    nothing is fetched.  With immediate ingestion a type other than
    ["rss"] and ["blog"] is reported as a failure although the source
    has been stored, and nothing is fetched; a successful call reports
    at most ten ingested items. *)
Theorem add_content_source_validation {lib : PyLib}
  {html : Ingestion.Html} {src : Ingestion.Sources} {svc : Services}
  (source_url source_type : str) (tags : list str) (ingest_now : bool)
  (w : Ingestion.FWorld) (data : list Ingestion.source) :
  let row :=
    {| Ingestion.sr_source_url := source_url;
       Ingestion.sr_source_type := source_type;
       Ingestion.sr_tags := tags |} in
  let w1 := w ++ [Ingestion.EvInsertSource row] in
  let run :=
    Ingestion.add_content_source source_url source_type tags ingest_now w
  in
  Ingestion.insert_content_source w row = Ok data ->
  (ingest_now = false ->
   run = (Tools.Succeeded
            {| Ingestion.as_source :=
                 Ingestion.first_or Ingestion.empty_source data;
               Ingestion.as_ingested_count := 0 |}, w1))
  /\ (ingest_now = true ->
      str_eqb source_type (lit "rss") = false ->
      str_eqb source_type (lit "blog") = false ->
      run = (Tools.Failed (Ingestion.UNSUPPORTED ++ source_type), w1))
  /\ (exists ext rows,
         snd run = w1 ++ ext ++ List.map Ingestion.EvInsertContent rows
         /\ Ingestion.content_rows ext = []
         /\ (List.length (Ingestion.fetches ext) <= 1)%nat
         /\ (List.length rows <= 10)%nat
         /\ forall r,
             fst run = Tools.Succeeded r ->
             (Ingestion.as_ingested_count r <= List.length rows)%nat).
Proof.
  intros row w1 run Hins.
  unfold run, Ingestion.add_content_source, Ingestion.db_add_content_source.
  fold row. rewrite Hins. fold w1.
  split; [now intros ->|]. split; [now intros -> -> ->|].
  destruct ingest_now.
  2: { exists [], []. cbn. rewrite app_nil_r.
       repeat split; try lia. intros r H. inversion H; subst. cbn. lia. }
  destruct (str_eqb source_type (lit "rss")).
  - destruct (FetcherFacts.fetch_rss_feed_items source_url
                Ingestion.DEFAULT_MAX_ITEMS w1) as (Hall & Hlen).
    pose proof (FetcherFacts.fetch_rss_feed_trace source_url
                  Ingestion.DEFAULT_MAX_ITEMS w1) as Hw.
    destruct (Ingestion.fetch_rss_feed source_url
                Ingestion.DEFAULT_MAX_ITEMS w1) as [items w2].
    cbn [fst snd] in Hall, Hlen, Hw. subst w2.
    assert (Hc : Forall (fun it => Ingestion.complete it = true) items).
    { eapply Forall_impl; [|exact Hall]. now intros it [H _]. }
    destruct (ToolFacts.ingest_fetched
                (w1 ++ [Ingestion.EvParseFeed source_url]) Hc)
      as (rows & Hw3 & Hrl & Hil).
    destruct (Ingestion.ingest_content_with_embeddings items _)
      as [stored w3].
    cbn [fst snd] in Hw3, Hil |- *. subst w3.
    exists [Ingestion.EvParseFeed source_url], rows.
    rewrite <- app_assoc. split; [reflexivity|].
    unfold Ingestion.DEFAULT_MAX_ITEMS in Hlen.
    specialize (Hlen ltac:(lia)).
    repeat split; try (simpl; lia).
    intros r H. inversion H; subst. cbn. lia.
  - destruct (str_eqb source_type (lit "blog")).
    + destruct (Ingestion.fetch_blog_post source_url w1)
        as [found w2] eqn:Ef.
      assert (Hw : w2 = w1 ++ [Ingestion.EvGet source_url]).
      { unfold Ingestion.fetch_blog_post in Ef. now inversion Ef. }
      subst w2.
      assert (Hc : Forall (fun it => Ingestion.complete it = true)
                     match found with Some it => [it] | None => [] end).
      { destruct found as [it|]; [|constructor].
        constructor; [|constructor].
        pose proof (FetcherFacts.fetch_blog_post_item source_url w1) as H.
        rewrite Ef in H. now destruct (H it eq_refl) as [[? _] _]. }
      destruct (ToolFacts.ingest_fetched
                  (w1 ++ [Ingestion.EvGet source_url]) Hc)
        as (rows & Hw3 & Hrl & Hil).
      destruct (Ingestion.ingest_content_with_embeddings _ _)
        as [stored w3].
      cbn [fst snd] in Hw3, Hil |- *. subst w3.
      exists [Ingestion.EvGet source_url], rows.
      rewrite <- app_assoc. split; [reflexivity|].
      assert (List.length rows <= 1)%nat
        by (rewrite Hrl; destruct found; simpl; lia).
      repeat split; try (simpl; lia).
      intros r H0. inversion H0; subst. cbn. lia.
    + exists [], []. cbn. rewrite app_nil_r.
      repeat split; try lia. intros r H. discriminate.
Qed.

Lemma add_content_source_validation_witness :
  Ingestion.add_content_source (lib := Demo.lib)
    (src := FetchDemo.sources []) (svc := Demo.services [] [] [])
    FetchDemo.FEED (lit "atom") [] true []
  = (Tools.Failed (lit "Unsupported source_type: atom"),
     [Ingestion.EvInsertSource
        {| Ingestion.sr_source_url := FetchDemo.FEED;
           Ingestion.sr_source_type := lit "atom";
           Ingestion.sr_tags := [] |}])
  /\ fst (Ingestion.add_content_source (lib := Demo.lib)
            (src := FetchDemo.sources []) (svc := Demo.services [] [] [])
            FetchDemo.FEED (lit "atom") [] false [])
     = Tools.Succeeded
         {| Ingestion.as_source :=
              {| Ingestion.src_url := Some FetchDemo.FEED;
                 Ingestion.src_type := Some (lit "atom") |};
            Ingestion.as_ingested_count := 0 |}.
Proof.
  split.
  - apply (proj1 (proj2
             (@add_content_source_validation Demo.lib FetchDemo.html
                (FetchDemo.sources []) (Demo.services [] [] [])
                FetchDemo.FEED (lit "atom") [] true [] _ eq_refl)));
      reflexivity.
  - rewrite (proj1
               (@add_content_source_validation Demo.lib FetchDemo.html
                  (FetchDemo.sources []) (Demo.services [] [] [])
                  FetchDemo.FEED (lit "atom") [] false [] _ eq_refl)
               eq_refl).
    reflexivity.
Defined.

(** ** A fetched page *)

(** X16. [fetch_blog_post] never raises and requests the page once; a
    failed request gives no item.  Otherwise the item carries a title,
    a content and a link, the type ["blog"] and the address requested
    as link and as source; its title is the text of the first [h1], or
    else of the [title], or else empty; its tags are read from the page
    as the clean-up of the article left it: none without a keywords
    tag, else one more than the keywords have commas, each without a
    comma and without whitespace at its ends. *)
Theorem fetch_blog_post_well_formed {lib : PyLib}
  {html : Ingestion.Html} {src : Ingestion.Sources}
  (url : str) (w : Ingestion.FWorld) :
  let run := Ingestion.fetch_blog_post url w in
  snd run = w ++ [Ingestion.EvGet url]
  /\ (forall x, Ingestion.http_get w url = Raise x -> fst run = None)
  /\ (forall s,
         Ingestion.http_get w url = Ok s ->
         let s1 := snd (Ingestion._extract_article_content s) in
         exists it tags,
           fst run = Some it
           /\ fetched_from (lit "blog") url it
           /\ Ingestion.ci_link it = Some url
           /\ (forall t,
                  Ingestion.find s (lit "h1") = Some t ->
                  Ingestion.ci_title it = Some (Ingestion.get_text t))
           /\ (forall t,
                  Ingestion.find s (lit "h1") = None ->
                  Ingestion.find s (lit "title") = Some t ->
                  Ingestion.ci_title it = Some (Ingestion.get_text t))
           /\ (Ingestion.find s (lit "h1") = None ->
               Ingestion.find s (lit "title") = None ->
               Ingestion.ci_title it = Some [])
           /\ Ingestion.ci_tags it = Some tags
           /\ Forall (fun p => strip p = p /\ ~ In Concepts.COMMA p) tags
           /\ (Ingestion.find_meta s1 (lit "keywords") = None ->
               tags = [])
           /\ (forall k,
                  Ingestion.find_meta s1 (lit "keywords") = Some k ->
                  List.length tags
                  = S (count_occ N.eq_dec
                         (get (Ingestion.get_content k) [])
                         Concepts.COMMA))).
Proof.
  intros run. unfold run, Ingestion.fetch_blog_post. cbn [fst snd].
  split; [reflexivity|]. split; [now intros x ->|].
  intros s Hs. rewrite Hs. cbv zeta.
  destruct (Ingestion._extract_article_content s) as [content s1].
  cbn [snd].
  eexists. exists (Ingestion._extract_meta_tags s1).
  split; [reflexivity|]. cbn [Ingestion.ci_title Ingestion.ci_tags
                               Ingestion.ci_link].
  split; [repeat split|]. split; [reflexivity|].
  split; [now intros t ->|]. split; [now intros t -> ->|].
  split; [now intros -> ->|]. split; [reflexivity|].
  unfold Ingestion._extract_meta_tags.
  destruct (Ingestion.find_meta s1 (lit "keywords")) as [k|].
  - destruct (split_concepts_parts (get (Ingestion.get_content k) []))
      as (Hlen & Hall).
    split; [exact Hall|]. split; [discriminate|].
    intros k' H. inversion H; subst. exact Hlen.
  - split; [constructor|]. split; [reflexivity|discriminate].
Qed.

Lemma fetch_blog_post_well_formed_witness :
  exists it,
    fst (Ingestion.fetch_blog_post (lib := Demo.lib)
           (src := FetchDemo.sources []) FetchDemo.POST [])
    = Some it
    /\ Ingestion.ci_title it = Some (lit "A post")
    /\ Ingestion.ci_tags it = Some [lit "rag"; lit "agents"; lit ""]
    /\ Ingestion.ci_content it = Some (lit "one" ++ [10%N] ++ lit "two").
Proof.
  destruct (@fetch_blog_post_well_formed Demo.lib FetchDemo.html
              (FetchDemo.sources []) FetchDemo.POST [])
    as (_ & _ & H).
  destruct (H _ eq_refl) as (it & tags & Hrun & _ & _ & _ & Ht & _).
  exists it. split; [exact Hrun|].
  split; [exact (Ht _ eq_refl eq_refl)|].
  vm_compute in Hrun. inversion Hrun. split; reflexivity.
Defined.

Lemma ingest_attempts_complete_items_witness :
  let items :=
    fst (Ingestion.fetch_rss_feed (lib := Demo.lib)
           (src := FetchDemo.sources []) FetchDemo.FEED 10 []) in
  let incomplete :=
    {| Ingestion.ci_title := Some (lit "x"); Ingestion.ci_link := None;
       Ingestion.ci_summary := None; Ingestion.ci_content := Some [];
       Ingestion.ci_published := None; Ingestion.ci_author := None;
       Ingestion.ci_tags := None; Ingestion.ci_source_type := None;
       Ingestion.ci_source_url := None |} in
  let src :=
    FetchDemo.scripted FetchDemo.feeds FetchDemo.pages
      (fun r => str_eqb (Ingestion.cr_title r) (lit "b")) []
      Demo.NOON_1_JUNE_2024 in
  exists rows,
    snd (Ingestion.ingest_content_with_embeddings (src := src)
           (svc := Demo.services [] [] []) (incomplete :: items) [])
    = [] ++ List.map Ingestion.EvInsertContent rows
    /\ (List.length rows <= 4)%nat
    /\ List.map Ingestion.cr_title
         (Ingestion.content_rows
            (snd (Ingestion.ingest_content_with_embeddings (src := src)
                    (svc := Demo.services [] [] []) (incomplete :: items)
                    [])))
       = [lit "a"; lit "b"; lit "c"]
    /\ List.map it_title
         (fst (Ingestion.ingest_content_with_embeddings (src := src)
                 (svc := Demo.services [] [] []) (incomplete :: items)
                 []))
       = [Some (lit "a"); Some (lit "c")].
Proof.
  intros items incomplete src.
  destruct (@ingest_attempts_complete_items FetchDemo.html src
              (Demo.services [] [] []) (incomplete :: items) [])
    as (rows & _ & Hw & (_ & Hlen) & _).
  exists rows. split; [exact Hw|]. split; [exact Hlen|].
  split; reflexivity.
Defined.

Lemma fetch_multiple_sources_dispatch_witness :
  let sources :=
    [{| Ingestion.src_url := Some FetchDemo.FEED;
        Ingestion.src_type := None |};
     {| Ingestion.src_url := Some FetchDemo.FEED;
        Ingestion.src_type := Some (lit "atom") |};
     FetchDemo.blog FetchDemo.POST] in
  exists ext,
    snd (Ingestion.fetch_multiple_sources (lib := Demo.lib)
           (src := FetchDemo.sources []) sources [])
    = [] ++ ext
    /\ Ingestion.fetches ext = [FetchDemo.FEED; FetchDemo.POST].
Proof.
  intros sources.
  destruct (@fetch_multiple_sources_dispatch Demo.lib FetchDemo.html
              (FetchDemo.sources []) sources [])
    as (ext & Hw & Hf & _).
  exists ext. split; [exact Hw|]. rewrite Hf. reflexivity.
Defined.

(** ** Freshness of a date without offset *)

(** X17. [_calculate_freshness] always returns and makes no call.  An
    empty or unparseable date gives 0.5.  A date that parses without a
    UTC offset gives the step function of its age in whole days,
    rounded down: 1.0 up to 0 days, 0.9 up to 7, 0.7 up to 30, 0.4 up
    to 90 and 0.2 beyond; an older date never gives a larger value. *)
Theorem freshness_step_function {lib : PyLib} {svc : Services}
  (p : str) (w : World) :
  (exists x, _calculate_freshness p w = (Ok x, w) /\ in_unit x)
  /\ (p = [] -> _calculate_freshness p w = (Ok (Fin 0.5), w))
  /\ (fromisoformat (replace_char 90%N (lit "+00:00") p) = None ->
      _calculate_freshness p w = (Ok (Fin 0.5), w))
  /\ (forall pub,
         p <> [] ->
         fromisoformat (replace_char 90%N (lit "+00:00") p) = Some pub ->
         dt_utcoffset pub = None ->
         let age := ((clock w - dt_wall pub) / 86400000000)%Z in
         _calculate_freshness p w = (Ok (freshness_of_age age), w)
         /\ ((age <= 0)%Z -> freshness_of_age age = Fin 1.0)
         /\ ((0 < age <= 7)%Z -> freshness_of_age age = Fin 0.9)
         /\ ((7 < age <= 30)%Z -> freshness_of_age age = Fin 0.7)
         /\ ((30 < age <= 90)%Z -> freshness_of_age age = Fin 0.4)
         /\ ((90 < age)%Z -> freshness_of_age age = Fin 0.2))
  /\ (forall age1 age2,
         (age1 <= age2)%Z ->
         f_le (freshness_of_age age2) (freshness_of_age age1) = true).
Proof.
  split; [apply calculate_freshness_total|].
  split; [now intros ->|].
  split; [apply calculate_freshness_unparseable|].
  split; [|apply freshness_of_age_antitone].
  intros pub Hp Hpub Hn age.
  split; [now apply calculate_freshness_naive|].
  apply freshness_of_age_steps.
Qed.

Lemma freshness_step_function_witness :
  _calculate_freshness (lib := Demo.lib)
    (svc := Demo.services [] [] Demo.TOPICS)
    (lit "2024-05-30T09:00:00") []
  = (Ok (Fin 0.9), [])
  /\ _calculate_freshness (lib := Demo.lib)
       (svc := Demo.services [] [] Demo.TOPICS)
       (lit "last week") []
     = (Ok (Fin 0.5), []).
Proof.
  destruct (@freshness_step_function Demo.lib
              (Demo.services [] [] Demo.TOPICS)
              (lit "2024-05-30T09:00:00") [])
    as (_ & _ & _ & Hstep & _).
  destruct (@freshness_step_function Demo.lib
              (Demo.services [] [] Demo.TOPICS) (lit "last week") [])
    as (_ & _ & Hbad & _).
  split; [|apply Hbad; reflexivity].
  pose proof (Hstep {| dt_wall :=
                         Demo.wall_of (lit "2024-05-30T09:00:00");
                       dt_utcoffset := None |}
                ltac:(discriminate) eq_refl eq_refl) as Hs.
  cbv zeta in Hs. destruct Hs as (Hrun & _).
  rewrite Hrun. reflexivity.
Defined.

(** ** A candidate without content *)

(** X18. A candidate without a content key raises [KeyError] before
    any call is made, in the scorer and in the insight step alike, and
    the loop over the candidates passes over it: the candidates after
    it are processed as if it were not in the list. *)
Theorem candidate_without_content_skipped {lib : PyLib} {svc : Services}
  (it : item) (ctx : user_context) (w : World) :
  it_content it = None ->
  _calculate_relevance_score it ctx w
  = (Raise (KeyError (lit "content")), w)
  /\ insight_of_item it ctx w = (Raise (KeyError (lit "content")), w)
  /\ forall rest acc,
      collect_insights (it :: rest) ctx acc w
      = collect_insights rest ctx acc w.
Proof.
  intros H.
  assert (Hi : insight_of_item it ctx w
               = (Raise (KeyError (lit "content")), w)).
  { unfold insight_of_item. now rewrite H. }
  split; [|split; [exact Hi|]].
  - unfold _calculate_relevance_score. now rewrite H.
  - intros rest acc. rewrite collect_insights_cons. now rewrite Hi.
Qed.

Lemma candidate_without_content_skipped_witness :
  let bare :=
    {| it_id := Some 9%Z; it_title := None; it_content := None;
       it_source_url := None; it_similarity := Some (Fin 0.9);
       it_metadata := None |} in
  collect_insights (lib := Demo.lib)
    (svc := Demo.services [] [] Demo.TOPICS)
    [bare; Demo.doc_recent] (Demo.context Demo.TOPICS) [] []
  = collect_insights (lib := Demo.lib)
      (svc := Demo.services [] [] Demo.TOPICS)
      [Demo.doc_recent] (Demo.context Demo.TOPICS) [] [].
Proof.
  intros bare.
  apply (@candidate_without_content_skipped Demo.lib
           (Demo.services [] [] Demo.TOPICS) bare
           (Demo.context Demo.TOPICS) [] eq_refl).
Defined.

(** ** The fused score grows with its signals *)

(** X19. The relevance score never decreases when a signal increases:
    for finite signals, a larger similarity, a larger topic relevance
    or a larger freshness gives a rounded score at least as large. *)
Theorem relevance_score_monotone (s1 s2 t1 t2 f1 f2 : Q) :
  (s1 <= s2)%Q -> (t1 <= t2)%Q -> (f1 <= f2)%Q ->
  f_le
    (py_round (weighted_combination (Fin s1) (Fin t1) (Fin f1)) 3)
    (py_round (weighted_combination (Fin s2) (Fin t2) (Fin f2)) 3)
  = true.
Proof.
  intros Hs Ht Hf.
  now apply py_round_keeps_order, weighted_combination_monotone.
Qed.

Lemma relevance_score_monotone_witness :
  f_le
    (py_round (weighted_combination (Fin 0.4) (Fin 0.5) (Fin 0.5)) 3)
    (py_round (weighted_combination (Fin 0.6) (Fin 0.8) (Fin 0.9)) 3)
  = true.
Proof.
  apply relevance_score_monotone; lra.
Defined.

(** ** The searches of a digest build *)

Lemma calls_no_searches (c i : nat) (ext : World) :
  calls 0 c i ext -> searches ext = [].
Proof.
  intros (H & _). destruct (searches ext); [reflexivity|simpl in H; lia].
Qed.

(** What [generate_daily_digest] does with the candidates it retrieved
    involves no search. *)
Lemma digest_after_retrieval_no_search {lib : PyLib} {svc : Services}
  (relevant : list item) (p : user_progress) (n : Z) (w1 : World) :
  (0 <= n)%Z ->
  exists ext,
    snd ((if is_nil relevant then
            now <- utcnow ;;
            ret (no_content_digest (isoformat (dt_wall now)))
          else
            insights <-
              generate_insights_from_content relevant
                (context_of_progress p) n ;;
            _ <- store_insights insights (up_current_week p) ;;
            summary <-
              generate_daily_digest_summary (List.map in_insight insights)
                (context_of_progress p) ;;
            now <- utcnow ;;
            ret {| dg_date := isoformat (dt_wall now);
                   dg_week := Some (up_current_week p);
                   dg_topics := Some (up_current_topics p);
                   dg_summary := summary;
                   dg_insights := insights;
                   dg_total_insights := Some (List.length insights) |}) w1)
    = w1 ++ ext
    /\ searches ext = [].
Proof.
  intros Hn. destruct relevant as [|c cs]; cbn [is_nil].
  - exists []. cbn. now rewrite app_nil_r.
  - destruct (digest_tail_calls (c :: cs) p w1 Hn) as (e & Hw & H).
    exists e. split; [exact Hw|exact (calls_no_searches H)].
Qed.

(** X20. A digest build for [n >= 0] insights, for a learner whose
    topics give a query, searches for twice as many candidates as it was
    asked insights: its searches are the primary one with limit [2 n],
    followed by the relaxed one, with the same limit, exactly when the
    primary one found nothing; both are for the embedding of the topics
    joined by spaces. *)
Theorem digest_searches_twice_the_target {lib : PyLib} {svc : Services}
  (n : Z) (w : World) (p : user_progress) (rows : list user_progress) :
  (0 <= n)%Z ->
  select_user_progress w = Ok (p :: rows) ->
  join (lit " ") (up_current_topics p) <> [] ->
  let q := encode (join (lit " ") (up_current_topics p)) in
  let primary :=
    {| sc_query_embedding := q;
       sc_match_threshold := 0.25;
       sc_match_count := n * 2 |} in
  let relaxed :=
    {| sc_query_embedding := q;
       sc_match_threshold := 0.15;
       sc_match_count := n * 2 |} in
  exists ext,
    snd (generate_daily_digest n w) = w ++ ext
    /\ (searches ext = [primary] \/ searches ext = [primary; relaxed])
    /\ (searches ext = [primary; relaxed]
        <-> match_learning_content (w ++ [EvSelectProgress]) primary
            = Ok []).
Proof.
  intros Hn Hp Hq q primary relaxed.
  unfold generate_daily_digest, bind at 1, get_user_progress.
  rewrite Hp. cbn [hd_error].
  pose proof (@retrieve_run svc (context_of_progress p) (n * 2)
                (w ++ [EvSelectProgress]) Hq) as Hrun.
  cbn [context_of_progress uc_current_topics get] in Hrun.
  cbv zeta in Hrun.
  change (generate_embedding (join (lit " ") (up_current_topics p)))
    with q in Hrun.
  change (search_request q (n * 2) 0.25) with primary in Hrun.
  change (search_request q (n * 2) 0.15) with relaxed in Hrun.
  unfold bind at 1. rewrite Hrun. clear Hrun.
  set (w0 := w ++ [EvSelectProgress]).
  assert (Hstep : forall (r : result (list item)) (found : list event),
    exists ext,
      snd (match r with
           | Ok relevant =>
               (if is_nil relevant then
                  now <- utcnow ;;
                  ret (no_content_digest (isoformat (dt_wall now)))
                else
                  insights <-
                    generate_insights_from_content relevant
                      (context_of_progress p) n ;;
                  _ <- store_insights insights (up_current_week p) ;;
                  summary <-
                    generate_daily_digest_summary
                      (List.map in_insight insights)
                      (context_of_progress p) ;;
                  now <- utcnow ;;
                  ret {| dg_date := isoformat (dt_wall now);
                         dg_week := Some (up_current_week p);
                         dg_topics := Some (up_current_topics p);
                         dg_summary := summary;
                         dg_insights := insights;
                         dg_total_insights :=
                           Some (List.length insights) |}) (w0 ++ found)
           | Raise e => (Raise e, w0 ++ found)
           end)
      = w ++ ext
      /\ searches ext = searches found).
  { intros [relevant|e] found.
    - destruct (digest_after_retrieval_no_search relevant p
                  (w0 ++ found) Hn) as (e2 & Hw & Hs).
      exists ([EvSelectProgress] ++ found ++ e2).
      rewrite Hw. unfold w0. rewrite <- !app_assoc.
      split; [reflexivity|].
      rewrite !searches_app, Hs, app_nil_r. reflexivity.
    - exists ([EvSelectProgress] ++ found). unfold w0.
      rewrite <- app_assoc. split; reflexivity. }
  destruct (match_learning_content w0 primary) as [[|c cs]|e] eqn:E1.
  - destruct (Hstep (match_learning_content (w0 ++ [EvSearch primary])
                       relaxed) [EvSearch primary; EvSearch relaxed])
      as (ext & Hw & Hs).
    exists ext. split; [|rewrite Hs; cbn; split; [now right|tauto]].
    rewrite <- Hw.
    destruct (match_learning_content (w0 ++ [EvSearch primary]) relaxed);
      reflexivity.
  - destruct (Hstep (Ok (c :: cs)) [EvSearch primary]) as (ext & Hw & Hs).
    exists ext. split; [exact Hw|]. rewrite Hs. cbn.
    split; [now left|]. split; discriminate.
  - destruct (Hstep (Raise e) [EvSearch primary]) as (ext & Hw & Hs).
    exists ext. split; [exact Hw|]. rewrite Hs. cbn.
    split; [now left|]. split; discriminate.
Qed.

Lemma digest_searches_twice_the_target_witness :
  let svc := Demo.services [Demo.doc_recent; Demo.doc_utc] [] Demo.TOPICS in
  let primary :=
    {| sc_query_embedding :=
         encode (Services := svc) (lit "transformers attention");
       sc_match_threshold := 0.25;
       sc_match_count := 6 |} in
  exists ext,
    snd (generate_daily_digest (lib := Demo.lib) (svc := svc) 3 [])
    = [] ++ ext
    /\ searches ext = [primary].
Proof.
  intros svc primary.
  destruct (@digest_searches_twice_the_target Demo.lib svc 3 []
              (Demo.learner Demo.TOPICS) [] ltac:(lia) eq_refl
              ltac:(discriminate)) as (ext & Hw & [H1|H2] & Hiff).
  - exists ext. split; [exact Hw|exact H1].
  - apply (proj1 Hiff) in H2. discriminate H2.
Defined.
